(** * The Acoem NE-300 / Aurora 3000 nephelometer driver (mkndaq/inst/neph.py)

    A shallow embedding of the binary (ACOEM) wire protocol code of class
    [NEPH]: checksum, packed timestamps, frame construction, response and
    logged-data decoding, the socket read loop, and the operations
    [set_values] and [get_current_operation].

    Python values are modelled as follows (Python 3.11 or later, where
    [int.from_bytes] and [int.to_bytes] default to big-endian).
    - [int] is [Z] (unbounded); [bytes] is [list Z], every element of a
      well-formed value lying in [0, 256).
    - [str] is [string].
    - An exception is the constructor [Raise] of [result]; a
      [try: ... except Exception as err: ... return v] block is
      [try_except body (Ok v)].  Logging and printing are not modelled,
      and the [verbosity] arguments, which only select what is printed,
      are left out.
    - A [dict] is an association list in insertion order. *)

From Stdlib Require Import ZArith List String Ascii Bool Lia DecimalString.
Import ListNotations.

Local Open Scope Z_scope.

(** ** Python builtins used by the driver *)
Module Py.

Inductive exn : Type :=
| ValueError
| OverflowError
| IndexError
| KeyError
| TypeError
| AttributeError
| UnicodeDecodeError
| StructError      (* struct.error *)
| SocketTimeout    (* socket.timeout *)
| Warning.

Inductive result (A : Type) : Type :=
| Ok (a : A)
| Raise (e : exn).

Arguments Ok {A} a.
Arguments Raise {A} e.

Definition bind {A B : Type} (r : result A) (k : A -> result B) : result B :=
  match r with
  | Ok a => k a
  | Raise e => Raise e
  end.

(** [try: body  except Exception: handler] *)
Definition try_except {A : Type} (body handler : result A) : result A :=
  match body with
  | Ok a => Ok a
  | Raise _ => handler
  end.

Definition raises {A : Type} (r : result A) : Prop := exists e, r = Raise e.

Definition bytes : Type := list Z.

Definition is_byte (x : Z) : Prop := 0 <= x < 256.

Definition is_byteb (x : Z) : bool := (0 <=? x) && (x <? 256).

Definition len {A : Type} (l : list A) : Z := Z.of_nat (List.length l).

(** [range(n)] *)
Definition range (n : Z) : list Z := map Z.of_nat (seq 0 (Z.to_nat n)).

(** [range(start, stop, step)] for a positive step *)
Definition range3 (start stop step : Z) : list Z :=
  map (fun k => start + step * Z.of_nat k)
      (seq 0 (Z.to_nat ((stop - start + step - 1) / step))).

(** An index or slice bound, brought into [0, len] the way Python does. *)
Definition clamp (n i : Z) : Z :=
  if i <? 0 then Z.max 0 (i + n) else Z.min i n.

(** [l[lo:hi]]: never raises; out-of-range bounds are clipped. *)
Definition slice {A : Type} (l : list A) (lo hi : Z) : list A :=
  let a := clamp (len l) lo in
  let b := clamp (len l) hi in
  firstn (Z.to_nat (b - a)) (skipn (Z.to_nat a) l).

(** [l[i]]: raises IndexError outside [-len, len). *)
Definition getitem {A : Type} (l : list A) (i : Z) : result A :=
  let j := if i <? 0 then i + len l else i in
  if j <? 0 then Raise IndexError
  else match nth_error l (Z.to_nat j) with
       | Some x => Ok x
       | None => Raise IndexError
       end.

(** [bytes([x0, x1, ...])]: every item must be in range(0, 256). *)
Definition bytes_of_ints (l : list Z) : result bytes :=
  if forallb is_byteb l then Ok l else Raise ValueError.

(** [int.from_bytes(b)]: big-endian, unsigned (the defaults). *)
Definition int_from_bytes (b : bytes) : Z :=
  fold_left (fun acc x => acc * 256 + x) b 0.

Fixpoint be_digits (n : nat) (v : Z) : bytes :=
  match n with
  | O => []
  | S k => be_digits k (v / 256) ++ [v mod 256]
  end.

(** [v.to_bytes(n)]: big-endian, unsigned (the defaults). *)
Definition int_to_bytes (v : Z) (n : nat) : result bytes :=
  if v <? 0 then Raise OverflowError
  else if 256 ^ Z.of_nat n <=? v then Raise OverflowError
  else Ok (be_digits n v).

Fixpoint ends_with_rev (rl rsuffix : bytes) : bool :=
  match rsuffix, rl with
  | [], _ => true
  | _ :: _, [] => false
  | x :: rs, y :: r => (x =? y) && ends_with_rev r rs
  end.

(** [b.endswith(suffix)] *)
Definition endswith (b suffix : bytes) : bool :=
  ends_with_rev (rev b) (rev suffix).

(** ASCII whitespace as removed by [bytes.strip()]. *)
Definition is_space (x : Z) : bool :=
  (x =? 32) || (x =? 9) || (x =? 10) || (x =? 13) || (x =? 11) || (x =? 12).

Fixpoint lstrip (b : bytes) : bytes :=
  match b with
  | [] => []
  | x :: r => if is_space x then lstrip r else b
  end.

(** [b.strip()] *)
Definition strip (b : bytes) : bytes := rev (lstrip (rev (lstrip b))).

(** *** Strings *)

Local Open Scope string_scope.

Fixpoint bin_pos (p : positive) (acc : string) : string :=
  match p with
  | xH => String "1" acc
  | xO q => bin_pos q (String "0" acc)
  | xI q => bin_pos q (String "1" acc)
  end.

(** [bin(n)] *)
Definition bin (n : Z) : string :=
  match n with
  | Z0 => "0b0"
  | Zpos p => "0b" ++ bin_pos p ""
  | Zneg p => "-0b" ++ bin_pos p ""
  end.

(** [s[n:]] for [n >= 0] *)
Fixpoint str_from (n : nat) (s : string) : string :=
  match n, s with
  | O, _ => s
  | S k, EmptyString => EmptyString
  | S k, String _ r => str_from k r
  end.

Fixpoint zeros (n : nat) : string :=
  match n with
  | O => ""
  | S k => String "0" (zeros k)
  end.

(** [s.zfill(width)]: pads on the left with "0", after a leading sign. *)
Definition zfill (width : nat) (s : string) : string :=
  let pad := zeros (width - String.length s) in
  match s with
  | String c r =>
      if (Ascii.eqb c "+" || Ascii.eqb c "-")%bool then String c (pad ++ r)
      else pad ++ s
  | EmptyString => pad
  end.

Fixpoint bits_value (s : string) (acc : Z) : option Z :=
  match s with
  | EmptyString => Some acc
  | String c r =>
      if Ascii.eqb c "0" then bits_value r (2 * acc)
      else if Ascii.eqb c "1" then bits_value r (2 * acc + 1)
      else None
  end.

(** [int(s, base=2)] on strings made of the characters [+ - 0 1 b B]:
    an optional sign, an optional "0b"/"0B" prefix at the very start, then
    at least one binary digit.  (Python also accepts surrounding
    whitespace and single underscores between digits; the driver never
    builds such strings.) *)
Definition int_base2 (s : string) : result Z :=
  let '(neg, body) :=
    match s with
    | String c r =>
        if Ascii.eqb c "-" then (true, r)
        else if Ascii.eqb c "+" then (false, r)
        else (false, s)
    | EmptyString => (false, s)
    end in
  let digits :=
    match body with
    | String c0 (String c1 r) =>
        if (Ascii.eqb c0 "0" && (Ascii.eqb c1 "b" || Ascii.eqb c1 "B"))%bool
        then r else body
    | _ => body
    end in
  match digits with
  | EmptyString => Raise ValueError
  | _ => match bits_value digits 0 with
         | Some v => Ok (if neg then - v else v)
         | None => Raise ValueError
         end
  end.

Definition digit (d : Z) : ascii := ascii_of_nat (48 + Z.to_nat (d mod 10)).

(** [n] in decimal, at least [width] digits, zero padded. *)
Fixpoint dec_pad (width : nat) (n : Z) : string :=
  match width with
  | O => ""
  | S k => dec_pad k (n / 10) ++ String (digit n) ""
  end.

Definition bytes_of_string (s : string) : bytes :=
  map (fun c => Z.of_nat (nat_of_ascii c)) (list_ascii_of_string s).

Definition string_of_bytes (b : bytes) : string :=
  string_of_list_ascii (map (fun x => ascii_of_nat (Z.to_nat x)) b).

(** [b.decode()] for 7-bit replies.  On a byte above 127 Python either
    raises UnicodeDecodeError or yields a string with a non-ASCII
    character; the model raises in both cases. *)
Definition bytes_decode (b : bytes) : result string :=
  if forallb (fun x => ((0 <=? x)%Z && (x <? 128)%Z)%bool) b
  then Ok (string_of_bytes b)
  else Raise UnicodeDecodeError.

Local Close Scope string_scope.

(** *** datetime.datetime (naive) *)

Record datetime : Type := mk_datetime {
  year : Z;
  month : Z;
  day : Z;
  hour : Z;
  minute : Z;
  second : Z;
  microsecond : Z
}.

Definition is_leap (y : Z) : bool :=
  (y mod 4 =? 0) && (negb (y mod 100 =? 0) || (y mod 400 =? 0)).

Definition days_in_month (y m : Z) : Z :=
  if m =? 2 then (if is_leap y then 29 else 28)
  else if (m =? 4) || (m =? 6) || (m =? 9) || (m =? 11) then 30
  else 31.

Definition valid_date (y m d : Z) : bool :=
  (1 <=? y) && (y <=? 9999) && (1 <=? m) && (m <=? 12)
  && (1 <=? d) && (d <=? days_in_month y m).

Definition valid_time (H M S : Z) : bool :=
  (0 <=? H) && (H <=? 23) && (0 <=? M) && (M <=? 59)
  && (0 <=? S) && (S <=? 59).

(** [datetime.datetime(y, m, d, H, M, S)] *)
Definition datetime_new (y m d H M S : Z) : result datetime :=
  if valid_date y m d && valid_time H M S
  then Ok (mk_datetime y m d H M S 0)
  else Raise ValueError.

(** [dtm.strftime('%Y%m%d%H%M%S')] for a four-digit year. *)
Definition strftime_compact (t : datetime) : string :=
  (dec_pad 4 (year t) ++ dec_pad 2 (month t) ++ dec_pad 2 (day t)
   ++ dec_pad 2 (hour t) ++ dec_pad 2 (minute t) ++ dec_pad 2 (second t))%string.

(** *** dict, as an association list in insertion order *)

Section Dict.
Context {K V : Type}.
Variable eqb : K -> K -> bool.

(** [d[k] = v] *)
Fixpoint dict_set (d : list (K * V)) (k : K) (v : V) : list (K * V) :=
  match d with
  | [] => [(k, v)]
  | (k', v') :: r =>
      if eqb k' k then (k, v) :: r else (k', v') :: dict_set r k v
  end.

(** [d[k]] *)
Fixpoint dict_get (d : list (K * V)) (k : K) : result V :=
  match d with
  | [] => Raise KeyError
  | (k', v') :: r => if eqb k' k then Ok v' else dict_get r k
  end.

(** [dict(zip(keys, values))] *)
Definition dict_zip (keys : list K) (values : list V) : list (K * V) :=
  fold_left (fun d kv => dict_set d (fst kv) (snd kv)) (combine keys values) [].
End Dict.

(** [for x in l: st = body(st, x)], stopping at the first exception. *)
Fixpoint for_each {S A : Type} (body : S -> A -> result S)
    (l : list A) (st : S) : result S :=
  match l with
  | [] => Ok st
  | x :: r => bind (body st x) (for_each body r)
  end.

(** *** str as a sequence of code points, and UTF-8 *)

(** A Python [str] whose characters need not be ASCII: its code points. *)
Definition ustr : Type := list Z.

(** An ASCII literal as a [str]. *)
Definition ustr_of_string (s : string) : ustr := bytes_of_string s.

Definition is_cont (b : Z) : bool := (128 <=? b) && (b <=? 191).

Definition in_range (lo hi b : Z) : bool := (lo <=? b) && (b <=? hi).

(** [b.decode()]: strict UTF-8 (no overlong forms, no surrogates, nothing
    above U+10FFFF); raises UnicodeDecodeError otherwise. *)
Fixpoint utf8_decode (b : bytes) : result ustr :=
  match b with
  | [] => Ok []
  | b0 :: r0 =>
      if in_range 0 127 b0
      then bind (utf8_decode r0) (fun t => Ok (b0 :: t))
      else if in_range 194 223 b0
      then
        match r0 with
        | b1 :: r1 =>
            if is_cont b1
            then bind (utf8_decode r1)
                   (fun t => Ok (((b0 - 192) * 64 + (b1 - 128)) :: t))
            else Raise UnicodeDecodeError
        | _ => Raise UnicodeDecodeError
        end
      else if in_range 224 239 b0
      then
        match r0 with
        | b1 :: b2 :: r2 =>
            if in_range (if b0 =? 224 then 160 else 128)
                        (if b0 =? 237 then 159 else 191) b1
               && is_cont b2
            then bind (utf8_decode r2)
                   (fun t =>
                      Ok (((b0 - 224) * 4096 + (b1 - 128) * 64 + (b2 - 128))
                          :: t))
            else Raise UnicodeDecodeError
        | _ => Raise UnicodeDecodeError
        end
      else if in_range 240 244 b0
      then
        match r0 with
        | b1 :: b2 :: b3 :: r3 =>
            if in_range (if b0 =? 240 then 144 else 128)
                        (if b0 =? 244 then 143 else 191) b1
               && is_cont b2 && is_cont b3
            then bind (utf8_decode r3)
                   (fun t =>
                      Ok (((b0 - 240) * 262144 + (b1 - 128) * 4096
                           + (b2 - 128) * 64 + (b3 - 128)) :: t))
            else Raise UnicodeDecodeError
        | _ => Raise UnicodeDecodeError
        end
      else Raise UnicodeDecodeError
  end.

Fixpoint starts_with (prefix s : ustr) : bool :=
  match prefix, s with
  | [], _ => true
  | _ :: _, [] => false
  | x :: p, y :: r => (x =? y) && starts_with p r
  end.

(** The scan of [s.replace(old, new)]: [skip] characters of a match that
    has just been replaced are still to be passed over. *)
Fixpoint replace_from (old new : ustr) (skip : nat) (s : ustr) : ustr :=
  match s with
  | [] => []
  | c :: r =>
      match skip with
      | S k => replace_from old new k r
      | O =>
          if starts_with old s
          then new ++ replace_from old new (List.length old - 1) r
          else c :: replace_from old new 0 r
      end
  end.

(** [s.replace(old, new)] for a non-empty [old]: every non-overlapping
    occurrence, from the left. *)
Definition str_replace (old new s : ustr) : ustr := replace_from old new 0 s.

End Py.

Import Py.

Notation "x <- c ;; k" := (bind c (fun x => k))
  (at level 61, c at next level, right associativity).

(** ** Class NEPH *)
Module NEPH.

(** [config[name]['protocol']]: "acoem", "legacy", or anything else (in
    which case [__init__] reports an error and the attribute stays unset). *)
Inductive protocol_t : Type := Acoem | Legacy | Unrecognized.

Record session : Type := mk_session {
  serial_id : Z;           (* self.__serial_id *)
  protocol : protocol_t    (* self.__protocol *)
}.

(** A value stored in a decoded record. [VFloat bits] is the result of
    [struct.unpack('>f', v)[0]], kept as the IEEE-754 binary32 bit pattern
    [bits = int.from_bytes(v)] that determines it. *)
Inductive value : Type :=
| VFloat (bits : Z)
| VBytes (b : bytes)
| VStr (s : string)
| VInt (n : Z).

Inductive key : Type :=
| KInt (n : Z)
| KStr (s : string).

Definition key_eqb (a b : key) : bool :=
  match a, b with
  | KInt x, KInt y => x =? y
  | KStr x, KStr y => String.eqb x y
  | _, _ => false
  end.

Definition dict : Type := list (key * value).

Definition xor_pair (ab : Z * Z) : Z := Z.lxor (fst ab) (snd ab).

Definition _checksum (x : bytes) : result bytes :=
  try_except
    (let cs := [0] in
     for_each
       (fun cs xi =>
          b <- bytes_of_ints [xi] ;;
          bytes_of_ints (map xor_pair (combine cs b)))
       x cs)
    (Ok []).

Definition sentinel_datetime : datetime := mk_datetime 1111 1 1 0 0 0 0.

Definition _acoem_timestamp_to_datetime (timestamp : Z) : result datetime :=
  try_except
    (let dtm := timestamp in
     let SS := dtm mod 64 in
     let dtm := dtm / 64 in
     let MM := dtm mod 64 in
     let dtm := dtm / 64 in
     let HH := dtm mod 32 in
     let dtm := dtm / 32 in
     let dd := dtm mod 32 in
     let dtm := dtm / 32 in
     let mm := dtm mod 16 in
     let yyyy := dtm / 16 + 2000 in
     datetime_new yyyy mm dd HH MM SS)
    (datetime_new 1111 1 1 0 0 0).

Definition _acoem_datetime_to_timestamp (dtm : datetime) : result bytes :=
  try_except
    (let SS := zfill 6 (str_from 2 (bin (second dtm))) in
     let MM := zfill 6 (str_from 2 (bin (minute dtm))) in
     let HH := zfill 5 (str_from 2 (bin (hour dtm))) in
     let dd := zfill 5 (str_from 2 (bin (day dtm))) in
     let mm := zfill 4 (str_from 2 (bin (month dtm))) in
     let yyyy := zfill 6 (bin (year dtm - 2000)) in
     v <- int_base2 (yyyy ++ mm ++ dd ++ HH ++ MM ++ SS)%string ;;
     int_to_bytes v 4)
    (Ok []).

Definition _acoem_construct_parameter_id (base_id wavelength angle : Z) : Z :=
  base_id * 1000000 + wavelength * 1000 + angle.

Definition _acoem_construct_message (s : session)
    (command parameter_id : Z) (payload : bytes) : result bytes :=
  let msg_data := [] in
  msg_data <- (if parameter_id >? 0 then int_to_bytes parameter_id 4
               else Ok msg_data) ;;
  let msg_data := if len payload >? 0 then msg_data ++ payload else msg_data in
  let msg_len := len msg_data in
  head <- bytes_of_ints [2; serial_id s; command; 3] ;;
  msg_len_bytes <- int_to_bytes msg_len 2 ;;
  let msg := head ++ msg_len_bytes ++ msg_data in
  cs <- _checksum msg ;;
  Ok (msg ++ cs ++ [4]).

(** [int(int.from_bytes(response[4:6]) / 4)]: the float quotient of a value
    below 65536 by 4 is exact, and [int] truncates it. *)
Definition response_length (response : bytes) : Z :=
  int_from_bytes (slice response 4 6) / 4.

Definition _acoem_decode_response (response : bytes) : list Z :=
  let response_length := response_length response in
  map (fun i => int_from_bytes (slice response i (i + 4)))
      (range3 6 ((response_length + 1) * 4 + 2) 4).

(** The quantities computed at the start of [_acoem_decode_logged_data]. *)
Definition message_length (response : bytes) : Z :=
  int_from_bytes (slice response 4 6) / 4.

Definition response_body (response : bytes) : bytes := slice response 6 (-2).

Definition fields_per_record (response : bytes) : Z :=
  int_from_bytes (slice (response_body response) 12 16).

Definition items_per_record (response : bytes) : Z :=
  fields_per_record response + 4.

Definition number_of_records (response : bytes) : Z :=
  message_length response / items_per_record response.

Definition records (response : bytes) : list bytes :=
  let items_per_record := items_per_record response in
  map (fun i => slice (response_body response)
                  (i * items_per_record * 4)
                  ((i + 1) * (items_per_record * 4) - 1))
      (range (number_of_records response)).

(** [struct.unpack('>f', v)[0]] *)
Definition struct_unpack_f (v : bytes) : result value :=
  if len v =? 4 then Ok (VFloat (int_from_bytes v)) else Raise StructError.

(** [struct.unpack('>f', v)[0] if (k>1000 and len(v)>0) else b''] *)
Definition convert_field (k : key) (v : value) : result value :=
  match k, v with
  | KInt n, VBytes b =>
      if (n >? 1000) && (len b >? 0) then struct_unpack_f b else Ok (VBytes [])
  | _, _ => Raise TypeError
  end.

(** The key list read from a header record. *)
Definition header_keys (record : bytes) : list Z :=
  let number_of_fields := int_from_bytes (slice record 12 16) in
  map (fun j => int_from_bytes (slice record (16 + j * 4) (16 + (j + 1) * 4)))
      (range number_of_fields).

Definition record_values (record : bytes) : list bytes :=
  let number_of_fields := int_from_bytes (slice record 12 16) in
  map (fun j => slice record (16 + j * 4) (16 + (j + 1) * 4))
      (range number_of_fields).

(** The body of the data-record branch, from [data = dict(zip(keys, values))]
    to [data['logging_interval'] = ...]. *)
Definition decode_data_record (keys : list Z) (values : list bytes)
    (record : bytes) : result dict :=
  let data := dict_zip key_eqb (map KInt keys) (map VBytes values) in
  data <- for_each
            (fun d kv => x <- convert_field (fst kv) (snd kv) ;;
                         Ok (dict_set key_eqb d (fst kv) x))
            data data ;;
  dtm <- _acoem_timestamp_to_datetime (int_from_bytes (slice record 4 8)) ;;
  let data := dict_set key_eqb data (KStr "dtm") (VStr (strftime_compact dtm)) in
  let data := dict_set key_eqb data (KStr "logging_interval")
                (VInt (int_from_bytes (slice record 8 12))) in
  Ok data.

(** The local variables that the record loop updates.  [all] only ever
    receives dictionaries that are not written to afterwards (each data
    record binds [data] to a fresh dict), so values stand for the objects. *)
Record loop_state : Type := mk_loop_state {
  st_keys : list Z;
  st_values : list bytes;
  st_data : dict;
  st_all : list dict
}.

(** One iteration of [for i in range(number_of_records)], on [records[i]]. *)
Definition loop_body (st : loop_state) (record : bytes) : result loop_state :=
  t <- getitem record 0 ;;
  let st :=
    if t =? 1
    then mk_loop_state (header_keys record) (st_values st) (st_data st) (st_all st)
    else st in
  t <- getitem record 0 ;;
  st <- (if t =? 0
         then
           let values := record_values record in
           data <- decode_data_record (st_keys st) values record ;;
           Ok (mk_loop_state (st_keys st) values data (st_all st))
         else Ok st) ;;
  Ok (mk_loop_state (st_keys st) (st_values st) (st_data st) (st_all st ++ [st_data st])).

Definition _acoem_decode_logged_data (response : bytes) : result (list dict) :=
  let data : dict := [] in
  let all := [data] in
  command <- getitem response 2 ;;
  if command =? 7
  then
    st <- for_each loop_body (records response) (mk_loop_state [] [] data all) ;;
    Ok (st_all st)
  else Ok [ [] ].

(** *** The socket *)

(** What the peer delivers on one connection: the successive results of
    [s.recv(1024)].  When nothing is left the call runs into the socket
    timeout. *)
Definition socket : Type := list bytes.

Definition recv (sock : socket) : result (bytes * socket) :=
  match sock with
  | [] => Raise SocketTimeout
  | data :: rest => Ok (data, rest)
  end.

(** The receive loop of the "acoem" branch.  Its body ends in [return rcvd];
    when the loop is not entered the function runs off its end and
    returns [None]. *)
Definition acoem_receive (rcvd : bytes) (sock : socket) : result (option bytes) :=
  if negb (endswith rcvd [4])
  then
    dr <- recv sock ;;
    let rcvd := rcvd ++ fst dr in
    Ok (Some rcvd)
  else Ok None.

(** The receive loop of the "legacy" branch. *)
Fixpoint legacy_receive (rcvd : bytes) (sock : socket) : result bytes :=
  if negb (endswith rcvd [13; 10] || endswith rcvd [13; 10; 10])
  then
    match sock with
    | [] => Raise SocketTimeout
    | data :: rest => legacy_receive (rcvd ++ data) rest
    end
  else Ok rcvd.

Definition tcpip_comm (s : session) (message : bytes) (sock : socket)
    : result (option bytes) :=
  try_except
    (dr <- recv sock ;;             (* clear buffer *)
     let sock := snd dr in
     (* s.sendall(message) *)
     let rcvd := [] in
     match protocol s with
     | Acoem => acoem_receive rcvd sock
     | Legacy => rcvd <- legacy_receive rcvd sock ;; Ok (Some (strip rcvd))
     | Unrecognized => Raise ValueError
     end)
    (Ok (Some [])).

(** Passing a [tcpip_comm] result on as a [bytes] argument. *)
Definition as_bytes (e : exn) (r : option bytes) : result bytes :=
  match r with
  | Some b => Ok b
  | None => Raise e
  end.

(** The request frame that [set_values] hands to [tcpip_comm]. *)
Definition set_values_message (s : session) (parameter_id value : Z)
    : result bytes :=
  payload <- bytes_of_ints [0; 0; 0; value] ;;
  _acoem_construct_message s 5 parameter_id payload.

Definition set_values (s : session) (parameter_id value : Z) (sock : socket)
    : result (list Z) :=
  try_except
    (match protocol s with
     | Acoem =>
         message <- set_values_message s parameter_id value ;;
         response <- tcpip_comm s message sock ;;
         response <- as_bytes TypeError response ;;
         Ok (_acoem_decode_response response)
     | _ => Raise Warning
     end)
    (Ok []).

Definition operation_mapping : list (string * Z) :=
  [("000"%string, 0); ("016"%string, 2); ("032"%string, 1)].

(** f"VI{self.__serial_id}71\r".encode() *)
Definition vi71_message (s : session) : bytes :=
  bytes_of_string
    ("VI" ++ NilZero.string_of_int (Z.to_int (serial_id s)) ++ "71"
     ++ String (ascii_of_nat 13) "")%string.

Definition get_current_operation (s : session) (sock : socket) : result Z :=
  try_except
    (match protocol s with
     | Acoem =>
         let parameter_id := 4035 in
         message <- _acoem_construct_message s 4 parameter_id [] ;;
         response <- tcpip_comm s message sock ;;
         response <- as_bytes TypeError response ;;
         getitem (_acoem_decode_response response) 0
     | Legacy =>
         raw <- tcpip_comm s (vi71_message s) sock ;;
         raw <- as_bytes AttributeError raw ;;
         response <- bytes_decode raw ;;
         dict_get String.eqb operation_mapping response
     | Unrecognized => Raise ValueError
     end)
    (Ok 9).

(** *** Further operations

    Every [tcpip_comm] call opens a connection of its own.  An operation
    that makes several calls takes a [network]: the sockets of its
    successive connections.  A call made when none is left cannot connect
    and, like a call on a silent socket, gets [b''].  Logging is taken to
    be configured ([self._log], [self._logger] set by [__init__]). *)

Definition network : Type := list socket.

Definition connect (net : network) : socket * network :=
  match net with
  | [] => ([], [])
  | sock :: rest => (sock, rest)
  end.

Definition get_instr_type (s : session) (sock : socket) : result (list Z) :=
  try_except
    (match protocol s with
     | Acoem =>
         message <- _acoem_construct_message s 1 0 [] ;;
         response <- tcpip_comm s message sock ;;
         response <- as_bytes TypeError response ;;
         Ok (_acoem_decode_response response)
     | _ => Raise Warning
     end)
    (Ok []).

Definition get_version (s : session) (sock : socket) : result (list Z) :=
  try_except
    (match protocol s with
     | Acoem =>
         message <- _acoem_construct_message s 1 0 [] ;;
         response <- tcpip_comm s message sock ;;
         response <- as_bytes TypeError response ;;
         Ok (_acoem_decode_response response)
     | _ => Raise Warning
     end)
    (Ok []).

Definition get_logging_config (s : session) (sock : socket) : result (list Z) :=
  try_except
    (match protocol s with
     | Acoem =>
         message <- _acoem_construct_message s 6 0 [] ;;
         response <- tcpip_comm s message sock ;;
         response <- as_bytes TypeError response ;;
         Ok (_acoem_decode_response response)
     | _ => Raise Warning
     end)
    (Ok []).

(** A value returned by [get_values] or [get_id]: an [int] under the
    binary protocol, a [str] under the legacy one. *)
Inductive reading : Type :=
| RInt (n : Z)
| RStr (s : ustr).

(** The request frame that [get_values] builds inline. *)
Definition get_values_message (s : session) (parameters : list Z)
    : result bytes :=
  let msg_data := [] in
  msg_data <- for_each
                (fun msg_data p => b <- int_to_bytes p 4 ;; Ok (msg_data ++ b))
                parameters msg_data ;;
  let msg_len := len msg_data in
  head <- bytes_of_ints [2; serial_id s; 4; 3] ;;
  msg_len_bytes <- int_to_bytes msg_len 2 ;;
  let msg := head ++ msg_len_bytes ++ msg_data in
  cs <- _checksum msg ;;
  Ok (msg ++ cs ++ [4]).

(** f"VI{self.__serial_id}{nn}\r".encode() *)
Definition vi_message (s : session) (nn : string) : bytes :=
  bytes_of_string
    ("VI" ++ NilZero.string_of_int (Z.to_int (serial_id s)) ++ nn
     ++ String (ascii_of_nat 13) "")%string.

(** f"ID{self.__serial_id}\r".encode() *)
Definition id_message (s : session) : bytes :=
  bytes_of_string
    ("ID" ++ NilZero.string_of_int (Z.to_int (serial_id s))
     ++ String (ascii_of_nat 13) "")%string.

(** [tcpip_comm(message).decode()] on the next connection. *)
Definition comm_decode (s : session) (message : bytes) (net : network)
    : result (ustr * network) :=
  let sn := connect net in
  raw <- tcpip_comm s message (fst sn) ;;
  raw <- as_bytes AttributeError raw ;;
  text <- utf8_decode raw ;;
  Ok (text, snd sn).

(** The legacy loop of [get_values]; [{p:02.0f}] is two decimal digits for
    [p] in range(100). *)
Definition get_values_legacy_step (s : session)
    (st : list reading * network) (p : Z) : result (list reading * network) :=
  if (0 <=? p) && (p <? 100)
  then
    tn <- comm_decode s (vi_message s (dec_pad 2 p)) (snd st) ;;
    Ok (fst st ++ [RStr (fst tn)], snd tn)
  else Ok (fst st ++ [RStr []], snd st).

Definition get_values (s : session) (parameters : list Z) (net : network)
    : result (list (Z * reading)) :=
  try_except
    (items <-
       match protocol s with
       | Acoem =>
           msg <- get_values_message s parameters ;;
           response <- tcpip_comm s msg (fst (connect net)) ;;
           response <- as_bytes TypeError response ;;
           Ok (map RInt (_acoem_decode_response response))
       | Legacy =>
           st <- for_each (get_values_legacy_step s) parameters ([], net) ;;
           Ok (fst st)
       | Unrecognized => Raise Warning
       end ;;
     Ok (dict_zip Z.eqb parameters items))
    (Ok []).

Definition get_logged_data (s : session) (start end_ : option datetime)
    (sock : socket) : result (list dict) :=
  try_except
    (match protocol s with
     | Acoem =>
         payload <-
           match start with
           | Some start =>
               payload <- _acoem_datetime_to_timestamp start ;;
               match end_ with
               | Some end_ =>
                   b <- _acoem_datetime_to_timestamp end_ ;; Ok (payload ++ b)
               | None => Ok payload
               end
           | None => Raise ValueError
           end ;;
         message <- _acoem_construct_message s 7 0 payload ;;
         response <- tcpip_comm s message sock ;;
         response <- as_bytes TypeError response ;;
         _acoem_decode_logged_data response
     | _ => Raise Warning
     end)
    (Ok []).

(** The polling loop of [set_current_operation],
    [while response != [state]], over the connections of the first polls.
    [Ok false] stands for a loop still running when they are used up. *)
Fixpoint poll_operation (s : session) (state : Z) (message : bytes)
    (polls : list socket) : result bool :=
  match polls with
  | [] => Ok false
  | sock :: rest =>
      response <- tcpip_comm s message sock ;;
      response <- as_bytes TypeError response ;;
      let response := _acoem_decode_response response in
      if list_eq_dec Z.eq_dec response [state]
      then Ok true
      else poll_operation s state message rest
  end.

(** [connects] tells whether the first, direct connection is established;
    if not, [s.connect] raises TimeoutError (which [socket.timeout] names).
    [None] stands for a call that has not returned after the listed polls. *)
Definition set_current_operation (s : session) (state : Z) (connects : bool)
    (polls : list socket) : option (result Z) :=
  let body :=
    match protocol s with
    | Acoem =>
        payload <- bytes_of_ints [0; 0; 0; state] ;;
        let parameter_id := 4035 in
        message <- _acoem_construct_message s 5 parameter_id payload ;;
        _ <- (if connects then Ok tt else Raise SocketTimeout) ;;
        message <- _acoem_construct_message s 4 parameter_id [] ;;
        poll_operation s state message polls
    | _ => Raise Warning
    end in
  match body with
  | Ok true => Some (Ok state)
  | Ok false => None
  | Raise _ => Some (Ok 9)
  end.

Definition id_names : list string :=
  ["Model"; "Variant"; "Sub-Type"; "Range"; "Build"; "Branch"]%string.

Definition get_id (s : session) (net : network)
    : result (list (string * reading)) :=
  try_except
    (match protocol s with
     | Acoem =>
         let sn1 := connect net in
         instr_type <- get_instr_type s (fst sn1) ;;
         let sn2 := connect (snd sn1) in
         version <- get_version s (fst sn2) ;;
         Ok (dict_zip String.eqb id_names (map RInt (instr_type ++ version)))
     | Legacy =>
         tn <- comm_decode s (id_message s) net ;;
         Ok [("id"%string, RStr (fst tn))]
     | Unrecognized => Raise ValueError
     end)
    (Ok []).

(** The request frame that [set_datetime] hands to [tcpip_comm]. *)
Definition set_datetime_message (s : session) (dtm : datetime)
    : result bytes :=
  payload <- _acoem_datetime_to_timestamp dtm ;;
  _acoem_construct_message s 5 1 payload.

Definition set_datetime (s : session) (dtm : datetime) (sock : socket)
    : result (option bytes) :=
  try_except
    (match protocol s with
     | Acoem =>
         msg <- set_datetime_message s dtm ;;
         tcpip_comm s msg sock
     | _ => Raise Warning
     end)
    (Ok (Some [])).

Definition get_current_data (s : session) (sep : ustr) (net : network)
    : result ustr :=
  try_except
    (match protocol s with
     | Acoem => Raise Warning
     | Legacy =>
         tn <- comm_decode s (vi_message s "99") net ;;
         let response := fst tn in
         let response :=
           str_replace (ustr_of_string ", ") (ustr_of_string ",") response in
         let response := str_replace (ustr_of_string ",") sep response in
         Ok response
     | Unrecognized => Raise ValueError
     end)
    (Ok []).

Definition get_new_data (s : session) (sep : ustr) (net : network)
    : result ustr :=
  try_except
    (match protocol s with
     | Acoem => Raise Warning
     | Legacy =>
         tn <- comm_decode s (bytes_of_string "***D" ++ [13]) net ;;
         let resp := fst tn in
         let resp :=
           str_replace (ustr_of_string ", ") (ustr_of_string ",") resp in
         let resp := str_replace (ustr_of_string ",") sep resp in
         Ok resp
     | Unrecognized => Raise ValueError
     end)
    (Ok []).

Section LegacyDatetime.

(** [datetime.datetime.strptime(date_string, format)], left abstract. *)
Variable strptime : ustr -> ustr -> result datetime.

Definition legacy_sentinel : datetime := mk_datetime 1111 1 1 1 1 1 0.

Definition __legacy_timestamp_to_datetime (fmt dte tme : ustr)
    : result datetime :=
  try_except
    (let crlf := [13; 10] in
     let fmt := str_replace crlf [] (str_replace (ustr_of_string " ") [] fmt) in
     let dte := str_replace crlf [] dte in
     let tme := str_replace crlf [] tme in
     fmt <- (if list_eq_dec Z.eq_dec fmt (ustr_of_string "D/M/Y")
             then Ok (ustr_of_string "%d/%m/%Y")
             else if list_eq_dec Z.eq_dec fmt (ustr_of_string "M/D/Y")
             then Ok (ustr_of_string "%m/%d/%Y")
             else if list_eq_dec Z.eq_dec fmt (ustr_of_string "Y-M-D")
             then Ok (ustr_of_string "%Y-%m-%d")
             else Raise ValueError) ;;
     strptime (dte ++ ustr_of_string " " ++ tme)
              (fmt ++ ustr_of_string " %H:%M:%S"))
    (Ok legacy_sentinel).

Definition get_datetime (s : session) (net : network) : result datetime :=
  let response := mk_datetime 1111 1 1 0 0 0 0 in
  try_except
    (match protocol s with
     | Acoem =>
         msg <- _acoem_construct_message s 4 1 [] ;;
         response_bytes <- tcpip_comm s msg (fst (connect net)) ;;
         response_bytes <- as_bytes TypeError response_bytes ;;
         response_int <- getitem (_acoem_decode_response response_bytes) 0 ;;
         _acoem_timestamp_to_datetime response_int
     | Legacy =>
         fmt <- comm_decode s (vi_message s "64") net ;;
         dte <- comm_decode s (vi_message s "80") (snd fmt) ;;
         tme <- comm_decode s (vi_message s "81") (snd dte) ;;
         __legacy_timestamp_to_datetime (fst fmt) (fst dte) (fst tme)
     | Unrecognized => Raise ValueError
     end)
    (Ok response).

End LegacyDatetime.

End NEPH.

Import NEPH.

(** ** Reference notions used in the statements *)
Module Spec.

(** Big-endian encodings, written out byte by byte. *)
Definition be16 (v : Z) : bytes := [v / 256 mod 256; v mod 256].

Definition be32 (v : Z) : bytes :=
  [v / 16777216 mod 256; v / 65536 mod 256; v / 256 mod 256; v mod 256].

(** XOR of all bytes of a sequence. *)
Definition xor_all (x : bytes) : Z := fold_right Z.lxor 0 x.

(** The bit fields of a packed timestamp:
    [year-2000 : rest][month : 4][day : 5][hour : 5][minute : 6][second : 6]. *)
Definition ts_second (ts : Z) : Z := Z.land ts 63.
Definition ts_minute (ts : Z) : Z := Z.land (Z.shiftr ts 6) 63.
Definition ts_hour (ts : Z) : Z := Z.land (Z.shiftr ts 12) 31.
Definition ts_day (ts : Z) : Z := Z.land (Z.shiftr ts 17) 31.
Definition ts_month (ts : Z) : Z := Z.land (Z.shiftr ts 22) 15.
Definition ts_year (ts : Z) : Z := Z.shiftr ts 26 + 2000.

Definition ts_valid (ts : Z) : bool :=
  valid_date (ts_year ts) (ts_month ts) (ts_day ts)
  && valid_time (ts_hour ts) (ts_minute ts) (ts_second ts).

Definition valid_datetime (t : datetime) : bool :=
  valid_date (year t) (month t) (day t)
  && valid_time (hour t) (minute t) (second t).

(** [_acoem_timestamp_to_datetime(int.from_bytes(_acoem_datetime_to_timestamp(t)))] *)
Definition decode_encode (t : datetime) : result datetime :=
  b <- _acoem_datetime_to_timestamp t ;;
  _acoem_timestamp_to_datetime (int_from_bytes b).

(** The packed value of a date and time. *)
Definition pack_timestamp (t : datetime) : Z :=
  (((((year t - 2000) * 16 + month t) * 32 + day t) * 32 + hour t) * 64
   + minute t) * 64 + second t.

(** The key list in force after the records [recs] have been processed,
    starting from [keys]: that of the last header record among them. *)
Definition active_keys (keys : list Z) (recs : list bytes) : list Z :=
  fold_left
    (fun ks record =>
       match record with
       | t :: _ => if t =? 1 then header_keys record else ks
       | [] => ks
       end)
    recs keys.

(** The mapping decoded from a data record under the key list [keys]. *)
Definition logged_record (keys : list Z) (record : bytes) : result dict :=
  decode_data_record keys (record_values record) record.

(** A field of width [k]: [bin(n)[2:].zfill(k)] is [k] binary digits
    whose value is [n]. *)
Definition field_ok (k : nat) (n : Z) : bool :=
  let s := zfill k (str_from 2 (bin n)) in
  Nat.eqb (String.length s) k
  && match bits_value s 0 with Some v => v =? n | None => false end.

(** The year field keeps the "0b" of [bin]: from 8 on, [zfill(6)] leaves
    it in front, where [int(_, base=2)] accepts it. *)
Definition year_ok (y : Z) : bool :=
  match zfill 6 (bin y) with
  | String c0 (String c1 (String c2 d)) =>
      Ascii.eqb c0 "0" && Ascii.eqb c1 "b" && Ascii.eqb c2 "1"
      && match bits_value (String c2 d) 0 with
         | Some v => v =? y
         | None => false
         end
  | _ => false
  end.

(** Below 8 the padding zeros come before the "0b", and the string is no
    binary literal. *)
Definition year_broken (y : Z) : bool :=
  match zfill 6 (bin y) with
  | String c0 (String c1 s) =>
      Ascii.eqb c0 "0" && Ascii.eqb c1 "0"
      && match s with
         | String c2 (String c3 (String c4 (String c5 EmptyString))) =>
             (Ascii.eqb c2 "b" ||
              (Ascii.eqb c2 "0" &&
                 (Ascii.eqb c3 "b" || (Ascii.eqb c3 "0" && Ascii.eqb c4 "b"))))
         | _ => false
         end
  | _ => false
  end.

(** A response to command 7 with one header record (keys 1001, 1002) and
    one data record (2023-05-17 10:20:30, interval 60, floats 12.5, -3.0). *)
Definition sample_header : bytes :=
  [1; 0; 0; 0; 0; 0; 0; 0; 0; 0; 0; 0; 0; 0; 0; 2; 0; 0; 3; 233; 0; 0; 3; 234].

Definition sample_data : bytes :=
  [0; 0; 0; 0; 93; 98; 165; 30; 0; 0; 0; 60; 0; 0; 0; 2;
   65; 72; 0; 0; 192; 64; 0; 0].

Definition sample_response : bytes :=
  [2; 5; 7; 3; 0; 48] ++ sample_header ++ sample_data ++ [92; 4].

(** 32-bit words laid out big-endian, one after the other. *)
Definition words (ws : list Z) : bytes := flat_map be32 ws.

Definition is_word (w : Z) : Prop := 0 <= w < 2 ^ 32.

(** A negative year offset: [bin] gives "-0b1...", which [zfill(6)] either
    leaves alone or pads after the sign, in front of the "0b". *)
Definition year_negative_ok (y : Z) : bool :=
  match zfill 6 (bin y) with
  | String c (String c0 (String c1 (String c2 d))) =>
      Ascii.eqb c "-" && Ascii.eqb c0 "0"
      && ((Ascii.eqb c1 "b" && Ascii.eqb c2 "1"
           && match bits_value (String c2 d) 0 with
              | Some v => v =? - y
              | None => false
              end)
          || (Ascii.eqb c1 "0"
              && (Ascii.eqb c2 "b"
                  || (Ascii.eqb c2 "0"
                      && match d with
                         | String c3 _ => Ascii.eqb c3 "b"
                         | EmptyString => false
                         end))))
  | _ => false
  end.

(** What [tcpip_comm] returns on a connection under the "acoem" protocol. *)
Definition acoem_reply (sock : socket) : bytes :=
  match sock with
  | _ :: data :: _ => data
  | _ => []
  end.

(** A poll whose reply decodes to exactly [[state]]. *)
Definition poll_confirms (state : Z) (sock : socket) : bool :=
  if list_eq_dec Z.eq_dec (_acoem_decode_response (acoem_reply sock)) [state]
  then true else false.

(** A reply with the value 4 in its length field and four words (7, 8, 9
    and 10) between the header and the checksum. *)
Definition four_word_reply : bytes :=
  [2; 5; 4; 3; 0; 4; 0; 0; 0; 7; 0; 0; 0; 8; 0; 0; 0; 9; 0; 0; 0; 10; 8; 4].


End Spec.

Import Spec.

(** Closes [Forall is_byte [x; y; ...]] and [is_byte x] side goals. *)
Ltac solve_bytes :=
  repeat first [apply Forall_nil | apply Forall_cons];
  try assumption; unfold is_byte; lia.

(** ** Facts about the builtins *)

Lemma bind_Ok {A B : Type} (r : result A) (k : A -> result B) (b : B) :
  bind r k = Ok b -> exists a, r = Ok a /\ k a = Ok b.
Proof.
  destruct r as [a|e]; simpl; intros H; [exists a; auto | discriminate].
Qed.

Lemma len_nonneg {A : Type} (l : list A) : 0 <= len l.
Proof. unfold len; lia. Qed.

Lemma len_app {A : Type} (l l' : list A) : len (l ++ l') = len l + len l'.
Proof. unfold len; rewrite length_app; lia. Qed.

Lemma is_byteb_iff (x : Z) : is_byteb x = true <-> is_byte x.
Proof. unfold is_byteb, is_byte; lia. Qed.

Lemma bytes_of_ints_ok (l : list Z) :
  Forall is_byte l -> bytes_of_ints l = Ok l.
Proof.
  intros H. unfold bytes_of_ints.
  replace (forallb is_byteb l) with true; [reflexivity|].
  symmetry. apply forallb_forall. intros x Hx.
  apply is_byteb_iff. rewrite Forall_forall in H. auto.
Qed.

Lemma bytes_of_ints_inv (l b : list Z) :
  bytes_of_ints l = Ok b -> b = l /\ Forall is_byte l.
Proof.
  unfold bytes_of_ints. destruct (forallb is_byteb l) eqn:E; [|discriminate].
  intros [= <-]. split; [reflexivity|].
  apply Forall_forall. intros x Hx. apply is_byteb_iff.
  rewrite forallb_forall in E. auto.
Qed.

Lemma Forall_take_drop {A : Type} (P : A -> Prop) (n : nat) (l : list A) :
  Forall P l -> Forall P (firstn n l) /\ Forall P (skipn n l).
Proof.
  intros H. rewrite <- (firstn_skipn n l) in H.
  apply Forall_app in H. exact H.
Qed.

Lemma slice_Forall {A : Type} (P : A -> Prop) (l : list A) (lo hi : Z) :
  Forall P l -> Forall P (slice l lo hi).
Proof.
  intros H. unfold slice.
  apply Forall_take_drop. apply Forall_take_drop. exact H.
Qed.

Lemma clamp_nonneg (n i : Z) : 0 <= i -> clamp n i = Z.min i n.
Proof. intros H. unfold clamp. destruct (Z.ltb_spec i 0); lia. Qed.

(** Reading position [k] of [l[lo:hi]] for non-negative bounds. *)
Lemma nth_error_slice {A : Type} (l : list A) (lo hi : Z) (k : nat) :
  0 <= lo -> 0 <= hi ->
  nth_error (slice l lo hi) k =
  if lo + Z.of_nat k <? hi then nth_error l (Z.to_nat lo + k) else None.
Proof.
  intros Hlo Hhi. unfold slice.
  rewrite !clamp_nonneg by assumption.
  rewrite nth_error_firstn, nth_error_skipn.
  unfold len.
  destruct (Z.ltb_spec (lo + Z.of_nat k) hi) as [Hlt|Hge];
    destruct (Nat.ltb_spec k
                (Z.to_nat (Z.min hi (Z.of_nat (List.length l))
                           - Z.min lo (Z.of_nat (List.length l))))) as [Hk|Hk].
  - f_equal. lia.
  - symmetry. apply nth_error_None. lia.
  - lia.
  - reflexivity.
Qed.

Lemma len_slice {A : Type} (l : list A) (lo hi : Z) :
  0 <= lo -> 0 <= hi ->
  len (slice l lo hi) = Z.max 0 (Z.min hi (len l) - Z.min lo (len l)).
Proof.
  intros Hlo Hhi. unfold slice.
  rewrite !clamp_nonneg by assumption.
  unfold len. rewrite length_firstn, length_skipn. lia.
Qed.

Lemma length_range (n : Z) : List.length (range n) = Z.to_nat n.
Proof. unfold range. now rewrite length_map, length_seq. Qed.

Lemma nth_error_range (n : Z) (i : nat) :
  nth_error (range n) i =
  if Z.of_nat i <? n then Some (Z.of_nat i) else None.
Proof.
  unfold range. rewrite nth_error_map, nth_error_seq.
  destruct (Nat.ltb_spec i (Z.to_nat n)); destruct (Z.ltb_spec (Z.of_nat i) n);
    simpl; try reflexivity; lia.
Qed.

Lemma int_from_bytes_acc (b : bytes) (acc : Z) :
  fold_left (fun a x => a * 256 + x) b acc
  = acc * 256 ^ len b + int_from_bytes b.
Proof.
  unfold int_from_bytes. revert acc.
  induction b as [|x b IH]; intros acc.
  - simpl. unfold len. simpl. lia.
  - cbn [fold_left]. rewrite IH. rewrite (IH (0 * 256 + x)).
    replace (len (x :: b)) with (len b + 1) by (unfold len; cbn [List.length]; lia).
    rewrite Z.pow_add_r by (try apply len_nonneg; lia). lia.
Qed.

Lemma int_from_bytes_app (a b : bytes) :
  int_from_bytes (a ++ b) = int_from_bytes a * 256 ^ len b + int_from_bytes b.
Proof.
  unfold int_from_bytes at 1. rewrite fold_left_app.
  rewrite int_from_bytes_acc. reflexivity.
Qed.

Lemma int_from_bytes_bounds (b : bytes) :
  Forall is_byte b -> 0 <= int_from_bytes b < 256 ^ len b.
Proof.
  induction b as [|x b IH] using rev_ind; intros H.
  - unfold int_from_bytes, len. simpl. lia.
  - apply Forall_app in H. destruct H as [Hb Hx].
    inversion Hx as [|? ? Hx0 _]; subst. unfold is_byte in Hx0.
    specialize (IH Hb).
    rewrite int_from_bytes_app, len_app.
    replace (len [x]) with 1 by reflexivity.
    replace (int_from_bytes [x]) with x by (unfold int_from_bytes; simpl; lia).
    rewrite Z.pow_add_r by (try apply len_nonneg; lia).
    change (256 ^ 1) with 256. nia.
Qed.

Lemma length_be_digits (n : nat) (v : Z) : List.length (be_digits n v) = n.
Proof.
  revert v. induction n as [|n IH]; intros v; simpl; [reflexivity|].
  rewrite length_app, IH. simpl. lia.
Qed.

Lemma be_digits_bytes (n : nat) (v : Z) : Forall is_byte (be_digits n v).
Proof.
  revert v. induction n as [|n IH]; intros v; simpl; [constructor|].
  apply Forall_app. split; [apply IH|].
  constructor; [|constructor]. unfold is_byte.
  apply Z.mod_pos_bound. lia.
Qed.

Lemma int_from_be_digits (n : nat) (v : Z) :
  int_from_bytes (be_digits n v) = v mod 256 ^ Z.of_nat n.
Proof.
  revert v. induction n as [|n IH]; intros v.
  - simpl. rewrite Z.mod_1_r. reflexivity.
  - cbn [be_digits]. rewrite int_from_bytes_app, IH.
    replace (len [v mod 256]) with 1 by reflexivity.
    replace (int_from_bytes [v mod 256]) with (v mod 256)
      by (unfold int_from_bytes; simpl; lia).
    change (256 ^ 1) with 256.
    rewrite Nat2Z.inj_succ, Z.pow_succ_r by lia.
    rewrite Z.rem_mul_r; [lia | lia | apply Z.pow_pos_nonneg; lia].
Qed.

Lemma be_digits_2 (v : Z) : be_digits 2 v = be16 v.
Proof. reflexivity. Qed.

Lemma be_digits_4 (v : Z) : be_digits 4 v = be32 v.
Proof.
  unfold be32. cbn [be_digits app].
  rewrite !Z.div_div by lia. reflexivity.
Qed.

Lemma int_to_bytes_ok (v : Z) (n : nat) :
  0 <= v < 256 ^ Z.of_nat n -> int_to_bytes v n = Ok (be_digits n v).
Proof.
  intros H. unfold int_to_bytes.
  destruct (Z.ltb_spec v 0); [lia|].
  destruct (Z.leb_spec (256 ^ Z.of_nat n) v); [lia|]. reflexivity.
Qed.

Lemma lxor_byte (a b : Z) : is_byte a -> is_byte b -> is_byte (Z.lxor a b).
Proof.
  unfold is_byte. intros Ha Hb.
  assert (Hnn : 0 <= Z.lxor a b) by (apply Z.lxor_nonneg; lia).
  split; [exact Hnn|].
  assert (Hs : Z.shiftr (Z.lxor a b) 8 = 0).
  { rewrite Z.shiftr_lxor, !Z.shiftr_div_pow2 by lia.
    change (2 ^ 8) with 256.
    rewrite (Z.div_small a), (Z.div_small b) by lia. reflexivity. }
  rewrite Z.shiftr_div_pow2 in Hs by lia. change (2 ^ 8) with 256 in Hs.
  pose proof (Z.div_mod (Z.lxor a b) 256 ltac:(lia)) as E.
  pose proof (Z.mod_pos_bound (Z.lxor a b) 256 ltac:(lia)). lia.
Qed.

(** ** Checksum and frame construction *)

Lemma checksum_loop (x : bytes) (c : Z) :
  is_byte c -> Forall is_byte x ->
  for_each
    (fun cs xi =>
       b <- bytes_of_ints [xi] ;;
       bytes_of_ints (map xor_pair (combine cs b)))
    x [c]
  = Ok [fold_left Z.lxor x c].
Proof.
  revert c. induction x as [|xi x IH]; intros c Hc Hx; [reflexivity|].
  inversion Hx as [|? ? Hxi Hx']; subst.
  cbn [for_each fold_left].
  rewrite bytes_of_ints_ok by (constructor; [assumption | constructor]).
  cbn [bind combine map]. unfold xor_pair at 1. cbn [fst snd].
  rewrite bytes_of_ints_ok
    by (constructor; [apply lxor_byte; assumption | constructor]).
  cbn [bind]. apply IH; [apply lxor_byte|]; assumption.
Qed.

Lemma xor_fold_left_right (x : bytes) : fold_left Z.lxor x 0 = xor_all x.
Proof.
  unfold xor_all. apply fold_symmetric.
  - intros a b c. symmetry. apply Z.lxor_assoc.
  - intros y. apply Z.lxor_comm.
Qed.

(** The checksum is the one-byte XOR of its input; it never raises. *)
Lemma checksum_xor (x : bytes) :
  Forall is_byte x -> _checksum x = Ok [xor_all x].
Proof.
  intros Hx. unfold _checksum.
  rewrite checksum_loop by (unfold is_byte; first [lia | assumption]).
  cbn [try_except]. now rewrite xor_fold_left_right.
Qed.

Lemma xor_all_byte (x : bytes) : Forall is_byte x -> is_byte (xor_all x).
Proof.
  induction 1 as [|a x Ha Hx IH]; [unfold is_byte; simpl; lia|].
  simpl. apply lxor_byte; assumption.
Qed.

(** The part of [_acoem_construct_message] after [msg_data] is complete. *)
Lemma frame_of_msg_data (s : session) (command : Z) (msg_data : bytes) :
  is_byte (serial_id s) -> is_byte command ->
  Forall is_byte msg_data -> len msg_data < 65536 ->
  (head <- bytes_of_ints [2; serial_id s; command; 3] ;;
   msg_len_bytes <- int_to_bytes (len msg_data) 2 ;;
   cs <- _checksum (head ++ msg_len_bytes ++ msg_data) ;;
   Ok ((head ++ msg_len_bytes ++ msg_data) ++ cs ++ [4]))
  = Ok (([2; serial_id s; command; 3] ++ be16 (len msg_data) ++ msg_data)
        ++ [xor_all ([2; serial_id s; command; 3] ++ be16 (len msg_data) ++ msg_data)]
        ++ [4]).
Proof.
  intros Hsid Hcmd Hdata Hlen.
  rewrite bytes_of_ints_ok by solve_bytes.
  cbn [bind].
  rewrite int_to_bytes_ok
    by (change (256 ^ Z.of_nat 2) with 65536; pose proof (len_nonneg msg_data); lia).
  cbn [bind]. rewrite be_digits_2.
  rewrite checksum_xor; [reflexivity|].
  apply Forall_app. split.
  - solve_bytes.
  - apply Forall_app. split; [|assumption].
    rewrite <- be_digits_2. apply be_digits_bytes.
Qed.

(** The frame built for well-formed arguments. *)
Lemma construct_message_general (s : session) (command parameter_id : Z)
    (payload : bytes) :
  is_byte (serial_id s) -> is_byte command ->
  parameter_id < 2 ^ 32 -> Forall is_byte payload ->
  let msg_data :=
    (if parameter_id >? 0 then be32 parameter_id else []) ++ payload in
  len msg_data < 65536 ->
  let msg := [2; serial_id s; command; 3] ++ be16 (len msg_data) ++ msg_data in
  _acoem_construct_message s command parameter_id payload
  = Ok (msg ++ [xor_all msg] ++ [4]).
Proof.
  intros Hsid Hcmd Hpid Hpay msg_data Hlen msg.
  subst msg. unfold _acoem_construct_message.
  assert (Hbe : Forall is_byte (be32 parameter_id))
    by (rewrite <- be_digits_4; apply be_digits_bytes).
  assert (Hnil : (len payload >? 0) = false -> payload = []).
  { destruct payload; [reflexivity|]. intros H. exfalso.
    rewrite Z.gtb_ltb in H. apply Z.ltb_ge in H.
    unfold len in H. cbn [List.length] in H. lia. }
  destruct (Z.gtb_spec parameter_id 0) as [Hpos|Hnpos].
  - rewrite int_to_bytes_ok by (change (256 ^ Z.of_nat 4) with (2 ^ 32); lia).
    rewrite be_digits_4. cbn [bind].
    destruct (len payload >? 0) eqn:Hp.
    + apply frame_of_msg_data; try assumption.
      apply Forall_app; split; assumption.
    + pose proof (Hnil eq_refl) as Hpl. clear Hnil Hp.
      subst msg_data. subst payload. rewrite app_nil_r in *.
      apply frame_of_msg_data; assumption.
  - cbn [bind]. destruct (len payload >? 0) eqn:Hp.
    + apply frame_of_msg_data; assumption.
    + pose proof (Hnil eq_refl) as Hpl. clear Hnil Hp.
      subst msg_data. subst payload.
      apply frame_of_msg_data; assumption.
Qed.

(** C4.  For a station id and a command that are bytes, a parameter id
    below 2^32 and a payload whose message data fits the 2-byte length
    field, [_acoem_construct_message] returns
    [0x02, station_id, command, 0x03] ++ len(msg_data) (2 bytes, big-endian)
    ++ msg_data ++ [checksum] ++ [0x04], where msg_data is the 4-byte
    big-endian parameter id (only when it is positive) followed by the
    payload, and checksum is the XOR of all preceding bytes.  For station 5,
    command 1, no parameter and no payload the frame is [2,5,1,3,0,0,5,4]. *)
Theorem construct_message_frame :
  (forall (s : session) (command parameter_id : Z) (payload : bytes),
      is_byte (serial_id s) -> is_byte command ->
      parameter_id < 2 ^ 32 -> Forall is_byte payload ->
      let msg_data :=
        (if parameter_id >? 0 then be32 parameter_id else []) ++ payload in
      len msg_data < 65536 ->
      let msg := [2; serial_id s; command; 3] ++ be16 (len msg_data) ++ msg_data in
      _acoem_construct_message s command parameter_id payload
      = Ok (msg ++ [xor_all msg] ++ [4]))
  /\ _acoem_construct_message (mk_session 5 Acoem) 1 0 []
     = Ok [2; 5; 1; 3; 0; 0; 5; 4]
  /\ Z.lxor (Z.lxor (Z.lxor 2 5) 1) 3 = 5.
Proof.
  split; [|split; reflexivity].
  intros s command parameter_id payload. apply construct_message_general.
Qed.

Lemma construct_message_frame_witness :
  _acoem_construct_message (mk_session 5 Acoem) 4 4035 []
  = Ok [2; 5; 4; 3; 0; 4; 0; 0; 15; 195; 200; 4].
Proof.
  pose proof (proj1 construct_message_frame (mk_session 5 Acoem) 4 4035 []) as H.
  cbv zeta in H. rewrite H.
  - reflexivity.
  - unfold is_byte; simpl; lia.
  - unfold is_byte; lia.
  - lia.
  - constructor.
  - vm_compute. reflexivity.
Defined.

(** ** Response decoding *)

Lemma slice_app_l {A : Type} (l l' : list A) (lo hi : Z) :
  0 <= lo -> 0 <= hi -> hi <= len l ->
  slice (l ++ l') lo hi = slice l lo hi.
Proof.
  intros Hlo Hhi Hlen. apply nth_error_ext. intros k.
  rewrite !nth_error_slice by assumption.
  destruct (Z.ltb_spec (lo + Z.of_nat k) hi); [|reflexivity].
  apply nth_error_app1. unfold len in Hlen. lia.
Qed.

Lemma length_range3 (start stop : Z) :
  List.length (range3 start stop 4) = Z.to_nat ((stop - start + 3) / 4).
Proof.
  unfold range3. rewrite length_map, length_seq. f_equal. f_equal. lia.
Qed.

Lemma nth_error_range3 (start stop : Z) (k : nat) :
  nth_error (range3 start stop 4) k =
  if Z.of_nat k <? (stop - start + 3) / 4
  then Some (start + 4 * Z.of_nat k) else None.
Proof.
  unfold range3. rewrite nth_error_map, nth_error_seq.
  replace (stop - start + 4 - 1) with (stop - start + 3) by lia.
  destruct (Nat.ltb_spec k (Z.to_nat ((stop - start + 3) / 4)));
    destruct (Z.ltb_spec (Z.of_nat k) ((stop - start + 3) / 4));
    simpl; try reflexivity; lia.
Qed.

Lemma response_length_nonneg (response : bytes) :
  Forall is_byte response -> 0 <= response_length response.
Proof.
  intros H. unfold response_length. apply Z.div_pos; [|lia].
  apply int_from_bytes_bounds, slice_Forall, H.
Qed.

Lemma decode_response_count (response : bytes) :
  ((response_length response + 1) * 4 + 2 - 6 + 3) / 4 = response_length response.
Proof.
  replace ((response_length response + 1) * 4 + 2 - 6 + 3)
    with (3 + response_length response * 4) by lia.
  rewrite Z.div_add by lia. reflexivity.
Qed.

Lemma decode_response_nth (response : bytes) (k : nat) :
  nth_error (_acoem_decode_response response) k =
  if Z.of_nat k <? response_length response
  then Some (int_from_bytes
               (slice response (6 + 4 * Z.of_nat k) (6 + 4 * Z.of_nat k + 4)))
  else None.
Proof.
  unfold _acoem_decode_response.
  rewrite nth_error_map, nth_error_range3, decode_response_count.
  destruct (Z.of_nat k <? response_length response); reflexivity.
Qed.

Lemma int_from_bytes_snoc (a : bytes) (x : Z) :
  int_from_bytes (a ++ [x]) = int_from_bytes a * 256 + x.
Proof.
  rewrite int_from_bytes_app. change (len [x]) with 1.
  change (256 ^ 1) with 256. unfold int_from_bytes at 2. cbn [fold_left]. lia.
Qed.

(** Byte strings of one length with the same big-endian value are equal. *)
Lemma int_from_bytes_inj (a : bytes) :
  forall b : bytes,
    Forall is_byte a -> Forall is_byte b -> List.length a = List.length b ->
    int_from_bytes a = int_from_bytes b -> a = b.
Proof.
  induction a as [|x a IH] using rev_ind; intros b Ha Hb Hl E.
  - destruct b; [reflexivity | discriminate].
  - destruct b as [|y b _] using rev_ind.
    + rewrite length_app in Hl. cbn [List.length] in Hl. lia.
    + rewrite !length_app in Hl. cbn [List.length] in Hl.
      apply Forall_app in Ha. destruct Ha as [Ha Hx].
      apply Forall_app in Hb. destruct Hb as [Hb Hy].
      inversion Hx as [|? ? Hx0 _]; subst.
      inversion Hy as [|? ? Hy0 _]; subst.
      unfold is_byte in Hx0, Hy0.
      rewrite !int_from_bytes_snoc in E.
      assert (x = y /\ int_from_bytes a = int_from_bytes b) as [-> E'] by lia.
      f_equal. apply IH; [assumption | assumption | lia | exact E'].
Qed.

(** C6 (as amended).  The 16-bit big-endian value at bytes [4:6) is a byte
    count: [_acoem_decode_response] returns that count divided by 4
    (rounded down) integers, the i-th being the big-endian integer of the
    bytes the response has at offsets [6 + 4*i, 6 + 4*i + 4), a 32-bit
    value when it has all four.  When the announced words end before the
    last two bytes of the response, the checksum byte is not read, so two
    responses that differ only in it decode alike; when they reach into
    the last two bytes, the checksum byte is read as part of a word and two
    responses that differ in it decode differently. *)
Theorem decode_response_items :
  forall response : bytes,
    Forall is_byte response ->
    let count := int_from_bytes (slice response 4 6) / 4 in
    (forall b4 b5, nth_error response 4 = Some b4 ->
                   nth_error response 5 = Some b5 ->
                   count = (256 * b4 + b5) / 4)
    /\ len (_acoem_decode_response response) = count
    /\ (forall i, 0 <= i < count ->
          nth_error (_acoem_decode_response response) (Z.to_nat i)
          = Some (int_from_bytes (slice response (6 + 4 * i) (6 + 4 * i + 4))))
    /\ (forall i w0 w1 w2 w3, 0 <= i < count ->
          slice response (6 + 4 * i) (6 + 4 * i + 4) = [w0; w1; w2; w3] ->
          nth_error (_acoem_decode_response response) (Z.to_nat i)
          = Some (16777216 * w0 + 65536 * w1 + 256 * w2 + w3))
    /\ (forall pre c1 c2 eot,
          response = pre ++ [c1; eot] -> 6 + 4 * count <= len pre ->
          _acoem_decode_response (pre ++ [c2; eot])
          = _acoem_decode_response response)
    /\ (forall pre c1 c2 eot,
          response = pre ++ [c1; eot] -> 6 <= len pre < 6 + 4 * count ->
          is_byte c2 -> c1 <> c2 ->
          _acoem_decode_response (pre ++ [c2; eot])
          <> _acoem_decode_response response).
Proof.
  intros response Hb count.
  assert (Hc : 0 <= count) by (apply response_length_nonneg; assumption).
  assert (Hnth : forall i, 0 <= i < count ->
            nth_error (_acoem_decode_response response) (Z.to_nat i)
            = Some (int_from_bytes (slice response (6 + 4 * i) (6 + 4 * i + 4)))).
  { intros i Hi. rewrite decode_response_nth.
    rewrite Z2Nat.id by lia. change (response_length response) with count.
    destruct (Z.ltb_spec i count); [reflexivity | lia]. }
  split; [|split; [|split; [|split; [|split]]]].
  - intros b4 b5 H4 H5. subst count. f_equal.
    assert (E : slice response 4 6 = [b4; b5]).
    { apply nth_error_ext. intros k. rewrite nth_error_slice by lia.
      destruct k as [|[|k]].
      - change (Z.to_nat 4 + 0)%nat with 4%nat. rewrite H4. reflexivity.
      - change (Z.to_nat 4 + 1)%nat with 5%nat. rewrite H5. reflexivity.
      - destruct (Z.ltb_spec (4 + Z.of_nat (S (S k))) 6); [lia|].
        now destruct k. }
    rewrite E. unfold int_from_bytes. cbn [fold_left]. lia.
  - unfold _acoem_decode_response, len.
    rewrite length_map, length_range3, decode_response_count.
    change (response_length response) with count. lia.
  - exact Hnth.
  - intros i w0 w1 w2 w3 Hi E. rewrite (Hnth i Hi), E.
    unfold int_from_bytes. cbn [fold_left]. f_equal. lia.
  - intros pre c1 c2 eot -> Hlen.
    assert (Hpre : 0 <= 6 <= len pre) by lia.
    assert (El : response_length (pre ++ [c2; eot]) = count).
    { unfold response_length. subst count.
      rewrite !slice_app_l by lia. reflexivity. }
    apply nth_error_ext. intros k. rewrite !decode_response_nth.
    rewrite El.
    change (response_length (pre ++ [c1; eot])) with count.
    destruct (Z.ltb_spec (Z.of_nat k) count); [|reflexivity].
    rewrite !slice_app_l by lia. reflexivity.
  - intros pre c1 c2 eot -> [Hlo Hhi] Hc2 Hne Heq.
    apply Forall_app in Hb. destruct Hb as [Hpre Htl].
    inversion Htl as [|? ? Hc1 Htl']; subst.
    assert (El : response_length (pre ++ [c2; eot]) = count).
    { unfold response_length. subst count.
      rewrite !slice_app_l by lia. reflexivity. }
    pose proof (Z.div_mod (len pre - 6) 4 ltac:(lia)) as Hdm.
    pose proof (Z.mod_pos_bound (len pre - 6) 4 ltac:(lia)) as Hmod.
    set (i := (len pre - 6) / 4) in *.
    set (off := (len pre - 6) mod 4) in *.
    apply (f_equal (fun l => nth_error l (Z.to_nat i))) in Heq.
    rewrite !decode_response_nth, El in Heq.
    change (response_length (pre ++ [c1; eot])) with count in Heq.
    rewrite Z2Nat.id in Heq by lia.
    destruct (Z.ltb_spec i count); [|lia].
    assert (Hs : slice (pre ++ [c2; eot]) (6 + 4 * i) (6 + 4 * i + 4)
                 = slice (pre ++ [c1; eot]) (6 + 4 * i) (6 + 4 * i + 4)).
    { apply int_from_bytes_inj.
      - apply slice_Forall, Forall_app. split; [exact Hpre|].
        constructor; [exact Hc2 | exact Htl'].
      - apply slice_Forall, Forall_app. split; [exact Hpre|].
        constructor; [exact Hc1 | exact Htl'].
      - apply Nat2Z.inj.
        change (len (slice (pre ++ [c2; eot]) (6 + 4 * i) (6 + 4 * i + 4))
                = len (slice (pre ++ [c1; eot]) (6 + 4 * i) (6 + 4 * i + 4))).
        rewrite !len_slice, !len_app by lia. reflexivity.
      - congruence. }
    assert (Hn : nth_error (slice (pre ++ [c2; eot]) (6 + 4 * i)
                              (6 + 4 * i + 4)) (Z.to_nat off)
                 = nth_error (slice (pre ++ [c1; eot]) (6 + 4 * i)
                                (6 + 4 * i + 4)) (Z.to_nat off))
      by (rewrite Hs; reflexivity).
    rewrite !nth_error_slice in Hn by lia.
    rewrite Z2Nat.id in Hn by lia.
    destruct (Z.ltb_spec (6 + 4 * i + off) (6 + 4 * i + 4)); [|lia].
    replace (Z.to_nat (6 + 4 * i) + Z.to_nat off)%nat
      with (List.length pre) in Hn by (unfold len in *; lia).
    rewrite !nth_error_app2, Nat.sub_diag in Hn by lia.
    cbn [nth_error] in Hn. congruence.
Qed.

Lemma decode_response_items_witness :
  _acoem_decode_response [2; 5; 4; 3; 0; 9; 0; 0; 0; 7; 0; 0; 1; 0; 9; 1; 4]
  = _acoem_decode_response [2; 5; 4; 3; 0; 9; 0; 0; 0; 7; 0; 0; 1; 0; 9; 77; 4]
  /\ _acoem_decode_response [2; 5; 4; 3; 0; 8; 0; 0; 0; 7; 1; 4]
     <> _acoem_decode_response [2; 5; 4; 3; 0; 8; 0; 0; 0; 7; 77; 4].
Proof.
  split.
  - symmetry.
    refine (proj1 (proj2 (proj2 (proj2 (proj2
              (decode_response_items
                 [2; 5; 4; 3; 0; 9; 0; 0; 0; 7; 0; 0; 1; 0; 9; 77; 4] _)))))
              [2; 5; 4; 3; 0; 9; 0; 0; 0; 7; 0; 0; 1; 0; 9] 77 1 4 _ _).
    + repeat first [apply Forall_nil | apply Forall_cons]; unfold is_byte; lia.
    + reflexivity.
    + vm_compute. discriminate.
  - refine (proj2 (proj2 (proj2 (proj2 (proj2
              (decode_response_items
                 [2; 5; 4; 3; 0; 8; 0; 0; 0; 7; 77; 4] _)))))
              [2; 5; 4; 3; 0; 8; 0; 0; 0; 7] 77 1 4 _ _ _ _).
    + repeat first [apply Forall_nil | apply Forall_cons]; unfold is_byte; lia.
    + reflexivity.
    + vm_compute. split; [discriminate | reflexivity].
    + unfold is_byte. lia.
    + discriminate.
Defined.

(** The claim as stated fails.  A 24-byte response whose length field
    holds 4 has room for four words before its checksum, yet one integer is
    returned, not four: the field counts bytes. *)
Lemma decode_response_length_is_bytes :
  len four_word_reply = 24
  /\ int_from_bytes (slice four_word_reply 4 6) = 4
  /\ 6 + 4 * int_from_bytes (slice four_word_reply 4 6) + 2
     <= len four_word_reply
  /\ _acoem_decode_response four_word_reply = [7]
  /\ len (_acoem_decode_response four_word_reply)
     <> int_from_bytes (slice four_word_reply 4 6).
Proof.
  repeat split; try reflexivity; vm_compute; discriminate.
Qed.

(** ** Partition of the logged-data payload into records *)

Lemma items_per_record_ge_4 (response : bytes) :
  Forall is_byte response -> 4 <= items_per_record response.
Proof.
  intros H. unfold items_per_record, fields_per_record, response_body.
  assert (0 <= int_from_bytes (slice (slice response 6 (-2)) 12 16));
    [|lia].
  apply int_from_bytes_bounds. now repeat apply slice_Forall.
Qed.

Lemma message_length_nonneg (response : bytes) :
  Forall is_byte response -> 0 <= message_length response.
Proof. apply response_length_nonneg. Qed.

Lemma number_of_records_nonneg (response : bytes) :
  Forall is_byte response -> 0 <= number_of_records response.
Proof.
  intros H. unfold number_of_records.
  apply Z.div_pos; [now apply message_length_nonneg|].
  pose proof (items_per_record_ge_4 response H). lia.
Qed.

Lemma length_records (response : bytes) :
  List.length (records response) = Z.to_nat (number_of_records response).
Proof. unfold records. now rewrite length_map, length_range. Qed.

Lemma nth_error_records (response : bytes) (i : nat) :
  nth_error (records response) i =
  if Z.of_nat i <? number_of_records response
  then Some (slice (response_body response)
               (Z.of_nat i * items_per_record response * 4)
               ((Z.of_nat i + 1) * (items_per_record response * 4) - 1))
  else None.
Proof.
  unfold records. rewrite nth_error_map, nth_error_range.
  destruct (Z.of_nat i <? number_of_records response); reflexivity.
Qed.

(** C5.  [number_of_records] is [message_length] divided by
    [items_per_record], rounded down: a partial trailing record belongs to
    no slice, and building the slices raises nothing.  Slice [i] holds the
    bytes of the response body from offset [i*items_per_record*4] up to
    but excluding [(i+1)*items_per_record*4 - 1], one byte less than the
    record's window of [items_per_record*4] bytes. *)
Theorem logged_data_partition :
  forall response : bytes,
    Forall is_byte response ->
    let ipr := items_per_record response in
    let n := number_of_records response in
    let body := response_body response in
    n = message_length response / ipr
    /\ n * ipr <= message_length response < (n + 1) * ipr
    /\ len (records response) = n
    /\ (forall i, 0 <= i < n ->
          exists record,
            nth_error (records response) (Z.to_nat i) = Some record
            /\ record = slice body (i * ipr * 4) ((i + 1) * ipr * 4 - 1)
            /\ (forall k : nat,
                  nth_error record k =
                  if Z.of_nat k <? ipr * 4 - 1
                  then nth_error body (Z.to_nat (i * ipr * 4) + k)
                  else None)
            /\ ((i + 1) * ipr * 4 - 1 <= len body ->
                len record = ipr * 4 - 1)).
Proof.
  intros response Hb ipr n body.
  pose proof (items_per_record_ge_4 response Hb) as Hipr. fold ipr in Hipr.
  pose proof (number_of_records_nonneg response Hb) as Hn. fold n in Hn.
  pose proof (message_length_nonneg response Hb) as Hml.
  split; [reflexivity|]. split; [|split].
  - subst n. unfold number_of_records. fold ipr.
    pose proof (Z.div_mod (message_length response) ipr ltac:(lia)) as E.
    pose proof (Z.mod_pos_bound (message_length response) ipr ltac:(lia)).
    nia.
  - unfold len. rewrite length_records. fold n. lia.
  - intros i Hi.
    exists (slice body (i * ipr * 4) ((i + 1) * ipr * 4 - 1)).
    split; [|split; [reflexivity|split]].
    + rewrite nth_error_records. rewrite Z2Nat.id by lia. fold n ipr body.
      destruct (Z.ltb_spec i n); [|lia].
      replace ((i + 1) * ipr * 4 - 1) with ((i + 1) * (ipr * 4) - 1) by ring.
      reflexivity.
    + intros k. rewrite nth_error_slice by nia.
      destruct (Z.ltb_spec (Z.of_nat k) (ipr * 4 - 1));
        destruct (Z.ltb_spec (i * ipr * 4 + Z.of_nat k) ((i + 1) * ipr * 4 - 1));
        try reflexivity; lia.
    + intros Hlen. rewrite len_slice by nia. nia.
Qed.

Lemma logged_data_partition_witness :
  len (records
         ([2; 5; 7; 3; 0; 50]
          ++ [1; 0; 0; 0; 0; 0; 0; 0; 0; 0; 0; 0; 0; 0; 0; 2;
              0; 0; 3; 233; 0; 0; 3; 234]
          ++ [0; 0; 0; 0; 93; 98; 165; 30; 0; 0; 0; 60; 0; 0; 0; 2;
              65; 72; 0; 0; 192; 64; 0; 0]
          ++ [9; 9; 77; 4])) = 2.
Proof.
  refine (proj1 (proj2 (proj2 (logged_data_partition _ _)))).
  repeat first [apply Forall_nil | apply Forall_cons]; unfold is_byte; lia.
Defined.

(** ** Packed timestamps: decoding *)

(** The div/mod chain of the decoder extracts the bit fields. *)
Lemma timestamp_fields (ts : Z) :
  ts mod 64 = ts_second ts
  /\ (ts / 64) mod 64 = ts_minute ts
  /\ (ts / 64 / 64) mod 32 = ts_hour ts
  /\ (ts / 64 / 64 / 32) mod 32 = ts_day ts
  /\ (ts / 64 / 64 / 32 / 32) mod 16 = ts_month ts
  /\ ts / 64 / 64 / 32 / 32 / 16 + 2000 = ts_year ts.
Proof.
  unfold ts_second, ts_minute, ts_hour, ts_day, ts_month, ts_year.
  change 63 with (Z.ones 6). change 31 with (Z.ones 5).
  change 15 with (Z.ones 4).
  rewrite !Z.land_ones by lia. rewrite !Z.shiftr_div_pow2 by lia.
  rewrite !Z.div_div by lia.
  repeat split; reflexivity.
Qed.

Lemma timestamp_to_datetime_cases (ts : Z) :
  _acoem_timestamp_to_datetime ts =
  if ts_valid ts
  then Ok (mk_datetime (ts_year ts) (ts_month ts) (ts_day ts)
             (ts_hour ts) (ts_minute ts) (ts_second ts) 0)
  else Ok sentinel_datetime.
Proof.
  unfold _acoem_timestamp_to_datetime. cbv zeta.
  destruct (timestamp_fields ts) as (-> & -> & -> & -> & -> & ->).
  unfold datetime_new at 1. fold (ts_valid ts).
  destruct (ts_valid ts); reflexivity.
Qed.

(** C7 (as amended).  For every 32-bit input whose bit fields do not form
    a valid calendar date and time, [_acoem_timestamp_to_datetime] raises
    nothing: its handler turns the date-construction error into the
    sentinel value 1111-01-01 00:00:00, which is what the caller gets. *)
Theorem timestamp_invalid_gives_sentinel :
  forall ts : Z,
    0 <= ts < 2 ^ 32 ->
    ts_valid ts = false ->
    _acoem_timestamp_to_datetime ts = Ok (mk_datetime 1111 1 1 0 0 0 0)
    /\ ~ raises (_acoem_timestamp_to_datetime ts).
Proof.
  intros ts _ Hinvalid.
  rewrite timestamp_to_datetime_cases, Hinvalid.
  split; [reflexivity|]. intros [e He]. discriminate.
Qed.

Lemma timestamp_invalid_gives_sentinel_witness :
  _acoem_timestamp_to_datetime 1555824640
  = Ok (mk_datetime 1111 1 1 0 0 0 0).
Proof.
  refine (proj1 (timestamp_invalid_gives_sentinel 1555824640 _ _)).
  - lia.
  - reflexivity.
Defined.

(** The claim as stated fails: month 0 (timestamp 0) and April 31st
    (2023-04-31 00:00:00) are not reported as errors. *)
Lemma timestamp_invalid_not_reported :
  (ts_month 0 = 0 /\ ts_valid 0 = false
   /\ _acoem_timestamp_to_datetime 0 = Ok sentinel_datetime
   /\ ~ raises (_acoem_timestamp_to_datetime 0))
  /\ (ts_year 1564344320 = 2023 /\ ts_month 1564344320 = 4
      /\ ts_day 1564344320 = 31 /\ ts_valid 1564344320 = false
      /\ _acoem_timestamp_to_datetime 1564344320 = Ok sentinel_datetime
      /\ ~ raises (_acoem_timestamp_to_datetime 1564344320)).
Proof.
  repeat split; try reflexivity; intros [e He]; discriminate.
Qed.

(** ** Reading from the socket *)

(** Under the "acoem" protocol the loop body returns straight after the
    first [recv] that follows the request, whatever that chunk ends with. *)
Lemma tcpip_comm_acoem_first_chunk (s : session) (message cleared data : bytes)
    (rest : socket) :
  protocol s = Acoem ->
  tcpip_comm s message (cleared :: data :: rest) = Ok (Some data).
Proof.
  intros Hp. unfold tcpip_comm. rewrite Hp. reflexivity.
Qed.

Lemma acoem_receive_entered (sock : socket) :
  acoem_receive [] sock <> Ok None.
Proof.
  unfold acoem_receive. simpl. destruct sock; simpl; discriminate.
Qed.

(** The "legacy" loop only ends normally on a buffer that ends with CRLF
    or CRLF LF, made of the chunks received so far. *)
Lemma legacy_receive_terminated (sock : socket) :
  forall rcvd r : bytes,
    legacy_receive rcvd sock = Ok r ->
    (endswith r [13; 10] || endswith r [13; 10; 10] = true)
    /\ exists k : nat, r = rcvd ++ List.concat (firstn k sock).
Proof.
  induction sock as [|data rest IH]; intros rcvd r H; simpl in H.
  - destruct (endswith rcvd [13; 10] || endswith rcvd [13; 10; 10]) eqn:E;
      simpl in H; [|discriminate].
    injection H as <-. split; [exact E|].
    exists 0%nat. simpl. now rewrite app_nil_r.
  - destruct (endswith rcvd [13; 10] || endswith rcvd [13; 10; 10]) eqn:E;
      simpl in H.
    + injection H as <-. split; [exact E|].
      exists 0%nat. simpl. now rewrite app_nil_r.
    + destruct (IH _ _ H) as [Hend [k Hk]]. split; [exact Hend|].
      exists (S k). simpl. rewrite Hk. now rewrite app_assoc.
Qed.

Lemma tcpip_comm_legacy_result (s : session) (message cleared : bytes)
    (sock : socket) (r : bytes) :
  protocol s = Legacy ->
  legacy_receive [] sock = Ok r ->
  tcpip_comm s message (cleared :: sock) = Ok (Some (strip r))
  /\ (endswith r [13; 10] || endswith r [13; 10; 10] = true).
Proof.
  intros Hp Hr. split.
  - unfold tcpip_comm. rewrite Hp. simpl. rewrite Hr. reflexivity.
  - apply (legacy_receive_terminated sock [] r Hr).
Qed.

(** C3, evaluated where the code departs from it.  Under the "acoem"
    protocol, with the reply arriving as the chunks [2,5] and then [4],
    [tcpip_comm] returns the buffer [2,5] after the first of them: the
    returned buffer does not end with EOT (0x04). *)
Theorem tcpip_comm_acoem_returns_early :
  tcpip_comm (mk_session 5 Acoem) [2; 5; 1; 3; 0; 0; 5; 4] [[]; [2; 5]; [4]]
  = Ok (Some [2; 5])
  /\ endswith [2; 5] [4] = false
  /\ endswith ([2; 5] ++ [4]) [4] = true.
Proof. repeat split. Qed.

(** ** Operations *)

(** C8 (as amended).  Under the legacy protocol [get_current_operation]
    returns 0 for the reply "000", 2 for "016" and 1 for "032"; for every
    other reply string the failed lookup is caught by the function's own
    handler and the result is the error code 9.  Nothing is raised. *)
Theorem legacy_operation_of_reply :
  forall (s : session) (sock : socket) (raw : bytes) (response : string),
    protocol s = Legacy ->
    tcpip_comm s (vi71_message s) sock = Ok (Some raw) ->
    bytes_decode raw = Ok response ->
    (response = "000"%string -> get_current_operation s sock = Ok 0)
    /\ (response = "016"%string -> get_current_operation s sock = Ok 2)
    /\ (response = "032"%string -> get_current_operation s sock = Ok 1)
    /\ (response <> "000"%string -> response <> "016"%string ->
        response <> "032"%string -> get_current_operation s sock = Ok 9)
    /\ ~ raises (get_current_operation s sock).
Proof.
  intros s sock raw response Hp Hcomm Hdec.
  assert (E : get_current_operation s sock
              = try_except (dict_get String.eqb operation_mapping response)
                  (Ok 9)).
  { unfold get_current_operation. rewrite Hp, Hcomm. cbn [bind as_bytes].
    rewrite Hdec. reflexivity. }
  rewrite E. unfold operation_mapping. cbn [dict_get].
  repeat split.
  - intros ->. reflexivity.
  - intros ->. reflexivity.
  - intros ->. reflexivity.
  - intros H0 H16 H32.
    destruct (String.eqb_spec "000" response) as [<-|_]; [congruence|].
    destruct (String.eqb_spec "016" response) as [<-|_]; [congruence|].
    destruct (String.eqb_spec "032" response) as [<-|_]; [congruence|].
    reflexivity.
  - intros [e He].
    destruct (String.eqb "000" response); [discriminate|].
    destruct (String.eqb "016" response); [discriminate|].
    destruct (String.eqb "032" response); discriminate.
Qed.

Lemma legacy_operation_of_reply_witness :
  get_current_operation (mk_session 5 Legacy) [[]; [48; 49]; [54; 13; 10]]
  = Ok 2.
Proof.
  refine (proj1 (proj2
            (legacy_operation_of_reply (mk_session 5 Legacy)
               [[]; [48; 49]; [54; 13; 10]] [48; 49; 54] "016" _ _ _)) _);
    reflexivity.
Defined.

(** The claim as stated fails: the reply "001" is no key of the mapping,
    and the caller gets the value 9 instead of an error. *)
Lemma legacy_operation_unknown_reply :
  tcpip_comm (mk_session 5 Legacy) (vi71_message (mk_session 5 Legacy))
    [[]; [48; 48; 49; 13; 10]] = Ok (Some [48; 48; 49])
  /\ bytes_decode [48; 48; 49] = Ok "001"%string
  /\ get_current_operation (mk_session 5 Legacy) [[]; [48; 48; 49; 13; 10]]
     = Ok 9
  /\ ~ raises (get_current_operation (mk_session 5 Legacy)
                 [[]; [48; 48; 49; 13; 10]]).
Proof.
  repeat split. intros [e He]. discriminate.
Qed.

(** C9 (as amended).  For a parameter id in [1, 2^32) and a value in
    [0, 255], [set_values] under the binary protocol hands [tcpip_comm] a
    command-5 frame whose message data is the 4-byte big-endian parameter
    id followed by the 4-byte big-endian value.  Under the legacy protocol
    the Warning raised inside is caught by the function's own handler and
    the empty list is returned. *)
Theorem set_values_frame :
  (forall (s : session) (parameter_id value : Z) (sock : socket),
      protocol s = Acoem -> is_byte (serial_id s) ->
      0 < parameter_id < 2 ^ 32 -> 0 <= value < 256 ->
      let msg_data := be32 parameter_id ++ be32 value in
      let msg := [2; serial_id s; 5; 3] ++ [0; 8] ++ msg_data in
      let frame := msg ++ [xor_all msg] ++ [4] in
      set_values_message s parameter_id value = Ok frame
      /\ set_values s parameter_id value sock
         = try_except
             (response <- tcpip_comm s frame sock ;;
              response <- as_bytes TypeError response ;;
              Ok (_acoem_decode_response response))
             (Ok []))
  /\ (forall (s : session) (parameter_id value : Z) (sock : socket),
         protocol s = Legacy ->
         set_values s parameter_id value sock = Ok []).
Proof.
  split.
  - intros s parameter_id value sock Hp Hsid Hpid Hval msg_data msg frame.
    assert (Hmsg : set_values_message s parameter_id value = Ok frame).
    { unfold set_values_message.
      rewrite bytes_of_ints_ok by solve_bytes. cbn [bind].
      pose proof (construct_message_general s 5 parameter_id
                    [0; 0; 0; value]) as H.
      cbv zeta in H. rewrite H.
      - subst frame msg msg_data.
        destruct (Z.gtb_spec parameter_id 0); [|lia].
        replace (be32 value) with [0; 0; 0; value]; [reflexivity|].
        unfold be32. rewrite !Z.div_small by lia.
        rewrite (Z.mod_small value) by lia. reflexivity.
      - assumption.
      - unfold is_byte; lia.
      - lia.
      - solve_bytes.
      - destruct (parameter_id >? 0); vm_compute; reflexivity. }
    split; [exact Hmsg|].
    unfold set_values. rewrite Hp, Hmsg. reflexivity.
  - intros s parameter_id value sock Hp. unfold set_values. rewrite Hp.
    reflexivity.
Qed.

Lemma set_values_frame_witness :
  set_values_message (mk_session 5 Acoem) 4035 2
  = Ok [2; 5; 5; 3; 0; 8; 0; 0; 15; 195; 0; 0; 0; 2; 199; 4]
  /\ set_values (mk_session 5 Legacy) 4035 2 [] = Ok [].
Proof.
  split.
  - refine (proj1 (proj1 set_values_frame (mk_session 5 Acoem) 4035 2 [] _ _ _ _)).
    + reflexivity.
    + unfold is_byte; simpl; lia.
    + lia.
    + lia.
  - refine (proj2 set_values_frame (mk_session 5 Legacy) 4035 2 [] _).
    reflexivity.
Defined.

(** The claim as stated fails: under the legacy protocol the caller gets
    the empty list, not an error; and under the binary protocol no frame is
    built for the 32-bit value 256. *)
Lemma set_values_not_as_claimed :
  (set_values (mk_session 5 Legacy) 4035 1 [] = Ok []
   /\ ~ raises (set_values (mk_session 5 Legacy) 4035 1 []))
  /\ (set_values_message (mk_session 5 Acoem) 4035 256 = Raise ValueError
      /\ set_values (mk_session 5 Acoem) 4035 256
           [[]; [2; 5; 5; 3; 0; 0; 1; 4]] = Ok []).
Proof.
  repeat split. intros [e He]. discriminate.
Qed.

(** ** Packed timestamps: encoding and the round trip *)

Lemma range_forallb (P : Z -> bool) (m : Z) :
  forallb P (range m) = true -> forall n, 0 <= n < m -> P n = true.
Proof.
  intros H n Hn. rewrite forallb_forall in H. apply H.
  apply nth_error_In with (n := Z.to_nat n).
  rewrite nth_error_range, Z2Nat.id by lia.
  destruct (Z.ltb_spec n m); [reflexivity | lia].
Qed.

Lemma bits_value_acc (s : string) (acc : Z) :
  bits_value s acc =
  match bits_value s 0 with
  | Some v => Some (acc * 2 ^ Z.of_nat (String.length s) + v)
  | None => None
  end.
Proof.
  revert acc. induction s as [|c s IH]; intros acc.
  - simpl. f_equal. lia.
  - cbn [bits_value String.length].
    destruct (Ascii.eqb c "0"); [|destruct (Ascii.eqb c "1")].
    + rewrite (IH (2 * acc)), (IH (2 * 0)).
      destruct (bits_value s 0); [|reflexivity].
      f_equal. rewrite Nat2Z.inj_succ, Z.pow_succ_r by lia. lia.
    + rewrite (IH (2 * acc + 1)), (IH (2 * 0 + 1)).
      destruct (bits_value s 0); [|reflexivity].
      f_equal. rewrite Nat2Z.inj_succ, Z.pow_succ_r by lia. lia.
    + reflexivity.
Qed.

Lemma bits_value_app (s1 s2 : string) (acc : Z) :
  bits_value (s1 ++ s2) acc =
  match bits_value s1 acc with
  | Some a => bits_value s2 a
  | None => None
  end.
Proof.
  revert acc. induction s1 as [|c s1 IH]; intros acc; [reflexivity|].
  cbn [append bits_value].
  destruct (Ascii.eqb c "0"); [apply IH|].
  destruct (Ascii.eqb c "1"); [apply IH | reflexivity].
Qed.

Lemma field_digits (k : nat) (n acc : Z) :
  field_ok k n = true ->
  forall rest : string,
    bits_value (zfill k (str_from 2 (bin n)) ++ rest) acc
    = bits_value rest (acc * 2 ^ Z.of_nat k + n).
Proof.
  unfold field_ok. cbv zeta. intros H rest.
  apply andb_prop in H. destruct H as [Hlen Hval].
  apply Nat.eqb_eq in Hlen.
  rewrite bits_value_app, bits_value_acc, Hlen.
  destruct (bits_value (zfill k (str_from 2 (bin n))) 0) as [v|];
    [|discriminate].
  apply Z.eqb_eq in Hval. now subst v.
Qed.

Lemma field_ok_4 (n : Z) : 0 <= n < 16 -> field_ok 4 n = true.
Proof. apply (range_forallb (field_ok 4) 16). vm_compute. reflexivity. Qed.

Lemma field_ok_5 (n : Z) : 0 <= n < 32 -> field_ok 5 n = true.
Proof. apply (range_forallb (field_ok 5) 32). vm_compute. reflexivity. Qed.

Lemma field_ok_6 (n : Z) : 0 <= n < 64 -> field_ok 6 n = true.
Proof. apply (range_forallb (field_ok 6) 64). vm_compute. reflexivity. Qed.

Lemma year_ok_from_8 (y : Z) : 8 <= y < 64 -> year_ok y = true.
Proof.
  intros H.
  pose proof (range_forallb (fun n => year_ok (n + 8)) 56) as E.
  replace y with (y - 8 + 8) by lia. apply E; [|lia].
  vm_compute. reflexivity.
Qed.

Lemma year_broken_below_8 (y : Z) : 0 <= y < 8 -> year_broken y = true.
Proof. apply (range_forallb year_broken 8). vm_compute. reflexivity. Qed.

Lemma int_base2_year_ok (y : Z) (rest : string) :
  year_ok y = true ->
  int_base2 (zfill 6 (bin y) ++ rest)
  = match bits_value rest y with
    | Some v => Ok v
    | None => Raise ValueError
    end.
Proof.
  unfold year_ok. destruct (zfill 6 (bin y)) as [|c0 [|c1 [|c2 d]]];
    try discriminate.
  intros H.
  apply andb_prop in H. destruct H as [H Hv].
  apply andb_prop in H. destruct H as [H H2].
  apply andb_prop in H. destruct H as [H0 H1].
  apply Ascii.eqb_eq in H0, H1, H2. subst c0 c1 c2.
  destruct (bits_value (String "1" d) 0) as [v|] eqn:Ev; [|discriminate].
  apply Z.eqb_eq in Hv. subst v.
  unfold int_base2. cbn [append Ascii.eqb Bool.eqb andb orb].
  change (String "1" (d ++ rest)) with (String "1" d ++ rest)%string.
  rewrite bits_value_app, Ev. reflexivity.
Qed.

Lemma int_base2_year_broken (y : Z) (rest : string) :
  year_broken y = true ->
  int_base2 (zfill 6 (bin y) ++ rest) = Raise ValueError.
Proof.
  unfold year_broken.
  destruct (zfill 6 (bin y)) as [|c0 [|c1 [|c2 [|c3 [|c4 [|c5 [|c6 s]]]]]]];
    try discriminate; try (now rewrite andb_false_r).
  intros H.
  apply andb_prop in H. destruct H as [H Hs].
  apply andb_prop in H. destruct H as [H0 H1].
  apply Ascii.eqb_eq in H0, H1. subst c0 c1.
  unfold int_base2. cbn [append Ascii.eqb Bool.eqb andb orb bits_value].
  destruct (Ascii.eqb_spec c2 "b") as [->|_]; [reflexivity|].
  destruct (Ascii.eqb_spec c2 "0") as [->|_]; [|discriminate].
  cbn [Ascii.eqb Bool.eqb andb orb bits_value].
  destruct (Ascii.eqb_spec c3 "b") as [->|_]; [reflexivity|].
  destruct (Ascii.eqb_spec c3 "0") as [->|_]; [|discriminate].
  cbn [Ascii.eqb Bool.eqb andb orb bits_value].
  destruct (Ascii.eqb_spec c4 "b") as [->|_]; [reflexivity|discriminate].
Qed.

Lemma string_app_nil (s : string) : (s ++ "")%string = s.
Proof. induction s as [|c s IH]; simpl; [reflexivity | now rewrite IH]. Qed.

Lemma valid_datetime_bounds (t : datetime) :
  valid_datetime t = true ->
  1 <= month t <= 12 /\ 1 <= day t <= 31 /\ 0 <= hour t <= 23
  /\ 0 <= minute t <= 59 /\ 0 <= second t <= 59.
Proof.
  unfold valid_datetime, valid_date, valid_time, days_in_month. intros H.
  repeat (apply andb_prop in H; destruct H as [H ?]).
  destruct (month t =? 2); [destruct (is_leap (year t))|];
    [| |destruct ((month t =? 4) || (month t =? 6) || (month t =? 9)
                  || (month t =? 11))]; lia.
Qed.

(** From 2008 to 2063 the encoder returns the packed value as four
    big-endian bytes. *)
Lemma datetime_to_timestamp_from_2008 (t : datetime) :
  valid_datetime t = true -> 2008 <= year t <= 2063 ->
  _acoem_datetime_to_timestamp t = Ok (be32 (pack_timestamp t)).
Proof.
  intros Hv Hy.
  destruct (valid_datetime_bounds t Hv) as (Hm & Hd & HH & HM & HS).
  unfold _acoem_datetime_to_timestamp. cbv zeta.
  rewrite int_base2_year_ok by (apply year_ok_from_8; lia).
  rewrite (field_digits 4) by (apply field_ok_4; lia).
  rewrite (field_digits 5) by (apply field_ok_5; lia).
  rewrite (field_digits 5) by (apply field_ok_5; lia).
  rewrite (field_digits 6) by (apply field_ok_6; lia).
  rewrite <- (string_app_nil (zfill 6 (str_from 2 (bin (second t))))).
  rewrite (field_digits 6) by (apply field_ok_6; lia).
  cbn [bits_value bind].
  change (2 ^ Z.of_nat 4) with 16. change (2 ^ Z.of_nat 5) with 32.
  change (2 ^ Z.of_nat 6) with 64. fold (pack_timestamp t).
  rewrite int_to_bytes_ok, be_digits_4; [reflexivity|].
  change (256 ^ Z.of_nat 4) with 4294967296.
  unfold pack_timestamp. lia.
Qed.

(** From 2000 to 2007 the year string is no binary literal; the handler
    turns the ValueError into the empty byte string. *)
Lemma datetime_to_timestamp_before_2008 (t : datetime) :
  2000 <= year t <= 2007 -> _acoem_datetime_to_timestamp t = Ok [].
Proof.
  intros Hy. unfold _acoem_datetime_to_timestamp. cbv zeta.
  rewrite int_base2_year_broken by (apply year_broken_below_8; lia).
  reflexivity.
Qed.

Lemma div_mod_pack (a b n : Z) :
  0 <= b < n -> (a * n + b) mod n = b /\ (a * n + b) / n = a.
Proof.
  intros H. split.
  - rewrite Z.add_comm, Z.mod_add by lia. apply Z.mod_small. lia.
  - rewrite Z.add_comm, Z.div_add by lia. rewrite Z.div_small by lia. lia.
Qed.

Lemma timestamp_to_datetime_pack (t : datetime) :
  valid_datetime t = true ->
  _acoem_timestamp_to_datetime (pack_timestamp t)
  = Ok (mk_datetime (year t) (month t) (day t)
          (hour t) (minute t) (second t) 0).
Proof.
  intros Hv.
  destruct (valid_datetime_bounds t Hv) as (Hm & Hd & HH & HM & HS).
  unfold _acoem_timestamp_to_datetime, pack_timestamp. cbv zeta.
  repeat match goal with
         | |- context [(?a * ?n + ?b) mod ?n] =>
             rewrite (proj1 (div_mod_pack a b n ltac:(lia)))
         | |- context [(?a * ?n + ?b) / ?n] =>
             rewrite (proj2 (div_mod_pack a b n ltac:(lia)))
         end.
  replace (year t - 2000 + 2000) with (year t) by lia.
  unfold datetime_new. unfold valid_datetime in Hv. rewrite Hv. reflexivity.
Qed.

(** Where the encoder works, decoding gives the date and time back. *)
Lemma timestamp_roundtrip_from_2008 (t : datetime) :
  valid_datetime t = true -> 2008 <= year t <= 2063 -> microsecond t = 0 ->
  decode_encode t = Ok t.
Proof.
  intros Hv Hy Hus. unfold decode_encode.
  rewrite datetime_to_timestamp_from_2008 by assumption. cbn [bind].
  rewrite <- be_digits_4, int_from_be_digits.
  destruct (valid_datetime_bounds t Hv) as (Hm & Hd & HH & HM & HS).
  rewrite Z.mod_small
    by (change (256 ^ Z.of_nat 4) with 4294967296; unfold pack_timestamp; lia).
  rewrite timestamp_to_datetime_pack by assumption.
  destruct t as [y m d H M S us]. simpl in Hus. subst us. reflexivity.
Qed.

(** For the years 2000 to 2007 the round trip ends in the sentinel. *)
Lemma timestamp_roundtrip_before_2008 (t : datetime) :
  2000 <= year t <= 2007 -> decode_encode t = Ok sentinel_datetime.
Proof.
  intros Hy. unfold decode_encode.
  rewrite datetime_to_timestamp_before_2008 by assumption. reflexivity.
Qed.

(** C1, evaluated where the code departs from it.  For 2000-01-01 00:00:00
    and for 2005-06-15 12:30:45, both valid and within [2000, 2063], the
    year string built by the encoder is "0000b0" resp. "00b101", the
    encoder returns the empty byte string, and decoding it gives the
    sentinel 1111-01-01 00:00:00 instead of the input. *)
Theorem timestamp_roundtrip_fails_before_2008 :
  (valid_datetime (mk_datetime 2000 1 1 0 0 0 0) = true
   /\ zfill 6 (bin (2000 - 2000)) = "0000b0"%string
   /\ _acoem_datetime_to_timestamp (mk_datetime 2000 1 1 0 0 0 0) = Ok []
   /\ decode_encode (mk_datetime 2000 1 1 0 0 0 0)
      = Ok (mk_datetime 1111 1 1 0 0 0 0)
   /\ decode_encode (mk_datetime 2000 1 1 0 0 0 0)
      <> Ok (mk_datetime 2000 1 1 0 0 0 0))
  /\ (valid_datetime (mk_datetime 2005 6 15 12 30 45 0) = true
      /\ zfill 6 (bin (2005 - 2000)) = "00b101"%string
      /\ _acoem_datetime_to_timestamp (mk_datetime 2005 6 15 12 30 45 0) = Ok []
      /\ decode_encode (mk_datetime 2005 6 15 12 30 45 0)
         = Ok (mk_datetime 1111 1 1 0 0 0 0)
      /\ decode_encode (mk_datetime 2005 6 15 12 30 45 0)
         <> Ok (mk_datetime 2005 6 15 12 30 45 0)).
Proof.
  repeat split; try reflexivity; vm_compute; discriminate.
Qed.

(** ** The logged-data decoder *)

Lemma getitem_0 {A : Type} (l : list A) (x : A) :
  getitem l 0 = Ok x -> exists r, l = x :: r.
Proof.
  unfold getitem. simpl. destruct l as [|y r]; simpl; [discriminate|].
  intros [= ->]. now exists r.
Qed.

Lemma active_keys_cons (ks : list Z) (record : bytes) (recs : list bytes) (t : Z) :
  getitem record 0 = Ok t ->
  active_keys ks (record :: recs)
  = active_keys (if t =? 1 then header_keys record else ks) recs.
Proof.
  intros H. destruct (getitem_0 _ _ H) as [r ->]. reflexivity.
Qed.

(** One iteration: a header record replaces the key list, a data record
    replaces [data] by its decoded mapping, and in every case the current
    [data] is appended to [all]. *)
Lemma loop_body_spec (st st' : loop_state) (record : bytes) :
  loop_body st record = Ok st' ->
  exists t,
    getitem record 0 = Ok t
    /\ st_keys st' = (if t =? 1 then header_keys record else st_keys st)
    /\ (t = 0 -> logged_record (st_keys st) record = Ok (st_data st'))
    /\ (t <> 0 -> st_data st' = st_data st)
    /\ st_all st' = st_all st ++ [st_data st'].
Proof.
  unfold loop_body. intros H.
  destruct (getitem record 0) as [t|e] eqn:Et; [|discriminate].
  exists t. split; [reflexivity|]. cbn [bind] in H.
  destruct (Z.eqb_spec t 0) as [->|Hne].
  - change (0 =? 1) with false in *. cbv iota in H.
    unfold logged_record.
    destruct (decode_data_record (st_keys st) (record_values record) record)
      as [d|e]; [|discriminate].
    cbn [bind] in H. injection H as <-. cbn.
    repeat split; congruence.
  - cbn [bind] in H. injection H as <-.
    destruct (t =? 1); cbn; repeat split; congruence.
Qed.

Lemma record_loop_spec (recs : list bytes) :
  forall st st' : loop_state,
    for_each loop_body recs st = Ok st' ->
    exists outs : list dict,
      st_all st' = st_all st ++ outs
      /\ List.length outs = List.length recs
      /\ forall (i : nat) (record : bytes),
           nth_error recs i = Some record ->
           (getitem record 0 = Ok 0 ->
            exists d,
              logged_record (active_keys (st_keys st) (firstn i recs)) record
              = Ok d
              /\ nth_error outs i = Some d)
           /\ (forall t, getitem record 0 = Ok t -> t <> 0 ->
               nth_error outs i
               = Some (match i with
                       | O => st_data st
                       | S j => nth j outs []
                       end)).
Proof.
  induction recs as [|r recs IH]; intros st st' H.
  - injection H as <-. exists []. rewrite app_nil_r.
    split; [reflexivity|]. split; [reflexivity|].
    intros [|i] record Hi; discriminate.
  - cbn [for_each] in H. apply bind_Ok in H. destruct H as (st1 & H1 & H).
    apply loop_body_spec in H1.
    destruct H1 as (t & Ht & Hkeys & Hdata & Hkeep & Hall).
    destruct (IH _ _ H) as (outs & Hall' & Hlen & Hnth).
    exists (st_data st1 :: outs).
    split; [|split].
    + rewrite Hall', Hall, <- app_assoc. reflexivity.
    + cbn [List.length]. now rewrite Hlen.
    + intros [|i] record Hi.
      * cbn [nth_error] in Hi. injection Hi as <-. split.
        -- intros H0. rewrite Ht in H0. injection H0 as ->.
           exists (st_data st1). split; [|reflexivity].
           cbn [firstn active_keys fold_left]. now apply Hdata.
        -- intros t' Ht' Hne. rewrite Ht in Ht'. injection Ht' as <-.
           cbn [nth_error]. now rewrite Hkeep.
      * cbn [nth_error] in Hi. destruct (Hnth i record Hi) as [Hd Hh].
        split.
        -- intros H0. destruct (Hd H0) as (d & Hrec & Hout).
           exists d. split; [|exact Hout].
           cbn [firstn]. rewrite (active_keys_cons _ _ _ t Ht).
           rewrite <- Hkeys. exact Hrec.
        -- intros t' Ht' Hne. cbn [nth_error].
           rewrite (Hh t' Ht' Hne). destruct i; reflexivity.
Qed.

(** The shape of every result: the seed dictionary, then one element per
    record. *)
Lemma decode_logged_data_shape (response : bytes) (out : list dict) :
  _acoem_decode_logged_data response = Ok out ->
  exists (command : Z) (outs : list dict),
    getitem response 2 = Ok command
    /\ out = [] :: outs
    /\ (command <> 7 -> outs = [])
    /\ (command = 7 ->
        List.length outs = List.length (records response)
        /\ forall (i : nat) (record : bytes),
             nth_error (records response) i = Some record ->
             (getitem record 0 = Ok 0 ->
              exists d,
                logged_record
                  (active_keys [] (firstn i (records response))) record = Ok d
                /\ nth_error outs i = Some d)
             /\ (forall t, getitem record 0 = Ok t -> t <> 0 ->
                 nth_error out (S i) = nth_error out i)).
Proof.
  unfold _acoem_decode_logged_data. cbv zeta. intros H.
  apply bind_Ok in H. destruct H as (command & Hc & H).
  exists command.
  destruct (Z.eqb_spec command 7) as [->|Hne].
  - apply bind_Ok in H. destruct H as (st & Hloop & H).
    injection H as <-.
    destruct (record_loop_spec _ _ _ Hloop) as (outs & Hall & Hlen & Hnth).
    cbn [st_all st_keys st_data] in Hall, Hnth.
    exists outs. split; [exact Hc|]. split; [exact Hall|].
    split; [congruence|]. intros _. split; [exact Hlen|].
    intros i record Hi. destruct (Hnth i record Hi) as [Hd Hh].
    split; [exact Hd|].
    intros t Ht Htne. rewrite Hall. cbn [app nth_error].
    assert (Hlt : (i < List.length outs)%nat)
      by (apply nth_error_Some; rewrite (Hh t Ht Htne); discriminate).
    rewrite (Hh t Ht Htne). destruct i as [|j]; [reflexivity|].
    cbn [nth_error]. symmetry. apply nth_error_nth'. lia.
  - injection H as <-. exists []. split; [exact Hc|]. split; [reflexivity|].
    split; [reflexivity|]. intros E. contradiction.
Qed.

(** C2 (as amended).  A response of at least three bytes whose command
    byte is not 7 decodes to a one-element sequence holding the empty
    mapping.  For command byte 7, when decoding completes, the sequence
    starts with the empty mapping and holds the LoggedRecord of every data
    record in input order: that of the data record at payload index [i],
    decoded under the keys of the last header before it, is output element
    [i + 1]. *)
Theorem decode_logged_data_output :
  (forall (response : bytes) (command : Z),
      getitem response 2 = Ok command -> command <> 7 ->
      _acoem_decode_logged_data response = Ok [([] : dict)])
  /\ (forall (response : bytes) (out : list dict),
        getitem response 2 = Ok 7 ->
        _acoem_decode_logged_data response = Ok out ->
        nth_error out 0 = Some ([] : dict)
        /\ forall (i : nat) (record : bytes),
             nth_error (records response) i = Some record ->
             getitem record 0 = Ok 0 ->
             exists d : dict,
               logged_record
                 (active_keys [] (firstn i (records response))) record = Ok d
               /\ nth_error out (S i) = Some d).
Proof.
  split.
  - intros response command Hc Hne. unfold _acoem_decode_logged_data.
    cbv zeta. rewrite Hc. cbn [bind].
    destruct (Z.eqb_spec command 7); [contradiction | reflexivity].
  - intros response out Hc H.
    destruct (decode_logged_data_shape response out H)
      as (command & outs & Hc' & -> & _ & H7).
    rewrite Hc in Hc'. injection Hc' as <-.
    destruct (H7 eq_refl) as [_ Hnth].
    split; [reflexivity|].
    intros i record Hi H0. destruct (Hnth i record Hi) as [Hd _].
    destruct (Hd H0) as (d & Hrec & Hout). exists d. split; assumption.
Qed.

Lemma decode_logged_data_output_witness :
  _acoem_decode_logged_data [2; 5; 4; 3; 0; 0; 0; 4] = Ok [([] : dict)]
  /\ exists d : dict,
       logged_record
         (active_keys [] (firstn 1 (records sample_response)))
         (removelast sample_data) = Ok d
       /\ nth_error
            [[]; [];
             [(KInt 1001, VFloat 1095237632); (KInt 3, VBytes []);
              (KStr "dtm", VStr "20230517102030");
              (KStr "logging_interval", VInt 60)]]
            2 = Some d.
Proof.
  split.
  - refine (proj1 decode_logged_data_output [2; 5; 4; 3; 0; 0; 0; 4] 4 _ _).
    + reflexivity.
    + discriminate.
  - refine (proj2 (proj2 decode_logged_data_output sample_response _ _ _)
              1%nat (removelast sample_data) _ _); reflexivity.
Defined.

(** The claim as stated fails: a response to another command decodes to a
    sequence of one element, not to the empty sequence; and a payload of
    one header record and one data record decodes to three elements. *)
Lemma decode_logged_data_not_as_claimed :
  (getitem [2; 5; 4; 3; 0; 0; 0; 4] 2 = Ok 4
   /\ _acoem_decode_logged_data [2; 5; 4; 3; 0; 0; 0; 4] = Ok [([] : dict)]
   /\ _acoem_decode_logged_data [2; 5; 4; 3; 0; 0; 0; 4] <> Ok [])
  /\ (getitem sample_response 2 = Ok 7
      /\ map (fun r => getitem r 0) (records sample_response) = [Ok 1; Ok 0]
      /\ _acoem_decode_logged_data sample_response
         = Ok [[]; [];
               [(KInt 1001, VFloat 1095237632); (KInt 3, VBytes []);
                (KStr "dtm", VStr "20230517102030");
                (KStr "logging_interval", VInt 60)]]).
Proof.
  repeat split. discriminate.
Qed.

(** C10 (as amended).  Whenever [_acoem_decode_logged_data] returns, the
    list is non-empty and its first element is the empty mapping it was
    seeded with, so the record decoded from the data record at payload
    index [i] is at output position [i + 1].  It returns for every input
    of at least three bytes whose command byte is not 7. *)
Theorem decode_logged_data_leading_empty :
  (forall (response : bytes) (out : list dict),
      _acoem_decode_logged_data response = Ok out ->
      exists rest : list dict,
        out = ([] : dict) :: rest
        /\ out <> []
        /\ forall (i : nat) (record : bytes),
             getitem response 2 = Ok 7 ->
             nth_error (records response) i = Some record ->
             getitem record 0 = Ok 0 ->
             exists d : dict,
               logged_record
                 (active_keys [] (firstn i (records response))) record = Ok d
               /\ nth_error rest i = Some d
               /\ nth_error out (S i) = Some d)
  /\ (forall (response : bytes) (command : Z),
        getitem response 2 = Ok command -> command <> 7 ->
        exists out, _acoem_decode_logged_data response = Ok out).
Proof.
  split.
  - intros response out H.
    destruct (decode_logged_data_shape response out H)
      as (command & outs & Hc & -> & _ & H7).
    exists outs. split; [reflexivity|]. split; [discriminate|].
    intros i record Hc7 Hi H0.
    rewrite Hc in Hc7. injection Hc7 as ->.
    destruct (H7 eq_refl) as [_ Hnth].
    destruct (Hnth i record Hi) as [Hd _].
    destruct (Hd H0) as (d & Hrec & Hout).
    exists d. repeat split; assumption.
  - intros response command Hc Hne. exists [[]].
    unfold _acoem_decode_logged_data. cbv zeta. rewrite Hc. cbn [bind].
    destruct (Z.eqb_spec command 7); [contradiction | reflexivity].
Qed.

Lemma decode_logged_data_leading_empty_witness :
  exists rest : list dict,
    [[]; [];
     [(KInt 1001, VFloat 1095237632); (KInt 3, VBytes []);
      (KStr "dtm", VStr "20230517102030"%string);
      (KStr "logging_interval", VInt 60)]] = ([] : dict) :: rest
    /\ List.length rest = 2%nat.
Proof.
  destruct (proj1 decode_logged_data_leading_empty sample_response
              [[]; [];
               [(KInt 1001, VFloat 1095237632); (KInt 3, VBytes []);
                (KStr "dtm", VStr "20230517102030"%string);
                (KStr "logging_interval", VInt 60)]] eq_refl)
    as (rest & E & _).
  exists rest. split; [exact E|].
  injection E as <-. reflexivity.
Defined.

(** The claim as stated fails: on the empty input, which is what
    [tcpip_comm] returns after a failed exchange, and on a command-7
    response cut short, nothing is returned: IndexError is raised. *)
Lemma decode_logged_data_can_raise :
  _acoem_decode_logged_data [] = Raise IndexError
  /\ _acoem_decode_logged_data [2; 5; 7; 3; 0; 48; 0; 4] = Raise IndexError
  /\ ~ (exists out, _acoem_decode_logged_data [] = Ok out).
Proof.
  repeat split. intros [out H]. discriminate.
Qed.

(** ** Further properties: checksum and frames *)

Lemma xor_all_app (a b : bytes) :
  xor_all (a ++ b) = Z.lxor (xor_all a) (xor_all b).
Proof.
  unfold xor_all. induction a as [|x a IH]; simpl.
  - reflexivity.
  - rewrite IH. symmetry. apply Z.lxor_assoc.
Qed.

(** X1.  The checksum of a concatenation is the XOR of the checksums of its
    parts, each a single byte; so a sequence followed by its own checksum
    has checksum 0. *)
Theorem checksum_concat :
  forall a b : bytes,
    Forall is_byte a -> Forall is_byte b ->
    exists ca cb : Z,
      _checksum a = Ok [ca] /\ _checksum b = Ok [cb]
      /\ is_byte ca /\ is_byte cb
      /\ _checksum (a ++ b) = Ok [Z.lxor ca cb]
      /\ _checksum (a ++ [ca]) = Ok [0].
Proof.
  intros a b Ha Hb. exists (xor_all a), (xor_all b).
  assert (Hca : is_byte (xor_all a)) by now apply xor_all_byte.
  repeat split; try (now apply checksum_xor); try (now apply xor_all_byte).
  - rewrite checksum_xor by (apply Forall_app; split; assumption).
    now rewrite xor_all_app.
  - rewrite checksum_xor
      by (apply Forall_app; split; [assumption | solve_bytes]).
    rewrite xor_all_app. unfold xor_all at 2. cbn [fold_right].
    rewrite Z.lxor_0_r, Z.lxor_nilpotent. reflexivity.
Qed.

Lemma checksum_concat_witness :
  exists ca cb : Z,
    _checksum [2; 5; 1; 3] = Ok [ca] /\ _checksum [0; 0] = Ok [cb]
    /\ is_byte ca /\ is_byte cb
    /\ _checksum ([2; 5; 1; 3] ++ [0; 0]) = Ok [Z.lxor ca cb]
    /\ _checksum ([2; 5; 1; 3] ++ [ca]) = Ok [0].
Proof.
  apply (checksum_concat [2; 5; 1; 3] [0; 0]); solve_bytes.
Defined.

Lemma int_to_bytes_raises (v : Z) (n : nat) :
  ~ 0 <= v < 256 ^ Z.of_nat n -> int_to_bytes v n = Raise OverflowError.
Proof.
  intros H. unfold int_to_bytes.
  destruct (Z.ltb_spec v 0); [reflexivity|].
  destruct (Z.leb_spec (256 ^ Z.of_nat n) v); [reflexivity | lia].
Qed.

Lemma bytes_of_ints_raises (l : list Z) :
  ~ Forall is_byte l -> bytes_of_ints l = Raise ValueError.
Proof.
  intros H. unfold bytes_of_ints.
  destruct (forallb is_byteb l) eqn:E; [|reflexivity].
  exfalso. apply H. apply Forall_forall. intros x Hx.
  apply is_byteb_iff. rewrite forallb_forall in E. auto.
Qed.

Lemma frame_head_bytes (sid command : Z) :
  bytes_of_ints [2; sid; command; 3]
  = if is_byteb sid && is_byteb command
    then Ok [2; sid; command; 3] else Raise ValueError.
Proof.
  unfold bytes_of_ints. cbn [forallb].
  change (is_byteb 2) with true. change (is_byteb 3) with true.
  destruct (is_byteb sid), (is_byteb command); reflexivity.
Qed.

Lemma payload_appended (data payload : bytes) :
  (if len payload >? 0 then data ++ payload else data) = data ++ payload.
Proof.
  destruct payload; [now rewrite app_nil_r | reflexivity].
Qed.

(** After [msg_data] is complete: the frame, or the first error. *)
Lemma frame_tail_raises (s : session) (command : Z) (msg_data : bytes) :
  ~ (is_byte (serial_id s) /\ is_byte command /\ len msg_data < 65536) ->
  raises
    (head <- bytes_of_ints [2; serial_id s; command; 3] ;;
     msg_len_bytes <- int_to_bytes (len msg_data) 2 ;;
     cs <- _checksum (head ++ msg_len_bytes ++ msg_data) ;;
     Ok ((head ++ msg_len_bytes ++ msg_data) ++ cs ++ [4])).
Proof.
  intros Hnot. rewrite frame_head_bytes.
  destruct (is_byteb (serial_id s)) eqn:Es;
    [|eexists; reflexivity].
  destruct (is_byteb command) eqn:Ec; [|eexists; reflexivity].
  apply is_byteb_iff in Es, Ec. cbn [andb bind].
  rewrite int_to_bytes_raises; [eexists; reflexivity|].
  change (256 ^ Z.of_nat 2) with 65536. intros Hl. apply Hnot.
  repeat split; try apply Es; try apply Ec; lia.
Qed.

Lemma construct_message_out_of_range (s : session)
    (command parameter_id : Z) (payload : bytes) :
  ~ (is_byte (serial_id s) /\ is_byte command
     /\ parameter_id < 2 ^ 32
     /\ len ((if parameter_id >? 0 then be32 parameter_id else [])
             ++ payload) < 65536) ->
  raises (_acoem_construct_message s command parameter_id payload).
Proof.
  intros Hnot. unfold _acoem_construct_message.
  destruct (Z.gtb_spec parameter_id 0) as [Hpos|Hnpos].
  - destruct (Z.lt_ge_cases parameter_id (2 ^ 32)) as [Hlt|Hge].
    + rewrite int_to_bytes_ok
        by (change (256 ^ Z.of_nat 4) with (2 ^ 32); lia).
      rewrite be_digits_4. cbn [bind]. rewrite payload_appended.
      apply frame_tail_raises. intros (Hs & Hc & Hl). apply Hnot.
      repeat split; try apply Hs; try apply Hc; lia.
    + rewrite int_to_bytes_raises
        by (change (256 ^ Z.of_nat 4) with (2 ^ 32); lia).
      eexists; reflexivity.
  - cbn [bind]. rewrite payload_appended.
    apply frame_tail_raises. intros (Hs & Hc & Hl). apply Hnot.
    repeat split; try apply Hs; try apply Hc; lia.
Qed.

(** X2.  [_acoem_construct_message] raises exactly when the station id or
    the command is not a byte, the parameter id does not fit four bytes, or
    the message data does not fit the two-byte length field. *)
Theorem construct_message_raises_iff :
  forall (s : session) (command parameter_id : Z) (payload : bytes),
    Forall is_byte payload ->
    (raises (_acoem_construct_message s command parameter_id payload)
     <-> ~ (is_byte (serial_id s) /\ is_byte command
            /\ parameter_id < 2 ^ 32
            /\ len ((if parameter_id >? 0 then be32 parameter_id else [])
                    ++ payload) < 65536)).
Proof.
  intros s command parameter_id payload Hpay. split.
  - intros [e He] (Hsid & Hcmd & Hpid & Hlen).
    pose proof (construct_message_general s command parameter_id payload
                  Hsid Hcmd Hpid Hpay) as H.
    cbv zeta in H. rewrite (H Hlen) in He. discriminate.
  - apply construct_message_out_of_range.
Qed.

Lemma construct_message_raises_iff_witness :
  raises (_acoem_construct_message (mk_session 300 Acoem) 4 4035 [])
  <-> ~ (is_byte 300 /\ is_byte 4 /\ 4035 < 2 ^ 32
         /\ len (be32 4035 ++ []) < 65536).
Proof.
  apply (construct_message_raises_iff (mk_session 300 Acoem) 4 4035 []).
  apply Forall_nil.
Defined.

Lemma slice_app_r {A : Type} (a l : list A) (lo hi : Z) :
  0 <= lo -> 0 <= hi ->
  slice (a ++ l) (len a + lo) (len a + hi) = slice l lo hi.
Proof.
  intros Hlo Hhi. pose proof (len_nonneg a) as Ha.
  apply nth_error_ext. intros k.
  rewrite !nth_error_slice by lia.
  destruct (Z.ltb_spec (len a + lo + Z.of_nat k) (len a + hi));
    destruct (Z.ltb_spec (lo + Z.of_nat k) hi); try lia; [|reflexivity].
  rewrite nth_error_app2 by (unfold len in *; lia).
  f_equal. unfold len in *. lia.
Qed.

Lemma slice_all {A : Type} (l : list A) : slice l 0 (len l) = l.
Proof.
  apply nth_error_ext. intros k.
  rewrite nth_error_slice by (try apply len_nonneg; lia).
  destruct (Z.ltb_spec (0 + Z.of_nat k) (len l)); [reflexivity|].
  symmetry. apply nth_error_None. unfold len in *. lia.
Qed.

Lemma slice_prefix {A : Type} (a l : list A) :
  slice (a ++ l) 0 (len a) = a.
Proof.
  rewrite slice_app_l by (try apply len_nonneg; lia). apply slice_all.
Qed.

Lemma len_words (ws : list Z) : len (words ws) = 4 * len ws.
Proof.
  unfold words. induction ws as [|w ws IH]; [reflexivity|].
  cbn [flat_map]. rewrite len_app, IH. unfold len. cbn [List.length be32]. lia.
Qed.

Lemma words_app (a b : list Z) : words (a ++ b) = words a ++ words b.
Proof. unfold words. apply flat_map_app. Qed.

Lemma words_bytes (ws : list Z) : Forall is_byte (words ws).
Proof.
  unfold words. induction ws as [|w ws IH]; [constructor|].
  cbn [flat_map]. apply Forall_app. split; [|exact IH].
  rewrite <- be_digits_4. apply be_digits_bytes.
Qed.

Lemma int_from_be32 (w : Z) : is_word w -> int_from_bytes (be32 w) = w.
Proof.
  intros H. rewrite <- be_digits_4, int_from_be_digits.
  apply Z.mod_small. exact H.
Qed.

Lemma slice_words (ws : list Z) :
  forall (k : nat) (w : Z) (tail : bytes),
    nth_error ws k = Some w ->
    slice (words ws ++ tail) (4 * Z.of_nat k) (4 * Z.of_nat k + 4) = be32 w.
Proof.
  induction ws as [|w0 ws IH]; intros k w tail Hk;
    [destruct k; discriminate|].
  change (words (w0 :: ws)) with (be32 w0 ++ words ws).
  rewrite <- app_assoc. destruct k as [|k]; cbn [nth_error] in Hk.
  - injection Hk as ->. apply (slice_prefix (be32 w)).
  - replace (4 * Z.of_nat (S k)) with (len (be32 w0) + 4 * Z.of_nat k)
      by (change (len (be32 w0)) with 4; lia).
    rewrite <- Z.add_assoc. rewrite slice_app_r by lia.
    now apply IH.
Qed.

Lemma endswith_last (b : bytes) (x : Z) : endswith (b ++ [x]) [x] = true.
Proof.
  unfold endswith. rewrite rev_app_distr. cbn [rev app ends_with_rev].
  rewrite Z.eqb_refl. destruct (rev b); reflexivity.
Qed.

(** Decoding a frame whose message data are 32-bit words. *)
Lemma decode_frame_words (head : bytes) (ws : list Z) (x : Z) :
  len head = 4 -> Forall is_word ws -> 4 * len ws < 65536 ->
  let frame := (head ++ be16 (4 * len ws) ++ words ws) ++ [x] ++ [4] in
  slice frame 4 6 = be16 (4 * len ws)
  /\ int_from_bytes (be16 (4 * len ws)) = 4 * len ws
  /\ _acoem_decode_response frame = ws.
Proof.
  intros Hhead Hws Hsize frame.
  pose proof (len_nonneg ws) as Hnn.
  set (L := 4 * len ws) in *.
  assert (Hfield : slice frame 4 6 = be16 L).
  { subst frame. rewrite <- !app_assoc.
    pose proof (slice_app_r head (be16 L ++ words ws ++ [x] ++ [4]) 0 2
                  ltac:(lia) ltac:(lia)) as E.
    rewrite Hhead in E. change (4 + 0) with 4 in E.
    change (4 + 2) with 6 in E.
    rewrite E. apply (slice_prefix (be16 L)). }
  assert (HL : int_from_bytes (be16 L) = L).
  { rewrite <- be_digits_2, int_from_be_digits.
    apply Z.mod_small. change (256 ^ Z.of_nat 2) with 65536. lia. }
  split; [exact Hfield|]. split; [exact HL|].
  apply nth_error_ext. intros k. rewrite decode_response_nth.
  unfold response_length. rewrite Hfield, HL.
  replace (L / 4) with (len ws)
    by (subst L; rewrite Z.mul_comm, Z.div_mul; lia).
  destruct (Z.ltb_spec (Z.of_nat k) (len ws)) as [Hk|Hk].
  - destruct (nth_error ws k) as [w|] eqn:Ew;
      [|apply nth_error_None in Ew; unfold len in Hk; lia].
    f_equal. subst frame. rewrite <- !app_assoc.
    replace (6 + 4 * Z.of_nat k + 4)
      with (len head + (len (be16 L) + (4 * Z.of_nat k + 4)))
      by (change (len (be16 L)) with 2; lia).
    replace (6 + 4 * Z.of_nat k)
      with (len head + (len (be16 L) + 4 * Z.of_nat k))
      by (change (len (be16 L)) with 2; lia).
    rewrite slice_app_r by (change (len (be16 L)) with 2; lia).
    rewrite slice_app_r by lia.
    rewrite (slice_words ws k w) by assumption.
    apply int_from_be32.
    rewrite Forall_forall in Hws. apply Hws.
    eapply nth_error_In; eassumption.
  - symmetry. apply nth_error_None. unfold len in Hk. lia.
Qed.

(** X3.  Framing and decoding agree.  The frame built for a parameter id
    and a payload of 32-bit words starts with STX, ends with EOT, carries
    in bytes [4:6) the length of the frame minus its 8 framing bytes, has
    checksum 0 over everything before EOT, and [_acoem_decode_response]
    reads back from it the parameter id (when positive) followed by the
    words. *)
Theorem frame_decodes_to_words :
  forall (s : session) (command parameter_id : Z) (ws : list Z),
    is_byte (serial_id s) -> is_byte command ->
    parameter_id < 2 ^ 32 -> Forall is_word ws ->
    4 * (len ws + 1) < 65536 ->
    exists frame : bytes,
      _acoem_construct_message s command parameter_id (words ws) = Ok frame
      /\ nth_error frame 0 = Some 2
      /\ endswith frame [4] = true
      /\ int_from_bytes (slice frame 4 6) = len frame - 8
      /\ _checksum (removelast frame) = Ok [0]
      /\ _acoem_decode_response frame
         = (if parameter_id >? 0 then [parameter_id] else []) ++ ws.
Proof.
  intros s command parameter_id ws Hsid Hcmd Hpid Hws Hsize.
  set (allws := (if parameter_id >? 0 then [parameter_id] else []) ++ ws).
  assert (Hdata : (if parameter_id >? 0 then be32 parameter_id else [])
                  ++ words ws = words allws).
  { subst allws. rewrite words_app.
    destruct (parameter_id >? 0); [|reflexivity].
    unfold words at 2. cbn [flat_map]. now rewrite app_nil_r. }
  assert (Hall : Forall is_word allws).
  { subst allws. apply Forall_app. split; [|assumption].
    destruct (Z.gtb_spec parameter_id 0); constructor;
      [unfold is_word; lia | constructor]. }
  assert (Hlen : len allws <= len ws + 1).
  { subst allws. rewrite len_app.
    destruct (parameter_id >? 0); unfold len; cbn [List.length]; lia. }
  pose proof (len_nonneg allws) as Hnn.
  pose proof (construct_message_general s command parameter_id (words ws)
                Hsid Hcmd Hpid (words_bytes ws)) as H.
  cbv zeta in H. rewrite Hdata in H. rewrite len_words in H.
  set (L := 4 * len allws) in *.
  set (msg := [2; serial_id s; command; 3] ++ be16 L ++ words allws) in *.
  exists (msg ++ [xor_all msg] ++ [4]).
  assert (Hmsg : Forall is_byte msg).
  { subst msg. apply Forall_app. split; [solve_bytes|].
    apply Forall_app. split; [|apply words_bytes].
    rewrite <- be_digits_2. apply be_digits_bytes. }
  assert (Hlmsg : len msg = 6 + L).
  { subst msg. rewrite !len_app, len_words.
    unfold len at 1 2. cbn [List.length be16]. subst L. lia. }
  assert (Hfield : slice (msg ++ [xor_all msg] ++ [4]) 4 6 = be16 L).
  { subst msg. rewrite <- !app_assoc.
    pose proof (slice_app_r [2; serial_id s; command; 3]
                  (be16 L ++ words allws ++ [xor_all
                     ([2; serial_id s; command; 3] ++ be16 L ++ words allws)]
                   ++ [4]) 0 2 ltac:(lia) ltac:(lia)) as E.
    change (len [2; serial_id s; command; 3] + 0) with 4 in E.
    change (len [2; serial_id s; command; 3] + 2) with 6 in E.
    rewrite E. apply (slice_prefix (be16 L)). }
  assert (HL : int_from_bytes (be16 L) = L).
  { rewrite <- be_digits_2, int_from_be_digits.
    apply Z.mod_small. change (256 ^ Z.of_nat 2) with 65536. lia. }
  split; [apply H; lia|]. split; [reflexivity|].
  split; [rewrite app_assoc; apply endswith_last|].
  split; [rewrite Hfield, HL, !len_app, Hlmsg;
          change (len [xor_all msg]) with 1; change (len [4]) with 1; lia|].
  split.
  - rewrite app_assoc, removelast_last.
    rewrite checksum_xor
      by (apply Forall_app; split;
          [assumption | constructor; [now apply xor_all_byte | constructor]]).
    rewrite xor_all_app. unfold xor_all at 2. cbn [fold_right].
    rewrite Z.lxor_0_r, Z.lxor_nilpotent. reflexivity.
  - apply nth_error_ext. intros k. rewrite decode_response_nth.
    unfold response_length. rewrite Hfield, HL.
    replace (L / 4) with (len allws)
      by (subst L; rewrite Z.mul_comm, Z.div_mul; lia).
    destruct (Z.ltb_spec (Z.of_nat k) (len allws)) as [Hk|Hk].
    + destruct (nth_error allws k) as [w|] eqn:Ew;
        [|apply nth_error_None in Ew; unfold len in Hk; lia].
      f_equal. subst msg. rewrite <- !app_assoc.
      replace (6 + 4 * Z.of_nat k + 4)
        with (len [2; serial_id s; command; 3]
              + (len (be16 L) + (4 * Z.of_nat k + 4)))
        by (change (len [2; serial_id s; command; 3]) with 4;
            change (len (be16 L)) with 2; lia).
      replace (6 + 4 * Z.of_nat k)
        with (len [2; serial_id s; command; 3]
              + (len (be16 L) + 4 * Z.of_nat k))
        by (change (len [2; serial_id s; command; 3]) with 4;
            change (len (be16 L)) with 2; lia).
      rewrite slice_app_r
        by (change (len (be16 L)) with 2; lia).
      rewrite slice_app_r by lia.
      rewrite (slice_words allws k w) by assumption.
      apply int_from_be32.
      rewrite Forall_forall in Hall. apply Hall.
      eapply nth_error_In; eassumption.
    + symmetry. apply nth_error_None. unfold len in Hk. lia.
Qed.

Lemma frame_decodes_to_words_witness :
  exists frame : bytes,
    _acoem_construct_message (mk_session 5 Acoem) 5 4035 (words [2]) = Ok frame
    /\ nth_error frame 0 = Some 2
    /\ endswith frame [4] = true
    /\ int_from_bytes (slice frame 4 6) = len frame - 8
    /\ _checksum (removelast frame) = Ok [0]
    /\ _acoem_decode_response frame = [4035] ++ [2].
Proof.
  apply (frame_decodes_to_words (mk_session 5 Acoem) 5 4035 [2]).
  - unfold is_byte; simpl; lia.
  - unfold is_byte; lia.
  - lia.
  - constructor; [unfold is_word; lia | constructor].
  - vm_compute. reflexivity.
Defined.

(** X4.  A constructed parameter id determines its parts: for a wavelength
    and an angle below 1000, the base id, the wavelength and the angle are
    recovered by division, so distinct triples give distinct ids. *)
Theorem construct_parameter_id_parts :
  forall base_id wavelength angle : Z,
    0 <= wavelength < 1000 -> 0 <= angle < 1000 ->
    let id := _acoem_construct_parameter_id base_id wavelength angle in
    id / 1000000 = base_id
    /\ id / 1000 mod 1000 = wavelength
    /\ id mod 1000 = angle
    /\ (forall b w a, 0 <= w < 1000 -> 0 <= a < 1000 ->
          _acoem_construct_parameter_id b w a = id ->
          b = base_id /\ w = wavelength /\ a = angle).
Proof.
  intros base_id wavelength angle Hw Ha id.
  assert (P : forall b w a, 0 <= w < 1000 -> 0 <= a < 1000 ->
            let i := _acoem_construct_parameter_id b w a in
            i / 1000000 = b /\ i / 1000 mod 1000 = w /\ i mod 1000 = a).
  { intros b w a Hw' Ha'. unfold _acoem_construct_parameter_id. cbv zeta.
    repeat split.
    - replace (b * 1000000 + w * 1000 + a)
        with ((w * 1000 + a) + b * 1000000) by lia.
      rewrite Z.div_add by lia. rewrite Z.div_small by lia. lia.
    - replace (b * 1000000 + w * 1000 + a)
        with (a + (b * 1000 + w) * 1000) by lia.
      rewrite Z.div_add by lia. rewrite Z.div_small by lia.
      rewrite Z.add_0_l, Z.add_comm, Z.mod_add by lia.
      apply Z.mod_small. lia.
    - replace (b * 1000000 + w * 1000 + a)
        with (a + (b * 1000 + w) * 1000) by lia.
      rewrite Z.mod_add by lia. apply Z.mod_small. lia. }
  destruct (P base_id wavelength angle Hw Ha) as (P1 & P2 & P3).
  repeat split; try assumption.
  - destruct (P b w a H H0) as (Q1 & _). rewrite H1 in Q1.
    fold id in P1. congruence.
  - destruct (P b w a H H0) as (_ & Q2 & _). rewrite H1 in Q2.
    fold id in P2. congruence.
  - destruct (P b w a H H0) as (_ & _ & Q3). rewrite H1 in Q3.
    fold id in P3. congruence.
Qed.

Lemma construct_parameter_id_parts_witness :
  _acoem_construct_parameter_id 1 635 90 / 1000000 = 1
  /\ _acoem_construct_parameter_id 1 635 90 / 1000 mod 1000 = 635
  /\ _acoem_construct_parameter_id 1 635 90 mod 1000 = 90.
Proof.
  destruct (construct_parameter_id_parts 1 635 90 ltac:(lia) ltac:(lia))
    as (H1 & H2 & H3 & _).
  repeat split; assumption.
Defined.

(** ** Further properties: packed timestamps *)

Lemma year_ok_upto_9999 (y : Z) : 8 <= y < 8000 -> year_ok y = true.
Proof.
  intros H.
  pose proof (range_forallb (fun n => year_ok (n + 8)) 7992) as E.
  replace y with (y - 8 + 8) by lia. apply E; [|lia].
  vm_compute. reflexivity.
Qed.

Lemma year_negative_ok_from_1 (y : Z) :
  -2000 < y < 0 -> year_negative_ok y = true.
Proof.
  intros H.
  pose proof (range_forallb (fun n => year_negative_ok (n - 1999)) 1999) as E.
  replace y with (y + 1999 - 1999) by lia. apply E; [|lia].
  vm_compute. reflexivity.
Qed.

(** The five fields after the year, read as binary digits. *)
Lemma fields_value (t : datetime) (acc : Z) :
  valid_datetime t = true ->
  bits_value
    (zfill 4 (str_from 2 (bin (month t)))
     ++ zfill 5 (str_from 2 (bin (day t)))
     ++ zfill 5 (str_from 2 (bin (hour t)))
     ++ zfill 6 (str_from 2 (bin (minute t)))
     ++ zfill 6 (str_from 2 (bin (second t))))%string acc
  = Some (((((acc * 16 + month t) * 32 + day t) * 32 + hour t) * 64
           + minute t) * 64 + second t).
Proof.
  intros Hv.
  destruct (valid_datetime_bounds t Hv) as (Hm & Hd & HH & HM & HS).
  rewrite (field_digits 4) by (apply field_ok_4; lia).
  rewrite (field_digits 5) by (apply field_ok_5; lia).
  rewrite (field_digits 5) by (apply field_ok_5; lia).
  rewrite (field_digits 6) by (apply field_ok_6; lia).
  rewrite <- (string_app_nil (zfill 6 (str_from 2 (bin (second t))))).
  rewrite (field_digits 6) by (apply field_ok_6; lia).
  reflexivity.
Qed.

Lemma int_base2_year_negative (y : Z) (rest : string) :
  year_negative_ok y = true ->
  int_base2 (zfill 6 (bin y) ++ rest) = Raise ValueError
  \/ int_base2 (zfill 6 (bin y) ++ rest)
     = match bits_value rest (- y) with
       | Some v => Ok (- v)
       | None => Raise ValueError
       end.
Proof.
  unfold year_negative_ok.
  destruct (zfill 6 (bin y)) as [|c [|c0 [|c1 [|c2 d]]]]; try discriminate.
  intros H.
  apply andb_prop in H. destruct H as [H Hcases].
  apply andb_prop in H. destruct H as [Hc Hc0].
  apply Ascii.eqb_eq in Hc, Hc0. subst c c0.
  apply orb_prop in Hcases. destruct Hcases as [Hgood|Hbad].
  - right.
    apply andb_prop in Hgood. destruct Hgood as [Hgood Hv].
    apply andb_prop in Hgood. destruct Hgood as [Hc1 Hc2].
    apply Ascii.eqb_eq in Hc1, Hc2. subst c1 c2.
    destruct (bits_value (String "1" d) 0) as [v|] eqn:Ev; [|discriminate].
    apply Z.eqb_eq in Hv. subst v.
    unfold int_base2. cbn [append Ascii.eqb Bool.eqb andb orb].
    change (String "1" (d ++ rest)) with (String "1" d ++ rest)%string.
    rewrite bits_value_app, Ev.
    destruct (bits_value rest (- y)); reflexivity.
  - left.
    apply andb_prop in Hbad. destruct Hbad as [Hc1 Hrest].
    apply Ascii.eqb_eq in Hc1. subst c1.
    unfold int_base2. cbn [append Ascii.eqb Bool.eqb andb orb bits_value].
    apply orb_prop in Hrest. destruct Hrest as [Hb|Hb].
    + apply Ascii.eqb_eq in Hb. subst c2. reflexivity.
    + apply andb_prop in Hb. destruct Hb as [Hc2 Hc3].
      apply Ascii.eqb_eq in Hc2. subst c2.
      destruct d as [|c3 d]; [discriminate|].
      apply Ascii.eqb_eq in Hc3. subst c3. reflexivity.
Qed.

Lemma datetime_to_timestamp_by_year (t : datetime) :
  valid_datetime t = true ->
  _acoem_datetime_to_timestamp t
  = if (2008 <=? year t) && (year t <=? 2063)
    then Ok (be32 (pack_timestamp t)) else Ok [].
Proof.
  intros Hv.
  destruct (valid_datetime_bounds t Hv) as (Hm & Hd & HH & HM & HS).
  assert (Hy : 1 <= year t <= 9999).
  { unfold valid_datetime, valid_date in Hv.
    repeat (apply andb_prop in Hv; destruct Hv as [Hv ?]). lia. }
  destruct (Z.leb_spec 2008 (year t)) as [H8|H8];
    [destruct (Z.leb_spec (year t) 2063) as [H63|H63]|]; cbn [andb].
  - apply datetime_to_timestamp_from_2008; [assumption | lia].
  - unfold _acoem_datetime_to_timestamp. cbv zeta.
    rewrite int_base2_year_ok by (apply year_ok_upto_9999; lia).
    rewrite fields_value by assumption. cbn [bind].
    rewrite int_to_bytes_raises; [reflexivity|].
    change (256 ^ Z.of_nat 4) with 4294967296. lia.
  - destruct (Z.le_gt_cases 2000 (year t)) as [H0|H0].
    + apply datetime_to_timestamp_before_2008. lia.
    + unfold _acoem_datetime_to_timestamp. cbv zeta.
      destruct (int_base2_year_negative (year t - 2000)
                  (zfill 4 (str_from 2 (bin (month t)))
                   ++ zfill 5 (str_from 2 (bin (day t)))
                   ++ zfill 5 (str_from 2 (bin (hour t)))
                   ++ zfill 6 (str_from 2 (bin (minute t)))
                   ++ zfill 6 (str_from 2 (bin (second t))))%string
                  (year_negative_ok_from_1 (year t - 2000) ltac:(lia))) as [E|E];
        rewrite E; [reflexivity|].
      rewrite fields_value by assumption. cbn [bind].
      rewrite int_to_bytes_raises; [reflexivity|]. lia.
Qed.

(** X5.  For every valid date and time, [_acoem_datetime_to_timestamp]
    returns the packed value as four big-endian bytes when the year is in
    2008..2063, and the empty byte string for every other year; it never
    raises. *)
Theorem datetime_to_timestamp_cases :
  forall t : datetime,
    valid_datetime t = true ->
    _acoem_datetime_to_timestamp t
    = if (2008 <=? year t) && (year t <=? 2063)
      then Ok (be32 (pack_timestamp t)) else Ok [].
Proof. exact datetime_to_timestamp_by_year. Qed.

Lemma datetime_to_timestamp_cases_witness :
  _acoem_datetime_to_timestamp (mk_datetime 1999 12 31 23 59 59 0) = Ok []
  /\ _acoem_datetime_to_timestamp (mk_datetime 2064 1 1 0 0 0 0) = Ok []
  /\ _acoem_datetime_to_timestamp (mk_datetime 2023 5 17 10 20 30 0)
     = Ok [93; 98; 165; 30].
Proof.
  split; [|split].
  - apply (datetime_to_timestamp_cases (mk_datetime 1999 12 31 23 59 59 0)).
    reflexivity.
  - apply (datetime_to_timestamp_cases (mk_datetime 2064 1 1 0 0 0 0)).
    reflexivity.
  - apply (datetime_to_timestamp_cases (mk_datetime 2023 5 17 10 20 30 0)).
    reflexivity.
Defined.

Lemma timestamp_roundtrip_from_2008_witness :
  decode_encode (mk_datetime 2024 2 29 23 59 59 0)
  = Ok (mk_datetime 2024 2 29 23 59 59 0).
Proof.
  apply (timestamp_roundtrip_from_2008 (mk_datetime 2024 2 29 23 59 59 0)).
  - reflexivity.
  - simpl. lia.
  - reflexivity.
Defined.

Lemma pack_fields (ts : Z) :
  pack_timestamp
    (mk_datetime (ts_year ts) (ts_month ts) (ts_day ts)
       (ts_hour ts) (ts_minute ts) (ts_second ts) 0) = ts.
Proof.
  destruct (timestamp_fields ts) as (<- & <- & <- & <- & <- & <-).
  unfold pack_timestamp. cbn [year month day hour minute second].
  pose proof (Z.div_mod ts 64 ltac:(lia)).
  pose proof (Z.div_mod (ts / 64) 64 ltac:(lia)).
  pose proof (Z.div_mod (ts / 64 / 64) 32 ltac:(lia)).
  pose proof (Z.div_mod (ts / 64 / 64 / 32) 32 ltac:(lia)).
  pose proof (Z.div_mod (ts / 64 / 64 / 32 / 32) 16 ltac:(lia)).
  lia.
Qed.

(** X7.  The other direction of the round trip: a 32-bit timestamp whose
    fields form a valid date and time from 2008 on decodes to a datetime
    that encodes back to the same four bytes. *)
Theorem timestamp_encode_decode :
  forall ts : Z,
    0 <= ts < 2 ^ 32 -> ts_valid ts = true -> 2008 <= ts_year ts ->
    exists t : datetime,
      _acoem_timestamp_to_datetime ts = Ok t
      /\ _acoem_datetime_to_timestamp t = Ok (be32 ts)
      /\ int_from_bytes (be32 ts) = ts.
Proof.
  intros ts Hts Hvalid Hy.
  exists (mk_datetime (ts_year ts) (ts_month ts) (ts_day ts)
            (ts_hour ts) (ts_minute ts) (ts_second ts) 0).
  split; [rewrite timestamp_to_datetime_cases, Hvalid; reflexivity|].
  split; [|apply int_from_be32; exact Hts].
  rewrite datetime_to_timestamp_from_2008.
  - now rewrite pack_fields.
  - exact Hvalid.
  - cbn [year]. split; [assumption|].
    unfold ts_year. rewrite Z.shiftr_div_pow2 by lia.
    assert (ts / 2 ^ 26 < 64); [|lia].
    apply Z.div_lt_upper_bound; lia.
Qed.

Lemma timestamp_encode_decode_witness :
  exists t : datetime,
    _acoem_timestamp_to_datetime 1566745886 = Ok t
    /\ _acoem_datetime_to_timestamp t = Ok (be32 1566745886)
    /\ int_from_bytes (be32 1566745886) = 1566745886.
Proof.
  apply (timestamp_encode_decode 1566745886).
  - lia.
  - reflexivity.
  - vm_compute. discriminate.
Defined.

(** X8.  [_acoem_timestamp_to_datetime] always returns a valid datetime
    without microseconds; for a non-negative input the result is the
    sentinel 1111-01-01 00:00:00 exactly when the fields are invalid, and
    otherwise it holds the fields, with a year of 2000 or later. *)
Theorem timestamp_to_datetime_total :
  forall ts : Z,
    exists t : datetime,
      _acoem_timestamp_to_datetime ts = Ok t
      /\ valid_datetime t = true
      /\ microsecond t = 0
      /\ (0 <= ts ->
          (t = sentinel_datetime <-> ts_valid ts = false)
          /\ (ts_valid ts = true ->
              2000 <= year t
              /\ t = mk_datetime (ts_year ts) (ts_month ts) (ts_day ts)
                       (ts_hour ts) (ts_minute ts) (ts_second ts) 0)).
Proof.
  intros ts. rewrite timestamp_to_datetime_cases.
  destruct (ts_valid ts) eqn:Hv.
  - eexists. split; [reflexivity|]. split; [exact Hv|].
    split; [reflexivity|]. intros Hts.
    assert (Hy : 2000 <= ts_year ts).
    { unfold ts_year. rewrite Z.shiftr_div_pow2 by lia.
      assert (0 <= ts / 2 ^ 26) by (apply Z.div_pos; lia). lia. }
    split; [split|].
    + intros E. unfold sentinel_datetime in E. injection E as E _.
      lia.
    + discriminate.
    + intros _. split; [exact Hy | reflexivity].
  - exists sentinel_datetime. split; [reflexivity|].
    split; [reflexivity|]. split; [reflexivity|]. intros _.
    split; [split; reflexivity | discriminate].
Qed.

(** ** Further properties: decoding short replies, the socket *)

Lemma slice_beyond {A : Type} (l : list A) (lo hi : Z) :
  0 <= lo -> 0 <= hi -> len l <= lo -> slice l lo hi = [].
Proof.
  intros Hlo Hhi Hlen.
  pose proof (len_slice l lo hi Hlo Hhi) as E.
  destruct (slice l lo hi) as [|x r]; [reflexivity|].
  unfold len in *. cbn [List.length] in E. lia.
Qed.

(** X9.  [_acoem_decode_response] never fails on a short reply: a reply of
    at most four bytes (such as the [b''] of a failed exchange) decodes to
    the empty list, and a word that the length field announces but the
    reply does not contain is read as 0. *)
Theorem decode_response_truncated :
  (forall response : bytes,
      len response <= 4 -> _acoem_decode_response response = [])
  /\ (forall (response : bytes) (i : Z),
        0 <= i < response_length response ->
        len response <= 6 + 4 * i ->
        nth_error (_acoem_decode_response response) (Z.to_nat i) = Some 0).
Proof.
  split.
  - intros response Hlen. apply nth_error_ext. intros k.
    rewrite decode_response_nth. unfold response_length.
    rewrite slice_beyond by lia.
    change (int_from_bytes [] / 4) with 0.
    destruct (Z.ltb_spec (Z.of_nat k) 0); [lia|].
    now destruct k.
  - intros response i Hi Hlen. rewrite decode_response_nth.
    rewrite Z2Nat.id by lia.
    destruct (Z.ltb_spec i (response_length response)); [|lia].
    rewrite slice_beyond by lia. reflexivity.
Qed.

Lemma decode_response_truncated_witness :
  _acoem_decode_response [] = []
  /\ nth_error (_acoem_decode_response [2; 5; 4; 3; 0; 8; 0; 0; 0; 7]) 1
     = Some 0.
Proof.
  split.
  - apply (proj1 decode_response_truncated []). vm_compute. discriminate.
  - apply (proj2 decode_response_truncated
             [2; 5; 4; 3; 0; 8; 0; 0; 0; 7] 1).
    + vm_compute. split; [discriminate | reflexivity].
    + vm_compute. discriminate.
Defined.

Lemma legacy_receive_bytes (s : session) (message : bytes) (sock : socket) :
  protocol s = Legacy ->
  exists b, tcpip_comm s message sock = Ok (Some b).
Proof.
  intros Hp. unfold tcpip_comm. rewrite Hp.
  destruct sock as [|cleared sock]; [exists []; reflexivity|].
  cbn [recv bind snd].
  destruct (legacy_receive [] sock) as [r|e];
    [exists (strip r) | exists []]; reflexivity.
Qed.

(** X10.  [tcpip_comm] always hands back a byte string: it never raises
    and never returns [None].  Under the "acoem" protocol the result is the
    second chunk received on the connection (the first is discarded before
    the request is sent), or [b''] when fewer than two chunks arrive;
    under an unrecognised protocol it is [b'']. *)
Theorem tcpip_comm_returns_bytes :
  forall (s : session) (message : bytes) (sock : socket),
    (exists b : bytes, tcpip_comm s message sock = Ok (Some b))
    /\ (protocol s = Acoem ->
        tcpip_comm s message sock
        = Ok (Some (match sock with
                    | _ :: data :: _ => data
                    | _ => []
                    end)))
    /\ (protocol s = Unrecognized ->
        tcpip_comm s message sock = Ok (Some [])).
Proof.
  intros s message sock.
  assert (Ha : protocol s = Acoem ->
               tcpip_comm s message sock
               = Ok (Some (match sock with
                           | _ :: data :: _ => data
                           | _ => []
                           end))).
  { intros Hp. unfold tcpip_comm. rewrite Hp.
    destruct sock as [|c [|data rest]]; reflexivity. }
  assert (Hu : protocol s = Unrecognized ->
               tcpip_comm s message sock = Ok (Some [])).
  { intros Hp. unfold tcpip_comm. rewrite Hp.
    destruct sock; reflexivity. }
  split; [|split; assumption].
  destruct (protocol s) eqn:Hp.
  - eexists. apply Ha. reflexivity.
  - now apply legacy_receive_bytes.
  - eexists. apply Hu. reflexivity.
Qed.

Lemma tcpip_comm_returns_bytes_witness :
  tcpip_comm (mk_session 5 Acoem) [2; 5; 1; 3; 0; 0; 5; 4]
    [[7]; [2; 5; 1; 3; 0; 0; 5; 4]]
  = Ok (Some [2; 5; 1; 3; 0; 0; 5; 4])
  /\ tcpip_comm (mk_session 5 Unrecognized) [] [[7]; [1]] = Ok (Some []).
Proof.
  split.
  - apply (proj1 (proj2 (tcpip_comm_returns_bytes (mk_session 5 Acoem)
                           [2; 5; 1; 3; 0; 0; 5; 4]
                           [[7]; [2; 5; 1; 3; 0; 0; 5; 4]]))).
    reflexivity.
  - apply (proj2 (proj2 (tcpip_comm_returns_bytes
                           (mk_session 5 Unrecognized) [] [[7]; [1]]))).
    reflexivity.
Defined.








(** ** Further properties: operations *)

Lemma tcpip_comm_acoem (s : session) (message : bytes) (sock : socket) :
  protocol s = Acoem ->
  tcpip_comm s message sock = Ok (Some (acoem_reply sock)).
Proof.
  intros Hp. unfold tcpip_comm. rewrite Hp.
  destruct sock as [|c [|data rest]]; reflexivity.
Qed.

Lemma getitem_decode_response_0 (response : bytes) :
  getitem (_acoem_decode_response response) 0
  = if 0 <? response_length response
    then Ok (int_from_bytes (slice response 6 10))
    else Raise IndexError.
Proof.
  unfold getitem. change (0 <? 0) with false. cbv iota.
  change (Z.to_nat 0) with 0%nat.
  rewrite decode_response_nth. change (Z.of_nat 0) with 0.
  destruct (0 <? response_length response); reflexivity.
Qed.

(** X12.  Under the binary protocol [get_current_operation] returns the
    first word of the reply as it is, whatever its value, when the length
    field of the reply announces at least 4 bytes, and 9 otherwise (also
    when no reply arrives); a reply cut off after its header gives 0. *)
Theorem current_operation_acoem :
  forall (s : session) (sock : socket),
    protocol s = Acoem -> is_byte (serial_id s) ->
    let reply := match sock with
                 | _ :: data :: _ => data
                 | _ => []
                 end in
    get_current_operation s sock
    = Ok (if 4 <=? int_from_bytes (slice reply 4 6)
          then int_from_bytes (slice reply 6 10) else 9)
    /\ (len reply = 6 -> 4 <= int_from_bytes (slice reply 4 6) ->
        get_current_operation s sock = Ok 0).
Proof.
  intros s sock Hp Hsid reply.
  assert (E : get_current_operation s sock
              = Ok (if 4 <=? int_from_bytes (slice reply 4 6)
                    then int_from_bytes (slice reply 6 10) else 9)).
  { unfold get_current_operation. rewrite Hp. cbv zeta.
    pose proof (construct_message_general s 4 4035 [] Hsid
                  ltac:(unfold is_byte; lia) ltac:(lia) ltac:(constructor))
      as H.
    cbv zeta in H. rewrite H by (vm_compute; reflexivity). cbn [bind].
    rewrite tcpip_comm_acoem by assumption.
    change (acoem_reply sock) with reply.
    cbn [bind as_bytes]. rewrite getitem_decode_response_0.
    unfold response_length.
    destruct (Z.leb_spec 4 (int_from_bytes (slice reply 4 6))) as [Hl|Hl].
    - destruct (Z.ltb_spec 0 (int_from_bytes (slice reply 4 6) / 4));
        [reflexivity|].
      assert (1 <= int_from_bytes (slice reply 4 6) / 4)
        by (apply Z.div_le_lower_bound; lia). lia.
    - destruct (Z.ltb_spec 0 (int_from_bytes (slice reply 4 6) / 4));
        [|reflexivity].
      assert (int_from_bytes (slice reply 4 6) / 4 <= 0); [|lia].
      destruct (Z.le_gt_cases 0 (int_from_bytes (slice reply 4 6))).
      + rewrite Z.div_small by lia. lia.
      + assert (int_from_bytes (slice reply 4 6) / 4 < 0)
          by (apply Z.div_lt_upper_bound; lia). lia. }
  split; [exact E|].
  intros Hlen Hfield. rewrite E.
  destruct (Z.leb_spec 4 (int_from_bytes (slice reply 4 6))); [|lia].
  rewrite slice_beyond by lia. reflexivity.
Qed.

Lemma current_operation_acoem_witness :
  get_current_operation (mk_session 5 Acoem)
    [[]; [2; 5; 4; 3; 0; 4; 0; 0; 0; 7; 1; 4]] = Ok 7
  /\ get_current_operation (mk_session 5 Acoem) [[]; [2; 5; 4; 3; 0; 4]]
     = Ok 0.
Proof.
  split.
  - apply (proj1 (current_operation_acoem (mk_session 5 Acoem)
                    [[]; [2; 5; 4; 3; 0; 4; 0; 0; 0; 7; 1; 4]] eq_refl
                    ltac:(unfold is_byte; simpl; lia))).
  - apply (proj2 (current_operation_acoem (mk_session 5 Acoem)
                    [[]; [2; 5; 4; 3; 0; 4]] eq_refl
                    ltac:(unfold is_byte; simpl; lia))).
    + reflexivity.
    + vm_compute. discriminate.
Defined.

(** X13.  [set_values] returns the empty list, whatever the instrument
    would answer, when the value is not in 0..255, the station id is not a
    byte, or the parameter id does not fit four bytes. *)
Theorem set_values_out_of_range :
  forall (s : session) (parameter_id value : Z) (sock : socket),
    ~ (is_byte value /\ is_byte (serial_id s) /\ parameter_id < 2 ^ 32) ->
    set_values s parameter_id value sock = Ok [].
Proof.
  intros s parameter_id value sock Hnot.
  unfold set_values. destruct (protocol s); try reflexivity.
  assert (Hr : raises (set_values_message s parameter_id value)).
  { unfold set_values_message.
    destruct (is_byteb value) eqn:Ev.
    - apply is_byteb_iff in Ev.
      rewrite bytes_of_ints_ok by (unfold is_byte in Ev; solve_bytes).
      cbn [bind]. apply construct_message_out_of_range.
      intros (Hs & _ & Hp & _). apply Hnot. repeat split; try apply Ev;
        try apply Hs; assumption.
    - rewrite bytes_of_ints_raises; [eexists; reflexivity|].
      intros HF. inversion HF as [|? ? _ H1]; subst.
      inversion H1 as [|? ? _ H2]; subst.
      inversion H2 as [|? ? _ H3]; subst.
      inversion H3 as [|? ? Hv _]; subst.
      apply is_byteb_iff in Hv. congruence. }
  destruct Hr as [e He]. rewrite He. reflexivity.
Qed.

Lemma set_values_out_of_range_witness :
  set_values (mk_session 5 Acoem) 4035 (-1)
    [[]; [2; 5; 5; 3; 0; 0; 1; 4]] = Ok [].
Proof.
  apply (set_values_out_of_range (mk_session 5 Acoem) 4035 (-1)).
  unfold is_byte. lia.
Defined.

(** ** Further properties: logged data *)

(** X14.  When [_acoem_decode_logged_data] returns for a command-7
    response, the list has one element more than there are records, and a
    record that is not a data record (a header record, or any type byte
    other than 0) contributes a repeat of the element before it. *)
Theorem decode_logged_data_repeats :
  forall (response : bytes) (out : list dict),
    getitem response 2 = Ok 7 ->
    _acoem_decode_logged_data response = Ok out ->
    List.length out = S (List.length (records response))
    /\ forall (i : nat) (record : bytes) (t : Z),
         nth_error (records response) i = Some record ->
         getitem record 0 = Ok t -> t <> 0 ->
         nth_error out (S i) = nth_error out i.
Proof.
  intros response out Hc H.
  destruct (decode_logged_data_shape response out H)
    as (command & outs & Hc' & -> & _ & H7).
  rewrite Hc in Hc'. injection Hc' as <-.
  destruct (H7 eq_refl) as [Hlen Hnth].
  split; [cbn [List.length]; now rewrite Hlen|].
  intros i record t Hi Ht Hne.
  destruct (Hnth i record Hi) as [_ Hh]. exact (Hh t Ht Hne).
Qed.

Lemma decode_logged_data_repeats_witness :
  nth_error
    [[]; [];
     [(KInt 1001, VFloat 1095237632); (KInt 3, VBytes []);
      (KStr "dtm", VStr "20230517102030");
      (KStr "logging_interval", VInt 60)]] 1
  = nth_error
      [[]; [];
       [(KInt 1001, VFloat 1095237632); (KInt 3, VBytes []);
        (KStr "dtm", VStr "20230517102030");
        (KStr "logging_interval", VInt 60)]] 0.
Proof.
  refine (proj2 (decode_logged_data_repeats sample_response _ eq_refl eq_refl)
            0%nat (removelast sample_header) 1 eq_refl eq_refl _).
  discriminate.
Defined.

Lemma key_eqb_refl (k : key) : key_eqb k k = true.
Proof.
  destruct k; simpl; [apply Z.eqb_refl | apply String.eqb_refl].
Qed.

Lemma dict_get_set_same (d : dict) (k : key) (v : value) :
  dict_get key_eqb (dict_set key_eqb d k v) k = Ok v.
Proof.
  induction d as [|[k' v'] d IH]; cbn [dict_set dict_get].
  - now rewrite key_eqb_refl.
  - destruct (key_eqb k' k) eqn:E; cbn [dict_get].
    + now rewrite key_eqb_refl.
    + rewrite E. exact IH.
Qed.

Lemma dict_get_set_other (d : dict) (k k' : key) (v : value) :
  key_eqb k k' = false -> (forall a, key_eqb a k = true -> key_eqb a k' = false) ->
  dict_get key_eqb (dict_set key_eqb d k v) k' = dict_get key_eqb d k'.
Proof.
  intros Hne Hsep.
  induction d as [|[a va] d IH]; cbn [dict_set dict_get].
  - now rewrite Hne.
  - destruct (key_eqb a k) eqn:E; cbn [dict_get].
    + rewrite Hne. now rewrite (Hsep a E).
    + destruct (key_eqb a k'); [reflexivity | exact IH].
Qed.

Lemma str_length_app (a b : string) :
  String.length (a ++ b) = (String.length a + String.length b)%nat.
Proof.
  induction a as [|c a IH]; [reflexivity|].
  cbn [append String.length]. now rewrite IH.
Qed.

Lemma length_dec_pad (w : nat) (n : Z) : String.length (dec_pad w n) = w.
Proof.
  revert n. induction w as [|w IH]; intros n; [reflexivity|].
  cbn [dec_pad]. rewrite str_length_app, IH. simpl. lia.
Qed.

(** X15.  Every mapping decoded from a data record has the entry 'dtm',
    the 14-digit rendering of the decoded timestamp in bytes [4:8), and the
    entry 'logging_interval', the big-endian integer in bytes [8:12). *)
Theorem logged_record_stamps :
  forall (ks : list Z) (record : bytes) (d : dict),
    logged_record ks record = Ok d ->
    exists t : datetime,
      _acoem_timestamp_to_datetime (int_from_bytes (slice record 4 8)) = Ok t
      /\ dict_get key_eqb d (KStr "dtm") = Ok (VStr (strftime_compact t))
      /\ String.length (strftime_compact t) = 14%nat
      /\ dict_get key_eqb d (KStr "logging_interval")
         = Ok (VInt (int_from_bytes (slice record 8 12))).
Proof.
  intros ks record d H. unfold logged_record, decode_data_record in H.
  cbv zeta in H.
  apply bind_Ok in H. destruct H as (d0 & _ & H).
  apply bind_Ok in H. destruct H as (t & Ht & H).
  injection H as <-. exists t. split; [exact Ht|].
  split; [|split].
  - rewrite dict_get_set_other.
    + apply dict_get_set_same.
    + reflexivity.
    + intros [n|a] Ha; cbn [key_eqb] in *; [discriminate|].
      apply String.eqb_eq in Ha. now subst a.
  - unfold strftime_compact.
    rewrite !str_length_app, !length_dec_pad. reflexivity.
  - apply dict_get_set_same.
Qed.

Lemma logged_record_stamps_witness :
  exists t : datetime,
    _acoem_timestamp_to_datetime
      (int_from_bytes (slice (removelast sample_data) 4 8)) = Ok t
    /\ dict_get key_eqb
         [(KInt 1001, VFloat 1095237632); (KInt 3, VBytes []);
          (KStr "dtm", VStr "20230517102030");
          (KStr "logging_interval", VInt 60)] (KStr "dtm")
       = Ok (VStr (strftime_compact t))
    /\ String.length (strftime_compact t) = 14%nat
    /\ dict_get key_eqb
         [(KInt 1001, VFloat 1095237632); (KInt 3, VBytes []);
          (KStr "dtm", VStr "20230517102030");
          (KStr "logging_interval", VInt 60)] (KStr "logging_interval")
       = Ok (VInt (int_from_bytes (slice (removelast sample_data) 8 12))).
Proof.
  apply (logged_record_stamps [1001; 3] (removelast sample_data)).
  reflexivity.
Defined.

Lemma range_succ (n : Z) : 0 <= n -> range (n + 1) = range n ++ [n].
Proof.
  intros H. unfold range.
  replace (Z.to_nat (n + 1)) with (S (Z.to_nat n)) by lia.
  rewrite seq_S, map_app. cbn [map Nat.add]. now rewrite Z2Nat.id by lia.
Qed.

Lemma combine_snoc {A B : Type} (l : list A) (l' : list B) (a : A) (b : B) :
  List.length l = List.length l' ->
  combine (l ++ [a]) (l' ++ [b]) = combine l l' ++ [(a, b)].
Proof.
  revert l'. induction l as [|x l IH]; intros [|y l'] H;
    try discriminate; [reflexivity|].
  cbn [app combine]. f_equal. apply IH. now injection H.
Qed.

Lemma dict_set_In {K V : Type} (eqb : K -> K -> bool)
    (d : list (K * V)) (k : K) (v : V) :
  In (k, v) (dict_set eqb d k v).
Proof.
  induction d as [|[k' v'] d IH]; cbn [dict_set]; [now left|].
  destruct (eqb k' k); [now left | right; exact IH].
Qed.

Lemma dict_set_incl {K V : Type} (eqb : K -> K -> bool)
    (d : list (K * V)) (k : K) (v : V) (e : K * V) :
  In e (dict_set eqb d k v) -> e = (k, v) \/ In e d.
Proof.
  induction d as [|[k' v'] d IH]; cbn [dict_set].
  - intros [<-|[]]. now left.
  - destruct (eqb k' k).
    + intros [<-|H]; [now left | right; now right].
    + intros [<-|H]; [right; now left|].
      destruct (IH H) as [E|E]; [now left | right; now right].
Qed.

Lemma dict_zip_incl {K V : Type} (eqb : K -> K -> bool)
    (ks : list K) (vs : list V) (e : K * V) :
  In e (dict_zip eqb ks vs) -> In e (combine ks vs).
Proof.
  unfold dict_zip.
  assert (G : forall l d, In e (fold_left
                (fun d kv => dict_set eqb d (fst kv) (snd kv)) l d) ->
              In e d \/ In e l).
  { induction l as [|[k v] l IH]; intros d H; [now left|].
    cbn [fold_left fst snd] in H. destruct (IH _ H) as [H1|H1].
    - destruct (dict_set_incl _ _ _ _ _ H1) as [->|H2];
        [right; now left | now left].
    - right; now right. }
  intros H. destruct (G _ _ H) as [[]|H1]. exact H1.
Qed.

Lemma dict_zip_snoc {K V : Type} (eqb : K -> K -> bool)
    (ks : list K) (vs : list V) (k : K) (v : V) :
  List.length ks = List.length vs ->
  dict_zip eqb (ks ++ [k]) (vs ++ [v]) = dict_set eqb (dict_zip eqb ks vs) k v.
Proof.
  intros H. unfold dict_zip. rewrite combine_snoc by assumption.
  now rewrite fold_left_app.
Qed.

(** The conversion loop stops with struct.error as soon as one slot of
    one to three bytes sits under a key above 1000. *)
Lemma convert_loop_raises (l : dict) :
  (forall e, In e l -> exists n b, e = (KInt n, VBytes b)) ->
  (exists n b, In (KInt n, VBytes b) l
               /\ 1000 < n /\ 0 < len b /\ len b <> 4) ->
  forall d : dict,
    for_each
      (fun d kv => x <- convert_field (fst kv) (snd kv) ;;
                   Ok (dict_set key_eqb d (fst kv) x))
      l d = Raise StructError.
Proof.
  induction l as [|e l IH]; intros Hform (n & b & Hin & Hn & Hb & Hb4) d.
  - destruct Hin.
  - destruct (Hform e (or_introl eq_refl)) as (n0 & b0 & ->).
    cbn [for_each fst snd convert_field].
    destruct ((n0 >? 1000) && (len b0 >? 0)) eqn:Ec.
    + unfold struct_unpack_f. destruct (Z.eqb_spec (len b0) 4) as [E4|E4].
      * cbn [bind]. apply IH.
        -- intros e He. apply Hform. now right.
        -- destruct Hin as [Hin|Hin]; [|now exists n, b].
           injection Hin as -> ->. contradiction.
      * reflexivity.
    + cbn [bind]. apply IH.
      * intros e He. apply Hform. now right.
      * destruct Hin as [Hin|Hin]; [|now exists n, b].
        injection Hin as -> ->.
        apply andb_false_iff in Ec.
        rewrite !Z.gtb_ltb in Ec. destruct Ec as [Ec|Ec];
          apply Z.ltb_ge in Ec; lia.
Qed.

(** X16.  A data record slice that is one byte short of its window, as
    the record partition makes it, cannot be decoded when as many keys are
    active as the record has fields and the last key is above 1000: its
    last value slot has three bytes and [struct.unpack] raises. *)
Theorem logged_record_short_slot :
  forall (ks : list Z) (k : Z) (record : bytes),
    int_from_bytes (slice record 12 16) = len ks + 1 ->
    len record = 16 + 4 * (len ks + 1) - 1 ->
    1000 < k ->
    len (slice record (16 + len ks * 4) (16 + (len ks + 1) * 4)) = 3
    /\ logged_record (ks ++ [k]) record = Raise StructError.
Proof.
  intros ks k record Hn Hlen Hk.
  pose proof (len_nonneg ks) as Hnn.
  assert (H3 : len (slice record (16 + len ks * 4)
                      (16 + (len ks + 1) * 4)) = 3)
    by (rewrite len_slice by lia; lia).
  split; [exact H3|].
  unfold logged_record, decode_data_record. cbv zeta.
  assert (Hv : record_values record
               = map (fun j => slice record (16 + j * 4) (16 + (j + 1) * 4))
                   (range (len ks))
                 ++ [slice record (16 + len ks * 4) (16 + (len ks + 1) * 4)]).
  { unfold record_values. rewrite Hn, range_succ by lia.
    now rewrite map_app. }
  rewrite Hv, !map_app. cbn [map].
  rewrite dict_zip_snoc
    by (rewrite !length_map, length_range; unfold len; lia).
  rewrite convert_loop_raises; [reflexivity| |].
  - intros e He. apply dict_set_incl in He. destruct He as [->|He].
    + eexists _, _. reflexivity.
    + apply dict_zip_incl in He. destruct e as [ek ev].
      apply in_combine_l in He as Hl.
      apply in_combine_r in He. apply in_map_iff in Hl, He.
      destruct Hl as (n & Hn' & _). destruct He as (b & Hb' & _).
      exists n, b. congruence.
  - exists k, (slice record (16 + len ks * 4) (16 + (len ks + 1) * 4)).
    split; [apply dict_set_In|]. lia.
Qed.

Lemma logged_record_short_slot_witness :
  logged_record ([1001] ++ [1002]) (removelast sample_data)
  = Raise StructError.
Proof.
  apply (proj2 (logged_record_short_slot [1001] 1002 (removelast sample_data)
                  eq_refl eq_refl ltac:(lia))).
Defined.

Lemma slice_clip {A : Type} (l : list A) (hi : Z) :
  len l <= hi -> slice l 0 hi = l.
Proof.
  intros H. pose proof (len_nonneg l).
  apply nth_error_ext. intros k. rewrite nth_error_slice by lia.
  destruct (Z.ltb_spec (0 + Z.of_nat k) hi); [reflexivity|].
  symmetry. apply nth_error_None. unfold len in *. lia.
Qed.

(** X17.  A header record slice that is one byte short of its window
    yields every key but the last as stored; the last key is read from
    three bytes only and comes out as its stored value divided by 256
    (rounded down). *)
Theorem header_last_key_truncated :
  forall (pre : bytes) (ks : list Z) (k : Z),
    len pre = 12 -> Forall is_word ks -> is_word k ->
    len ks + 1 < 2 ^ 32 ->
    let window := pre ++ be32 (len ks + 1) ++ words ks ++ be32 k in
    let record := slice window 0 (len window - 1) in
    len record = len window - 1
    /\ header_keys record = ks ++ [k / 256].
Proof.
  intros pre ks k Hpre Hks Hk Hn window record.
  pose proof (len_nonneg ks) as Hnn.
  set (n := len ks + 1) in *.
  set (T := [k / 16777216 mod 256; k / 65536 mod 256; k / 256 mod 256]).
  set (P := pre ++ be32 n).
  assert (HP : len P = 16)
    by (subst P; rewrite len_app, Hpre; reflexivity).
  assert (Hrec : record = P ++ words ks ++ T).
  { assert (Hw : window = (P ++ words ks ++ T) ++ [k mod 256]).
    { subst window P T. rewrite <- !app_assoc. reflexivity. }
    subst record. rewrite Hw.
    replace (len ((P ++ words ks ++ T) ++ [k mod 256]) - 1)
      with (len (P ++ words ks ++ T))
      by (rewrite (len_app (P ++ words ks ++ T));
          change (len [k mod 256]) with 1; lia).
    apply slice_prefix. }
  split.
  { rewrite Hrec. unfold window, P. rewrite !len_app.
    change (len T) with 3. change (len (be32 k)) with 4. lia. }
  assert (Hslot : forall j, 0 <= j ->
            slice record (16 + j * 4) (16 + (j + 1) * 4)
            = slice (words ks ++ T) (4 * j) (4 * j + 4)).
  { intros j Hj. rewrite Hrec.
    replace (16 + j * 4) with (len P + 4 * j) by lia.
    replace (16 + (j + 1) * 4) with (len P + (4 * j + 4)) by lia.
    apply slice_app_r; lia. }
  unfold header_keys.
  assert (Hnf : int_from_bytes (slice record 12 16) = n).
  { rewrite Hrec. subst P. rewrite <- app_assoc.
    replace 12 with (len pre + 0) by lia.
    replace 16 with (len pre + 4) by lia.
    rewrite slice_app_r by lia.
    rewrite (slice_prefix (be32 n)). apply int_from_be32.
    unfold is_word. subst n. lia. }
  rewrite Hnf. subst n. rewrite range_succ, map_app by lia.
  cbn [map]. f_equal.
  - apply nth_error_ext. intros j.
    rewrite nth_error_map, nth_error_range.
    destruct (Z.ltb_spec (Z.of_nat j) (len ks)) as [Hj|Hj].
    + destruct (nth_error ks j) as [w|] eqn:Ew;
        [|apply nth_error_None in Ew; unfold len in Hj; lia].
      cbn [option_map]. f_equal. rewrite Hslot by lia.
      rewrite (slice_words ks j w T Ew). apply int_from_be32.
      rewrite Forall_forall in Hks. apply Hks.
      eapply nth_error_In; eassumption.
    + symmetry. apply nth_error_None. unfold len in Hj. lia.
  - f_equal. rewrite Hslot by lia.
    replace (4 * len ks) with (len (words ks) + 0)
      by (rewrite len_words; lia).
    replace (len (words ks) + 0 + 4) with (len (words ks) + 4) by lia.
    rewrite slice_app_r by lia.
    rewrite slice_clip by (change (len T) with 3; lia).
    subst T. unfold int_from_bytes. cbn [fold_left].
    unfold is_word in Hk.
    replace (k / 16777216) with (k / 256 / 65536)
      by (rewrite Z.div_div by lia; reflexivity).
    replace (k / 65536) with (k / 256 / 256)
      by (rewrite Z.div_div by lia; reflexivity).
    set (q := k / 256).
    assert (Hq : 0 <= q < 16777216).
    { subst q. split; [apply Z.div_pos; lia|].
      apply Z.div_lt_upper_bound; lia. }
    pose proof (Z.div_mod q 256 ltac:(lia)).
    pose proof (Z.mod_pos_bound q 256 ltac:(lia)).
    pose proof (Z.div_mod (q / 256) 256 ltac:(lia)).
    pose proof (Z.mod_pos_bound (q / 256) 256 ltac:(lia)).
    replace (q / 65536) with (q / 256 / 256)
      by (rewrite Z.div_div by lia; reflexivity).
    assert (q / 256 / 256 < 256)
      by (apply Z.div_lt_upper_bound; [lia|];
          apply Z.div_lt_upper_bound; lia).
    assert (0 <= q / 256 / 256)
      by (apply Z.div_pos; [apply Z.div_pos; lia | lia]).
    rewrite (Z.mod_small (q / 256 / 256)) by lia. lia.
Qed.

Lemma header_last_key_truncated_witness :
  header_keys (removelast sample_header) = [1001] ++ [1002 / 256].
Proof.
  apply (proj2 (header_last_key_truncated
                  [1; 0; 0; 0; 0; 0; 0; 0; 0; 0; 0; 0] [1001] 1002
                  eq_refl
                  ltac:(constructor; [unfold is_word; lia | constructor])
                  ltac:(unfold is_word; lia) ltac:(vm_compute; reflexivity))).
Defined.

(** X18.  [get_logged_data] never raises.  Its result is either the empty
    list or a list that starts with the empty mapping; it is the empty
    list when no start is given, under any protocol but "acoem", and when
    no reply of at least three bytes arrives. *)
Theorem get_logged_data_results :
  forall (s : session) (start end_ : option datetime) (sock : socket),
    (exists out : list dict,
        get_logged_data s start end_ sock = Ok out
        /\ (out = [] \/ exists rest, out = ([] : dict) :: rest))
    /\ (start = None -> get_logged_data s start end_ sock = Ok [])
    /\ (protocol s <> Acoem -> get_logged_data s start end_ sock = Ok [])
    /\ (protocol s = Acoem -> len (acoem_reply sock) < 3 ->
        get_logged_data s start end_ sock = Ok []).
Proof.
  intros s start end_ sock.
  split; [|split; [|split]].
  - unfold get_logged_data.
    destruct (protocol s); try (exists []; split; [reflexivity | now left]).
    match goal with
    | |- exists out, try_except ?b _ = _ /\ _ => destruct b as [out|e] eqn:E
    end.
    + exists out. split; [reflexivity|]. right.
      apply bind_Ok in E. destruct E as (payload & _ & E).
      apply bind_Ok in E. destruct E as (message & _ & E).
      apply bind_Ok in E. destruct E as (r1 & _ & E).
      apply bind_Ok in E. destruct E as (r2 & _ & E).
      destruct (decode_logged_data_shape _ _ E) as (c & outs & _ & -> & _).
      now exists outs.
    + exists []. split; [reflexivity | now left].
  - intros ->. unfold get_logged_data. destruct (protocol s); reflexivity.
  - intros Hp. unfold get_logged_data.
    destruct (protocol s); [contradiction | reflexivity | reflexivity].
  - intros Hp Hlen. unfold get_logged_data. rewrite Hp.
    match goal with
    | |- try_except ?b _ = _ => destruct b as [out|e] eqn:E
    end; [|reflexivity].
    exfalso.
    apply bind_Ok in E. destruct E as (payload & _ & E).
    apply bind_Ok in E. destruct E as (message & _ & E).
    rewrite tcpip_comm_acoem in E by assumption. cbn [bind as_bytes] in E.
    unfold _acoem_decode_logged_data in E. cbv zeta in E.
    apply bind_Ok in E. destruct E as (c & Hc & _).
    unfold getitem in Hc. change (2 <? 0) with false in Hc. cbv iota in Hc.
    destruct (nth_error (acoem_reply sock) (Z.to_nat 2)) eqn:En;
      [|discriminate].
    assert (nth_error (acoem_reply sock) (Z.to_nat 2) <> None) as Hs
      by congruence.
    apply nth_error_Some in Hs. unfold len in Hlen. lia.
Qed.

Lemma get_logged_data_results_witness :
  get_logged_data (mk_session 5 Acoem) None None [] = Ok []
  /\ get_logged_data (mk_session 5 Legacy)
       (Some (mk_datetime 2023 5 17 0 0 0 0)) None [] = Ok []
  /\ get_logged_data (mk_session 5 Acoem)
       (Some (mk_datetime 2023 5 17 0 0 0 0)) None [[]; [2; 5]] = Ok [].
Proof.
  split; [|split].
  - apply (proj1 (proj2 (get_logged_data_results (mk_session 5 Acoem)
                           None None []))). reflexivity.
  - apply (proj1 (proj2 (proj2 (get_logged_data_results
             (mk_session 5 Legacy)
             (Some (mk_datetime 2023 5 17 0 0 0 0)) None [])))).
    discriminate.
  - apply (proj2 (proj2 (proj2 (get_logged_data_results
             (mk_session 5 Acoem)
             (Some (mk_datetime 2023 5 17 0 0 0 0)) None [[]; [2; 5]])))).
    + reflexivity.
    + vm_compute. reflexivity.
Defined.

Lemma poll_operation_acoem (s : session) (state : Z) (message : bytes)
    (polls : list socket) :
  protocol s = Acoem ->
  poll_operation s state message polls
  = Ok (existsb (poll_confirms state) polls).
Proof.
  intros Hp. induction polls as [|sock rest IH]; [reflexivity|].
  cbn [poll_operation existsb].
  rewrite tcpip_comm_acoem by assumption. cbn [bind as_bytes].
  unfold poll_confirms at 1.
  destruct (list_eq_dec Z.eq_dec
              (_acoem_decode_response (acoem_reply sock)) [state]);
    [reflexivity | exact IH].
Qed.

(** X19.  With a station id and a state that are bytes, under the binary
    protocol and once the set request is sent, [set_current_operation]
    returns [state] as soon as one poll reply decodes to exactly
    [[state]]; as long as no poll does, it keeps polling, however many
    polls are made. *)
Theorem set_current_operation_polls :
  forall (s : session) (state : Z) (polls : list socket),
    protocol s = Acoem -> is_byte (serial_id s) -> is_byte state ->
    set_current_operation s state true polls
    = (if existsb (poll_confirms state) polls
       then Some (Ok state) else None)
    /\ ((forall sock, In sock polls -> poll_confirms state sock = false) ->
        set_current_operation s state true polls = None)
    /\ (forall before sock after,
          polls = before ++ sock :: after ->
          poll_confirms state sock = true ->
          set_current_operation s state true polls = Some (Ok state)).
Proof.
  intros s state polls Hp Hsid Hstate.
  assert (E : set_current_operation s state true polls
              = (if existsb (poll_confirms state) polls
                 then Some (Ok state) else None)).
  { unfold set_current_operation. rewrite Hp. cbv zeta.
    rewrite bytes_of_ints_ok by (unfold is_byte in Hstate; solve_bytes).
    cbn [bind].
    pose proof (construct_message_general s 5 4035 [0; 0; 0; state] Hsid
                  ltac:(unfold is_byte; lia) ltac:(lia)
                  ltac:(unfold is_byte in Hstate; solve_bytes)) as H5.
    cbv zeta in H5. rewrite H5 by (vm_compute; reflexivity). cbn [bind].
    pose proof (construct_message_general s 4 4035 [] Hsid
                  ltac:(unfold is_byte; lia) ltac:(lia) ltac:(constructor))
      as H4.
    cbv zeta in H4. rewrite H4 by (vm_compute; reflexivity). cbn [bind].
    rewrite poll_operation_acoem by assumption.
    destruct (existsb (poll_confirms state) polls); reflexivity. }
  split; [exact E|]. split.
  - intros Hall. rewrite E.
    destruct (existsb (poll_confirms state) polls) eqn:Ex; [|reflexivity].
    apply existsb_exists in Ex. destruct Ex as (sock & Hin & Hc).
    rewrite (Hall sock Hin) in Hc. discriminate.
  - intros before sock after -> Hc. rewrite E.
    replace (existsb (poll_confirms state) (before ++ sock :: after))
      with true; [reflexivity|].
    symmetry. apply existsb_exists. exists sock.
    split; [apply in_elt | exact Hc].
Qed.

Lemma set_current_operation_polls_witness :
  set_current_operation (mk_session 5 Acoem) 1 true
    ([[[]; [2; 5; 4; 3; 0; 4; 0; 0; 0; 0; 1; 4]]]
     ++ [[]; [2; 5; 4; 3; 0; 4; 0; 0; 0; 1; 0; 4]] :: [])
  = Some (Ok 1)
  /\ set_current_operation (mk_session 5 Acoem) 1 true
       [[[]; [2; 5; 4; 3; 0; 4; 0; 0; 0; 0; 1; 4]]; []] = None.
Proof.
  split.
  - apply (proj2 (proj2 (set_current_operation_polls (mk_session 5 Acoem) 1
             ([[[]; [2; 5; 4; 3; 0; 4; 0; 0; 0; 0; 1; 4]]]
              ++ [[]; [2; 5; 4; 3; 0; 4; 0; 0; 0; 1; 0; 4]] :: [])
             eq_refl ltac:(unfold is_byte; simpl; lia)
             ltac:(unfold is_byte; lia)))
           [[[]; [2; 5; 4; 3; 0; 4; 0; 0; 0; 0; 1; 4]]]
           [[]; [2; 5; 4; 3; 0; 4; 0; 0; 0; 1; 0; 4]] [] eq_refl eq_refl).
  - apply (proj1 (proj2 (set_current_operation_polls (mk_session 5 Acoem) 1
             [[[]; [2; 5; 4; 3; 0; 4; 0; 0; 0; 0; 1; 4]]; []]
             eq_refl ltac:(unfold is_byte; simpl; lia)
             ltac:(unfold is_byte; lia)))).
    intros sock [<-|[<-|[]]]; reflexivity.
Defined.

(** X20.  [set_current_operation] returns 9 without polling when the
    protocol is not "acoem", when the state or the station id is not a
    byte, or when the connection for the set request cannot be made. *)
Theorem set_current_operation_errors :
  forall (s : session) (state : Z) (connects : bool) (polls : list socket),
    protocol s <> Acoem \/ ~ is_byte state \/ ~ is_byte (serial_id s)
    \/ connects = false ->
    set_current_operation s state connects polls = Some (Ok 9).
Proof.
  intros s state connects polls H.
  unfold set_current_operation. cbv zeta.
  destruct (protocol s) eqn:Hp; try reflexivity.
  destruct H as [H|[H|[H|H]]]; [congruence| | |].
  - rewrite bytes_of_ints_raises; [reflexivity|].
    intros HF. inversion HF as [|? ? _ H1]; subst.
    inversion H1 as [|? ? _ H2]; subst.
    inversion H2 as [|? ? _ H3]; subst.
    inversion H3 as [|? ? Hv _]; subst. contradiction.
  - destruct (bytes_of_ints [0; 0; 0; state]) as [payload|e];
      [|reflexivity].
    cbn [bind].
    destruct (construct_message_out_of_range s 5 4035 payload) as [e He].
    + intros (Hs & _). contradiction.
    + rewrite He. reflexivity.
  - subst connects.
    destruct (bytes_of_ints [0; 0; 0; state]) as [payload|e];
      [|reflexivity].
    cbn [bind].
    destruct (_acoem_construct_message s 5 4035 payload); reflexivity.
Qed.

Lemma set_current_operation_errors_witness :
  set_current_operation (mk_session 5 Acoem) 256 true
    [[[]; [2; 5; 4; 3; 0; 4; 0; 0; 1; 0; 0; 4]]] = Some (Ok 9).
Proof.
  apply (set_current_operation_errors (mk_session 5 Acoem) 256 true).
  right. left. unfold is_byte. lia.
Defined.

(** ** Further properties: parameter values and identification *)

Section DictZ.

Context {V : Type}.

Lemma dictZ_get_set_same (d : list (Z * V)) (k : Z) (v : V) :
  dict_get Z.eqb (dict_set Z.eqb d k v) k = Ok v.
Proof.
  induction d as [|[k' v'] d IH]; cbn [dict_set dict_get].
  - now rewrite Z.eqb_refl.
  - destruct (Z.eqb_spec k' k) as [->|Hne]; cbn [dict_get].
    + now rewrite Z.eqb_refl.
    + destruct (Z.eqb_spec k' k); [contradiction | exact IH].
Qed.

Lemma dictZ_get_set_other (d : list (Z * V)) (k k' : Z) (v : V) :
  k <> k' ->
  dict_get Z.eqb (dict_set Z.eqb d k v) k' = dict_get Z.eqb d k'.
Proof.
  intros Hne. induction d as [|[a va] d IH]; cbn [dict_set dict_get].
  - destruct (Z.eqb_spec k k'); [contradiction | reflexivity].
  - destruct (Z.eqb_spec a k) as [->|Ha]; cbn [dict_get].
    + destruct (Z.eqb_spec k k'); [contradiction | reflexivity].
    + destruct (Z.eqb_spec a k'); [reflexivity | exact IH].
Qed.

Lemma dictZ_fold_other (l : list (Z * V)) (d : list (Z * V)) (k : Z) :
  (forall e, In e l -> fst e <> k) ->
  dict_get Z.eqb
    (fold_left (fun d kv => dict_set Z.eqb d (fst kv) (snd kv)) l d) k
  = dict_get Z.eqb d k.
Proof.
  revert d. induction l as [|[a b] l IH]; intros d H; [reflexivity|].
  cbn [fold_left fst snd]. rewrite IH by (intros e He; apply H; now right).
  apply dictZ_get_set_other. apply (H (a, b)). now left.
Qed.

(** Looking up the key at position [i] of distinct keys gives the value
    at position [i]. *)
Lemma dictZ_get_zip (ks : list Z) (vs : list V) (i : nat) (k : Z) (v : V) :
  NoDup ks -> nth_error ks i = Some k -> nth_error vs i = Some v ->
  dict_get Z.eqb (dict_zip Z.eqb ks vs) k = Ok v.
Proof.
  unfold dict_zip. generalize (@nil (Z * V)) as d.
  revert vs i. induction ks as [|k0 ks IH]; intros vs i d Hnd Hk Hv;
    [destruct i; discriminate|].
  destruct vs as [|v0 vs]; [destruct i; discriminate|].
  inversion Hnd as [|? ? Hnotin Hnd']; subst.
  cbn [combine fold_left fst snd].
  destruct i as [|i]; cbn [nth_error] in Hk, Hv.
  - injection Hk as ->. injection Hv as ->.
    rewrite dictZ_fold_other; [apply dictZ_get_set_same|].
    intros [a b] He. apply in_combine_l in He. cbn [fst].
    intros ->. contradiction.
  - now apply (IH vs i).
Qed.

(** A key beyond the values supplied is absent. *)
Lemma dictZ_get_zip_missing (ks : list Z) (vs : list V) (k : Z) :
  ~ In k (firstn (List.length vs) ks) ->
  dict_get Z.eqb (dict_zip Z.eqb ks vs) k = Raise KeyError.
Proof.
  intros H. unfold dict_zip. rewrite dictZ_fold_other; [reflexivity|].
  intros [a b] He. cbn [fst]. intros ->. apply H.
  clear H. revert vs He. induction ks as [|k0 ks IH]; intros vs He;
    [destruct He|].
  destruct vs as [|v0 vs]; [destruct He|].
  cbn [combine] in He. cbn [List.length firstn].
  destruct He as [He|He]; [injection He as -> _; now left|].
  right. now apply IH.
Qed.

End DictZ.

Lemma words_loop (ps : list Z) :
  forall acc : bytes,
    Forall is_word ps ->
    for_each (fun msg_data p => b <- int_to_bytes p 4 ;; Ok (msg_data ++ b))
      ps acc
    = Ok (acc ++ words ps).
Proof.
  induction ps as [|p ps IH]; intros acc H.
  - cbn. now rewrite app_nil_r.
  - inversion H as [|? ? Hp Hps]; subst. cbn [for_each].
    rewrite int_to_bytes_ok by exact Hp. cbn [bind].
    rewrite IH by assumption. rewrite be_digits_4, <- app_assoc.
    reflexivity.
Qed.

Lemma words_loop_raises (ps : list Z) :
  forall acc : bytes,
    ~ Forall is_word ps ->
    raises
      (for_each (fun msg_data p => b <- int_to_bytes p 4 ;; Ok (msg_data ++ b))
         ps acc).
Proof.
  induction ps as [|p ps IH]; intros acc H.
  - exfalso. apply H. constructor.
  - cbn [for_each].
    destruct (Z_le_dec 0 p) as [H0|H0];
      [destruct (Z_lt_dec p (2 ^ 32)) as [H1|H1]|].
    + rewrite int_to_bytes_ok by (split; assumption). cbn [bind].
      apply IH. intros HF. apply H. constructor; [split|]; assumption.
    + rewrite int_to_bytes_raises
        by (change (256 ^ Z.of_nat 4) with (2 ^ 32); lia).
      eexists; reflexivity.
    + rewrite int_to_bytes_raises by lia. eexists; reflexivity.
Qed.

(** X21.  Under the binary protocol [get_values] sends one command-4
    frame holding the requested ids as big-endian words, the same frame
    [_acoem_construct_message] builds for a single positive id, and one
    that decodes back to the ids.  When the ids are distinct and the
    reply holds a word for each, every id is mapped to the word at its
    position; an id for which the reply holds no word is absent from the
    result. *)
Theorem get_values_acoem :
  forall (s : session) (ps : list Z) (net : network),
    protocol s = Acoem -> is_byte (serial_id s) ->
    Forall is_word ps -> 4 * len ps < 65536 ->
    let msg := [2; serial_id s; 4; 3] ++ be16 (4 * len ps) ++ words ps in
    let items := _acoem_decode_response (acoem_reply (fst (connect net))) in
    get_values_message s ps = Ok (msg ++ [xor_all msg] ++ [4])
    /\ _acoem_decode_response (msg ++ [xor_all msg] ++ [4]) = ps
    /\ (forall p, ps = [p] -> 0 < p ->
        get_values_message s ps = _acoem_construct_message s 4 p [])
    /\ (exists d,
          get_values s ps net = Ok d
          /\ (NoDup ps ->
              forall (i : nat) (p w : Z),
                nth_error ps i = Some p -> nth_error items i = Some w ->
                dict_get Z.eqb d p = Ok (RInt w))
          /\ (forall p, ~ In p (firstn (List.length items) ps) ->
              dict_get Z.eqb d p = Raise KeyError)).
Proof.
  intros s ps net Hp Hsid Hps Hsize msg items.
  assert (Hmsg : get_values_message s ps = Ok (msg ++ [xor_all msg] ++ [4])).
  { unfold get_values_message. cbv zeta.
    rewrite words_loop by assumption. cbn [bind app].
    rewrite len_words.
    pose proof (frame_of_msg_data s 4 (words ps) Hsid
                  ltac:(unfold is_byte; lia) (words_bytes ps)) as H.
    rewrite len_words in H. apply H. lia. }
  split; [exact Hmsg|]. split; [|split].
  - apply (decode_frame_words [2; serial_id s; 4; 3] ps (xor_all msg)
             eq_refl Hps Hsize).
  - intros p -> Hpos. rewrite Hmsg.
    pose proof (construct_message_general s 4 p [] Hsid
                  ltac:(unfold is_byte; lia)) as H.
    inversion Hps as [|? ? Hw _]; subst. cbv zeta in H.
    rewrite H; [|apply Hw|constructor|].
    + destruct (Z.gtb_spec p 0); [|lia]. subst msg.
      unfold words. cbn [flat_map]. rewrite !app_nil_r. reflexivity.
    + destruct (p >? 0); vm_compute; reflexivity.
  - exists (dict_zip Z.eqb ps (map RInt items)).
    split; [|split].
    + unfold get_values. rewrite Hp, Hmsg. cbn [bind].
      rewrite tcpip_comm_acoem by assumption. reflexivity.
    + intros Hnd i p w Hi Hw. apply (dictZ_get_zip ps _ i); try assumption.
      rewrite nth_error_map, Hw. reflexivity.
    + intros p Hin. apply dictZ_get_zip_missing.
      now rewrite length_map.
Qed.

Lemma get_values_acoem_witness :
  exists d,
    get_values (mk_session 5 Acoem) [4035; 1]
      [[[]; [2; 5; 4; 3; 0; 4; 0; 0; 0; 7; 1; 4]]] = Ok d
    /\ dict_get Z.eqb d 4035 = Ok (RInt 7)
    /\ dict_get Z.eqb d 1 = Raise KeyError.
Proof.
  destruct (get_values_acoem (mk_session 5 Acoem) [4035; 1]
              [[[]; [2; 5; 4; 3; 0; 4; 0; 0; 0; 7; 1; 4]]] eq_refl
              ltac:(unfold is_byte; simpl; lia)
              ltac:(repeat constructor; unfold is_word; lia)
              ltac:(vm_compute; reflexivity))
    as (_ & _ & _ & d & Hd & Hget & Hmiss).
  exists d. split; [exact Hd|]. split.
  - apply (Hget ltac:(repeat constructor; simpl; intuition lia)
             0%nat 4035 7 eq_refl eq_refl).
  - apply Hmiss. simpl. intuition lia.
Defined.

(** X22.  Under the binary protocol a requested id that is negative or
    does not fit four bytes makes [get_values] return the empty mapping
    for the whole request. *)
Theorem get_values_acoem_bad_id :
  forall (s : session) (ps : list Z) (net : network),
    protocol s = Acoem -> ~ Forall is_word ps ->
    get_values s ps net = Ok [].
Proof.
  intros s ps net Hp Hbad. unfold get_values. rewrite Hp.
  unfold get_values_message. cbv zeta.
  destruct (words_loop_raises ps [] Hbad) as [e He]. rewrite He.
  reflexivity.
Qed.

Lemma get_values_acoem_bad_id_witness :
  get_values (mk_session 5 Acoem) [4035; -1]
    [[[]; [2; 5; 4; 3; 0; 4; 0; 0; 0; 7; 1; 4]]] = Ok [].
Proof.
  apply (get_values_acoem_bad_id (mk_session 5 Acoem) [4035; -1]).
  - reflexivity.
  - intros H. inversion H as [|? ? _ H1]; subst.
    inversion H1 as [|? ? Hw _]; subst. unfold is_word in Hw. lia.
Defined.





(** X24.  Under the legacy protocol [get_id] returns the mapping
    {'id': reply} whenever the reply is valid UTF-8, and the empty mapping
    only when it is not; after a failed exchange it returns {'id': ''},
    which is not the empty mapping. *)
Theorem get_id_legacy :
  forall (s : session),
    protocol s = Legacy ->
    (forall (net : network) (b : bytes),
        tcpip_comm s (id_message s) (fst (connect net)) = Ok (Some b) ->
        get_id s net
        = match utf8_decode b with
          | Ok text => Ok [("id"%string, RStr text)]
          | Raise _ => Ok []
          end)
    /\ get_id s [] = Ok [("id"%string, RStr [])]
    /\ get_id s [] <> Ok [].
Proof.
  intros s Hp.
  assert (G : forall (net : network) (b : bytes),
            tcpip_comm s (id_message s) (fst (connect net)) = Ok (Some b) ->
            get_id s net
            = match utf8_decode b with
              | Ok text => Ok [("id"%string, RStr text)]
              | Raise _ => Ok []
              end).
  { intros net b Hcomm. unfold get_id. rewrite Hp.
    unfold comm_decode. cbv zeta. rewrite Hcomm. cbn [bind as_bytes].
    destruct (utf8_decode b); reflexivity. }
  assert (E : get_id s [] = Ok [("id"%string, RStr [])]).
  { apply (G [] []). unfold tcpip_comm. rewrite Hp. reflexivity. }
  split; [exact G|]. split; [exact E|]. rewrite E. discriminate.
Qed.

Lemma get_id_legacy_witness :
  get_id (mk_session 5 Legacy) [[[]; [78; 69; 13; 10]]]
  = Ok [("id"%string, RStr [78; 69])].
Proof.
  apply (proj1 (get_id_legacy (mk_session 5 Legacy) eq_refl)
           [[[]; [78; 69; 13; 10]]] [78; 69]).
  reflexivity.
Defined.

Lemma get_instr_type_acoem (s : session) (sock : socket) :
  protocol s = Acoem -> is_byte (serial_id s) ->
  get_instr_type s sock = Ok (_acoem_decode_response (acoem_reply sock))
  /\ get_version s sock = Ok (_acoem_decode_response (acoem_reply sock)).
Proof.
  intros Hp Hsid.
  pose proof (construct_message_general s 1 0 [] Hsid
                ltac:(unfold is_byte; lia) ltac:(lia) ltac:(constructor)) as H.
  cbv zeta in H. specialize (H ltac:(vm_compute; reflexivity)).
  unfold get_instr_type, get_version. rewrite Hp, H. cbn [bind].
  rewrite tcpip_comm_acoem by assumption. split; reflexivity.
Qed.

Lemma dict_zip_nil_iff {V : Type} (vs : list V) :
  dict_zip String.eqb id_names vs = [] <-> vs = [].
Proof.
  split; [|intros ->; reflexivity].
  destruct vs as [|v vs]; [reflexivity|]. intros H. exfalso.
  unfold dict_zip, id_names in H. cbn [combine fold_left fst snd dict_set] in H.
  assert (G : forall l (d : list (string * V)),
            d <> [] ->
            fold_left (fun d kv => dict_set String.eqb d (fst kv) (snd kv)) l d
            <> []).
  { induction l as [|[a b] l IH]; intros d Hd; [exact Hd|].
    cbn [fold_left fst snd]. apply IH.
    destruct d as [|[k' v'] d]; [contradiction|].
    cbn [dict_set]. destruct (String.eqb k' a); discriminate. }
  revert H. apply G. discriminate.
Qed.

(** X25.  Under the binary protocol [get_id] labels the words of the two
    replies, in order, Model, Variant, Sub-Type, Range, Build, Branch.  It
    returns the empty mapping exactly when neither reply holds a word.
    Both queries send command 1: when the instrument gives the same
    four-word reply to both, Build and Branch repeat Model and Variant. *)
Theorem get_id_acoem :
  forall (s : session) (net : network),
    protocol s = Acoem -> is_byte (serial_id s) ->
    let first := _acoem_decode_response (acoem_reply (fst (connect net))) in
    let second :=
      _acoem_decode_response
        (acoem_reply (fst (connect (snd (connect net))))) in
    get_id s net
    = Ok (dict_zip String.eqb id_names (map RInt (first ++ second)))
    /\ (get_id s net = Ok [] <-> first = [] /\ second = [])
    /\ (forall a b c d,
          first = [a; b; c; d] -> second = first ->
          get_id s net
          = Ok [("Model", RInt a); ("Variant", RInt b);
                ("Sub-Type", RInt c); ("Range", RInt d);
                ("Build", RInt a); ("Branch", RInt b)]%string).
Proof.
  intros s net Hp Hsid first second.
  assert (E : get_id s net
              = Ok (dict_zip String.eqb id_names
                      (map RInt (first ++ second)))).
  { unfold get_id. rewrite Hp. cbv zeta.
    rewrite (proj1 (get_instr_type_acoem s _ Hp Hsid)). cbn [bind].
    rewrite (proj2 (get_instr_type_acoem s _ Hp Hsid)). reflexivity. }
  split; [exact E|]. split.
  - rewrite E. split.
    + intros H. injection H as H.
      apply (proj1 (dict_zip_nil_iff _)) in H.
      apply map_eq_nil in H. now apply app_eq_nil in H.
    + intros [-> ->]. reflexivity.
  - intros a b c d H1 H2. rewrite E, H2, H1. reflexivity.
Qed.

Lemma get_id_acoem_witness :
  get_id (mk_session 5 Acoem)
    [[[]; [2; 5; 1; 3; 0; 16; 0; 0; 0; 1; 0; 0; 0; 2; 0; 0; 0; 3;
           0; 0; 0; 4; 0; 4]];
     [[]; [2; 5; 1; 3; 0; 16; 0; 0; 0; 1; 0; 0; 0; 2; 0; 0; 0; 3;
           0; 0; 0; 4; 0; 4]]]
  = Ok [("Model", RInt 1); ("Variant", RInt 2); ("Sub-Type", RInt 3);
        ("Range", RInt 4); ("Build", RInt 1); ("Branch", RInt 2)]%string.
Proof.
  apply (proj2 (proj2 (get_id_acoem (mk_session 5 Acoem) _ eq_refl
                         ltac:(unfold is_byte; simpl; lia)))
           1 2 3 4); reflexivity.
Defined.

(** ** Further properties: date and time of the instrument, data lines *)

(** X26.  Under the binary protocol [get_datetime] returns the decoded
    first word of the reply when the length field announces at least 4
    bytes, and 1111-01-01 00:00:00 otherwise (also when no reply arrives);
    the result is always a valid datetime. *)
Theorem get_datetime_acoem :
  forall (strptime : ustr -> ustr -> result datetime)
         (s : session) (net : network),
    protocol s = Acoem -> is_byte (serial_id s) ->
    let reply := acoem_reply (fst (connect net)) in
    exists t : datetime,
      get_datetime strptime s net = Ok t
      /\ valid_datetime t = true
      /\ (int_from_bytes (slice reply 4 6) < 4 ->
          t = mk_datetime 1111 1 1 0 0 0 0)
      /\ (4 <= int_from_bytes (slice reply 4 6) ->
          _acoem_timestamp_to_datetime (int_from_bytes (slice reply 6 10))
          = Ok t).
Proof.
  intros strptime s net Hp Hsid reply.
  pose proof (construct_message_general s 4 1 [] Hsid
                ltac:(unfold is_byte; lia) ltac:(lia) ltac:(constructor)) as H.
  cbv zeta in H. specialize (H ltac:(vm_compute; reflexivity)).
  unfold get_datetime. cbv zeta. rewrite Hp, H. cbn [bind].
  rewrite tcpip_comm_acoem by assumption. cbn [bind as_bytes].
  change (acoem_reply (fst (connect net))) with reply.
  rewrite getitem_decode_response_0. unfold response_length.
  destruct (Z.ltb_spec 0 (int_from_bytes (slice reply 4 6) / 4)) as [Hl|Hl].
  - cbn [bind]. rewrite timestamp_to_datetime_cases.
    assert (Hno : int_from_bytes (slice reply 4 6) < 4 -> False).
    { intros Hlt.
      destruct (Z.le_gt_cases 0 (int_from_bytes (slice reply 4 6))).
      - rewrite Z.div_small in Hl by lia. lia.
      - assert (int_from_bytes (slice reply 4 6) / 4 < 0)
          by (apply Z.div_lt_upper_bound; lia). lia. }
    destruct (ts_valid (int_from_bytes (slice reply 6 10))) eqn:Hv.
    + eexists. split; [reflexivity|]. split; [exact Hv|].
      split; [intros Hlt; destruct (Hno Hlt) | intros _; reflexivity].
    + exists sentinel_datetime. split; [reflexivity|].
      split; [reflexivity|].
      split; [intros Hlt; destruct (Hno Hlt) | intros _; reflexivity].
  - exists (mk_datetime 1111 1 1 0 0 0 0). split; [reflexivity|].
    split; [reflexivity|]. split; [reflexivity|].
    intros Hge. exfalso.
    assert (1 <= int_from_bytes (slice reply 4 6) / 4)
      by (apply Z.div_le_lower_bound; lia). lia.
Qed.

Lemma get_datetime_acoem_witness :
  exists t : datetime,
    get_datetime (fun _ _ => Raise ValueError) (mk_session 5 Acoem)
      [[[]; [2; 5; 4; 3; 0; 4; 93; 98; 165; 30; 0; 4]]] = Ok t
    /\ valid_datetime t = true
    /\ _acoem_timestamp_to_datetime 1566745886 = Ok t.
Proof.
  destruct (get_datetime_acoem (fun _ _ => Raise ValueError)
              (mk_session 5 Acoem)
              [[[]; [2; 5; 4; 3; 0; 4; 93; 98; 165; 30; 0; 4]]] eq_refl
              ltac:(unfold is_byte; simpl; lia))
    as (t & Ht & Hv & _ & Hdec).
  exists t. split; [exact Ht|]. split; [exact Hv|].
  apply Hdec. vm_compute. discriminate.
Defined.

(** X27.  Under the legacy protocol [get_datetime] never raises, whatever
    [strptime] does: its result is 1111-01-01 00:00:00 (a reply that is
    not valid UTF-8), 1111-01-01 01:01:01 (format not recognised, or
    [strptime] failed), or a value returned by [strptime].  When all three
    exchanges fail it is 1111-01-01 01:01:01, not the 1111-01-01 00:00:00
    of the binary protocol. *)
Theorem get_datetime_legacy :
  forall (strptime : ustr -> ustr -> result datetime) (s : session),
    protocol s = Legacy ->
    (forall net : network,
        exists t : datetime,
          get_datetime strptime s net = Ok t
          /\ (t = mk_datetime 1111 1 1 0 0 0 0
              \/ t = mk_datetime 1111 1 1 1 1 1 0
              \/ exists date_string format, strptime date_string format = Ok t))
    /\ get_datetime strptime s [] = Ok (mk_datetime 1111 1 1 1 1 1 0).
Proof.
  intros strptime s Hp. split.
  - intros net. unfold get_datetime. cbv zeta. rewrite Hp.
    destruct (comm_decode s (vi_message s "64") net) as [fmt|e];
      [|eexists; split; [reflexivity | now left]].
    cbn [bind].
    destruct (comm_decode s (vi_message s "80") (snd fmt)) as [dte|e];
      [|eexists; split; [reflexivity | now left]].
    cbn [bind].
    destruct (comm_decode s (vi_message s "81") (snd dte)) as [tme|e];
      [|eexists; split; [reflexivity | now left]].
    cbn [bind]. unfold __legacy_timestamp_to_datetime. cbv zeta.
    match goal with
    | |- context [bind ?c _] => destruct c as [f|e]
    end; [|eexists; split; [reflexivity | right; now left]].
    cbn [bind].
    match goal with
    | |- context [strptime ?a ?b] => destruct (strptime a b) as [t|e] eqn:E
    end.
    + exists t. split; [reflexivity|]. right. right. eauto.
    + eexists; split; [reflexivity | right; now left].
  - unfold get_datetime. cbv zeta. rewrite Hp.
    unfold comm_decode, tcpip_comm. rewrite Hp. reflexivity.
Qed.

Lemma get_datetime_legacy_witness :
  get_datetime (fun _ _ => Ok (mk_datetime 2023 5 17 10 20 30 0))
    (mk_session 5 Legacy) [] = Ok (mk_datetime 1111 1 1 1 1 1 0).
Proof.
  apply (proj2 (get_datetime_legacy
                  (fun _ _ => Ok (mk_datetime 2023 5 17 10 20 30 0))
                  (mk_session 5 Legacy) eq_refl)).
Defined.

(** X28.  The frame [set_datetime] sends for a valid date and time is a
    command-5 frame for parameter 1 whose message data is the parameter id
    followed by the packed timestamp when the year is in 2008..2063; for
    every other year it carries the parameter id alone, with no value. *)
Theorem set_datetime_frame :
  forall (s : session) (dtm : datetime),
    is_byte (serial_id s) -> valid_datetime dtm = true ->
    let data :=
      be32 1 ++ (if (2008 <=? year dtm) && (year dtm <=? 2063)
                 then be32 (pack_timestamp dtm) else []) in
    let msg := [2; serial_id s; 5; 3] ++ be16 (len data) ++ data in
    set_datetime_message s dtm = Ok (msg ++ [xor_all msg] ++ [4])
    /\ (~ 2008 <= year dtm <= 2063 ->
        set_datetime_message s dtm = _acoem_construct_message s 5 1 []).
Proof.
  intros s dtm Hsid Hv data msg.
  assert (E : set_datetime_message s dtm
              = _acoem_construct_message s 5 1
                  (if (2008 <=? year dtm) && (year dtm <=? 2063)
                   then be32 (pack_timestamp dtm) else [])).
  { unfold set_datetime_message.
    rewrite datetime_to_timestamp_by_year by assumption.
    destruct ((2008 <=? year dtm) && (year dtm <=? 2063)); reflexivity. }
  split.
  - rewrite E.
    pose proof (construct_message_general s 5 1
                  (if (2008 <=? year dtm) && (year dtm <=? 2063)
                   then be32 (pack_timestamp dtm) else []) Hsid
                  ltac:(unfold is_byte; lia) ltac:(lia)) as H.
    cbv zeta in H. apply H.
    + destruct ((2008 <=? year dtm) && (year dtm <=? 2063));
        [rewrite <- be_digits_4; apply be_digits_bytes | constructor].
    + destruct ((2008 <=? year dtm) && (year dtm <=? 2063));
        vm_compute; reflexivity.
  - intros Hy. rewrite E.
    replace ((2008 <=? year dtm) && (year dtm <=? 2063)) with false;
      [reflexivity|].
    destruct (Z.leb_spec 2008 (year dtm));
      destruct (Z.leb_spec (year dtm) 2063); try reflexivity. lia.
Qed.

Lemma set_datetime_frame_witness :
  set_datetime_message (mk_session 5 Acoem) (mk_datetime 2005 6 15 12 30 45 0)
  = _acoem_construct_message (mk_session 5 Acoem) 5 1 [].
Proof.
  apply (proj2 (set_datetime_frame (mk_session 5 Acoem)
                  (mk_datetime 2005 6 15 12 30 45 0)
                  ltac:(unfold is_byte; simpl; lia) eq_refl)).
  simpl. lia.
Defined.

Lemma replace_char (c : Z) (new s : ustr) :
  str_replace [c] new s
  = flat_map (fun x => if c =? x then new else [x]) s.
Proof.
  unfold str_replace. induction s as [|x s IH]; [reflexivity|].
  cbn [replace_from starts_with flat_map List.length Nat.sub].
  rewrite andb_true_r. destruct (c =? x).
  - now rewrite IH.
  - cbn [app]. now rewrite IH.
Qed.

(** X29.  The line returned by [get_current_data] or [get_new_data]
    contains no comma when the separator contains none; with the comma as
    separator the second replacement changes nothing. *)
Theorem data_line_separator :
  forall (s : session) (sep : ustr) (net : network) (out : ustr),
    get_current_data s sep net = Ok out \/ get_new_data s sep net = Ok out ->
    (~ In 44 sep -> ~ In 44 out)
    /\ (forall text : ustr, str_replace [44] [44] text = text).
Proof.
  intros s sep net out H. split.
  - intros Hsep.
    assert (G : forall text,
              ~ In 44 (str_replace (ustr_of_string ",") sep text)).
    { intros text. change (ustr_of_string ",") with [44].
      rewrite replace_char. intros Hin. apply in_flat_map in Hin.
      destruct Hin as (x & _ & Hx).
      destruct (Z.eqb_spec 44 x) as [E|Hne]; [exact (Hsep Hx)|].
      destruct Hx as [E|[]]. congruence. }
    destruct H as [H|H];
      [unfold get_current_data in H | unfold get_new_data in H];
      destruct (protocol s); cbn [try_except] in H;
      try (injection H as <-; intros []).
    + destruct (comm_decode s (vi_message s "99") net) as [tn|e];
        cbn [bind try_except] in H; injection H as <-;
        [apply G | intros []].
    + destruct (comm_decode s (bytes_of_string "***D" ++ [13]) net)
        as [tn|e]; cbn [bind try_except] in H; injection H as <-;
        [apply G | intros []].
  - intros text. rewrite replace_char.
    induction text as [|x text IH]; [reflexivity|].
    cbn [flat_map]. rewrite IH.
    destruct (Z.eqb_spec 44 x) as [<-|]; reflexivity.
Qed.

Lemma data_line_separator_witness :
  ~ In 44 [49; 59; 50; 59; 51].
Proof.
  apply (proj1 (data_line_separator (mk_session 5 Legacy) [59]
                  [[[]; [49; 44; 32; 50; 44; 51; 13; 10]]]
                  [49; 59; 50; 59; 51] (or_introl eq_refl))).
  simpl. intuition lia.
Defined.

Lemma timestamp_to_datetime_total_witness :
  exists t : datetime,
    _acoem_timestamp_to_datetime 1566745886 = Ok t
    /\ 2000 <= year t
    /\ t = mk_datetime 2023 5 17 10 20 30 0.
Proof.
  destruct (timestamp_to_datetime_total 1566745886) as (t & Ht & _ & _ & H).
  destruct (H ltac:(lia)) as [_ Hv].
  destruct (Hv eq_refl) as [Hy Hf].
  exists t. split; [exact Ht|]. split; [exact Hy | exact Hf].
Defined.

(** X30.  The queries [get_instr_type], [get_version] and
    [get_logging_config] never raise.  Under the binary protocol with a
    station id that is a byte they return the words of the reply, and the
    empty list when no reply arrives; otherwise they return the empty
    list.  [get_instr_type] and [get_version] send the same command and
    give the same result on the same connection. *)
Theorem simple_queries :
  forall (s : session) (sock : socket),
    get_instr_type s sock = get_version s sock
    /\ (protocol s = Acoem -> is_byte (serial_id s) ->
        get_instr_type s sock = Ok (_acoem_decode_response (acoem_reply sock))
        /\ get_logging_config s sock
           = Ok (_acoem_decode_response (acoem_reply sock))
        /\ (len (acoem_reply sock) <= 4 ->
            get_instr_type s sock = Ok []
            /\ get_logging_config s sock = Ok []))
    /\ (protocol s <> Acoem \/ ~ is_byte (serial_id s) ->
        get_instr_type s sock = Ok [] /\ get_logging_config s sock = Ok []).
Proof.
  intros s sock. split; [reflexivity|]. split.
  - intros Hp Hsid.
    assert (E6 : get_logging_config s sock
                 = Ok (_acoem_decode_response (acoem_reply sock))).
    { pose proof (construct_message_general s 6 0 [] Hsid
                    ltac:(unfold is_byte; lia) ltac:(lia) ltac:(constructor))
        as H.
      cbv zeta in H. specialize (H ltac:(vm_compute; reflexivity)).
      unfold get_logging_config. rewrite Hp, H. cbn [bind].
      rewrite tcpip_comm_acoem by assumption. reflexivity. }
    destruct (get_instr_type_acoem s sock Hp Hsid) as [E1 _].
    split; [exact E1|]. split; [exact E6|].
    intros Hlen. rewrite E1, E6.
    assert (Hd : _acoem_decode_response (acoem_reply sock) = []).
    { apply nth_error_ext. intros k.
      rewrite decode_response_nth. unfold response_length.
      rewrite slice_beyond by lia.
      change (int_from_bytes [] / 4) with 0.
      destruct (Z.ltb_spec (Z.of_nat k) 0); [lia|]. now destruct k. }
    rewrite Hd. split; reflexivity.
  - intros [Hp|Hsid].
    + unfold get_instr_type, get_logging_config.
      destruct (protocol s); [contradiction| |]; split; reflexivity.
    + unfold get_instr_type, get_logging_config.
      destruct (protocol s); try (split; reflexivity).
      destruct (construct_message_out_of_range s 1 0 []) as [e1 He1];
        [intros (Hs & _); contradiction|].
      destruct (construct_message_out_of_range s 6 0 []) as [e6 He6];
        [intros (Hs & _); contradiction|].
      rewrite He1, He6. split; reflexivity.
Qed.

Lemma simple_queries_witness :
  get_logging_config (mk_session 5 Acoem)
    [[]; [2; 5; 6; 3; 0; 8; 0; 0; 0; 1; 0; 0; 15; 195; 0; 4]]
  = Ok (_acoem_decode_response
          [2; 5; 6; 3; 0; 8; 0; 0; 0; 1; 0; 0; 15; 195; 0; 4])
  /\ get_instr_type (mk_session 300 Acoem) [[]; [2; 5; 1; 3; 0; 0; 5; 4]]
     = Ok [].
Proof.
  split.
  - apply (proj1 (proj2 (proj1 (proj2 (simple_queries (mk_session 5 Acoem)
             [[]; [2; 5; 6; 3; 0; 8; 0; 0; 0; 1; 0; 0; 15; 195; 0; 4]]))
             eq_refl ltac:(unfold is_byte; simpl; lia)))).
  - refine (proj1 (proj2 (proj2 (simple_queries (mk_session 300 Acoem)
              [[]; [2; 5; 1; 3; 0; 0; 5; 4]])) _)).
    right. unfold is_byte. cbn [serial_id]. lia.
Defined.
